(** * Memory storage subsystem (phase 3): pattern store, knowledge base,
      learning model and their orchestration

    A shallow embedding of
      - [src/phase3/pattern-storage/PatternStorage.ts], with the types of
        [pattern-storage/types.ts]
      - [src/phase3/knowledge-base/KnowledgeBase.ts] (class [KnowledgeBase]),
        with the types of [knowledge-base/types.ts]
      - [src/phase3/learning-model/LearningModel.ts], with the types of
        [learning-model/types.ts]
      - [src/phase3/index.ts] (class [MemoryStorageSystem])
    followed by the properties established about them.  Each definition
    carries the name of the method or field it renders; a Rocq name that
    would clash gets a prefix ([cand_], [ver_], [upd_], [q_], [rel_]).

    Modelling conventions.
      - A JavaScript [number] is modelled by the integer it denotes ([Z]);
        fractional values are outside the model, derived quantities that
        the code computes by division are kept exact in [Q].  Integers are
        printed in full decimal digits, as JavaScript prints them below
        10^21; rounding and overflow of doubles are outside the model, and
        statements that depend on them carry a bound on their inputs.
      - A JavaScript string is a Rocq [string]; each character stands for
        one UTF-16 code unit below 256.
      - A JavaScript [Map] is an insertion-ordered association list
        ([JsMap]): iteration order is observable in the code (queries,
        traversals, pruning), so it is kept.
      - A plain object used as a dictionary ([byType] of the statistics)
        is the list of its own properties together with what every object
        inherits from [Object.prototype].
      - [Date.now()] and [Math.random()] are inputs of the operation that
        reads them.  TensorFlow is modelled by the checks whose failure
        does not depend on the numbers computed (layer construction, tensor
        construction, the shape and compile checks of [fit]); how a fit
        that passes these checks ends is an input.
      - A method is a function from the object's state to an outcome that
        is either a returned value or a thrown error, each with the state
        reached at that point.
      - The file-system mirror of the in-memory maps (writeJSON / remove)
        is not part of the state; its calls are assumed not to throw.  What
        [initialize] reads from disk is an argument of [initialize]. *)

From Stdlib Require Import ZArith QArith Qminmax List String Ascii Bool Lia.
From Stdlib Require Import DecimalString DecimalPos DecimalZ HexadecimalString.
From Stdlib Require Import Sorted Permutation.
Import ListNotations.

Local Open Scope Z_scope.
Local Open Scope list_scope.

(* ===================================================================== *)
(** ** Thrown errors and the state-and-exception monad                    *)
(* ===================================================================== *)

Inductive component := CPatternStorage | CKnowledgeBase | CLearningModel.

(** The [Error] objects the code throws, by the message they carry. *)
Inductive error :=
| NotInitialized (c : component)   (* "... must be initialized before use" *)
| ModelNotInitialized              (* "Model not initialized" *)
| LayerFailure                     (* raised by tf.layers.dense while the network is built *)
| TensorFailure                    (* raised by tf.tensor2d *)
| FitFailure                       (* an exception raised inside model.fit *)
| HistoryFailure                   (* the loss history of a fit without epochs is read *)
| EmptyModelFailure.               (* countParams of a network without layers *)

Inductive outcome (S A : Type) :=
| Ok (a : A) (s : S)
| Throw (e : error) (s : S).
Arguments Ok {S A} a s.
Arguments Throw {S A} e s.

Definition M (S A : Type) := S -> outcome S A.

Definition ret {S A} (a : A) : M S A := fun s => Ok a s.
Definition throw {S A} (e : error) : M S A := fun s => Throw e s.
Definition bind {S A B} (c : M S A) (k : A -> M S B) : M S B :=
  fun s => match c s with
           | Ok a s' => k a s'
           | Throw e s' => Throw e s'
           end.
Definition get_state {S} : M S S := fun s => Ok s s.
Definition put {S} (s' : S) : M S unit := fun _ => Ok tt s'.
Definition modify {S} (f : S -> S) : M S unit := fun s => Ok tt (f s).
(** [try { c } catch (error) { h }] *)
Definition try_catch {S A} (c : M S A) (h : error -> M S A) : M S A :=
  fun s => match c s with
           | Ok a s' => Ok a s'
           | Throw e s' => h e s'
           end.
(** [for (const x of xs) { await body(x) }] *)
Fixpoint for_each {S A} (xs : list A) (body : A -> M S unit) : M S unit :=
  match xs with
  | [] => ret tt
  | x :: rest => bind (body x) (fun _ => for_each rest body)
  end.

Declare Scope monad_scope.
Delimit Scope monad_scope with monad.
Notation "x <- c ;; k" := (bind c (fun x => k))
  (at level 61, c at next level, right associativity) : monad_scope.
Notation "c ;;; k" := (bind c (fun _ => k))
  (at level 61, right associativity) : monad_scope.

Definition state_of {S A} (o : outcome S A) : S :=
  match o with Ok _ s => s | Throw _ s => s end.
Definition value_of {S A} (o : outcome S A) : option A :=
  match o with Ok a _ => Some a | Throw _ _ => None end.

(* ===================================================================== *)
(** ** JavaScript values                                                  *)
(* ===================================================================== *)

Module Js.

Local Open Scope string_scope.

(** Values of type [any] as they occur in pattern data. *)
#[warnings="-register-all"]
Inductive json :=
| JUndefined
| JNull
| JBool (b : bool)
| JNum (n : Z)
| JStr (s : string)
| JArr (xs : list json)
| JObj (fields : list (string * json)).

(** [Record<string, any>]: own enumerable properties in enumeration order. *)
Definition object := list (string * json).

(** ToBoolean. *)
Definition truthy (v : json) : bool :=
  match v with
  | JUndefined | JNull => false
  | JBool b => b
  | JNum n => negb (n =? 0)%Z
  | JStr s => negb (String.eqb s "")
  | JArr _ | JObj _ => true
  end.

Definition truthyZ (n : Z) : bool := negb (n =? 0)%Z.
Definition truthyStr (s : string) : bool := negb (String.eqb s "").

(** Property access [o.k]: [undefined] when the property is absent. *)
Fixpoint prop (k : string) (o : object) : json :=
  match o with
  | [] => JUndefined
  | (k', v) :: rest => if String.eqb k k' then v else prop k rest
  end.

Definition isArray (v : json) : bool :=
  match v with JArr _ => true | _ => false end.

(** [String(n)] of an integer below 10^21 in absolute value: its
    decimal digits, after a minus sign if it is negative. *)
Definition decimal (n : Z) : string :=
  DecimalString.NilZero.string_of_int (Z.to_int n).

(** [n.toString(16)] for a non-negative integer. *)
Definition hex (n : Z) : string :=
  HexadecimalString.NilZero.string_of_uint (N.to_hex_uint (Z.to_N n)).

Fixpoint join (sep : string) (parts : list string) : string :=
  match parts with
  | [] => ""
  | [p] => p
  | p :: rest => (p ++ sep ++ join sep rest)%string
  end.

(** ToString, as applied by template literals and [Array.prototype.join]. *)
Fixpoint toString (v : json) : string :=
  match v with
  | JUndefined => "undefined"
  | JNull => "null"
  | JBool true => "true"
  | JBool false => "false"
  | JNum n => decimal n
  | JStr s => s
  | JArr xs =>
      join "," (map (fun x => match x with
                              | JUndefined | JNull => ""%string
                              | _ => toString x
                              end) xs)
  | JObj _ => "[object Object]"
  end.

(** [xs.join(sep)] *)
Definition arrayJoin (sep : string) (xs : list json) : string :=
  join sep (map (fun x => match x with
                          | JUndefined | JNull => ""%string
                          | _ => toString x
                          end) xs).

Definition hexDigit (n : N) : ascii :=
  ascii_of_N (if (n <? 10)%N then 48 + n else 87 + n)%N.

Definition dquote : ascii := ascii_of_N 34.
Definition backslash : ascii := ascii_of_N 92.

(** One code unit inside a JSON string literal. *)
Definition escapeChar (c : ascii) : string :=
  let n := N_of_ascii c in
  let esc (x : string) := String backslash x in
  if (n =? 34)%N then esc (String dquote EmptyString)
  else if (n =? 92)%N then esc (String backslash EmptyString)
  else if (n =? 8)%N then esc "b"
  else if (n =? 12)%N then esc "f"
  else if (n =? 10)%N then esc "n"
  else if (n =? 13)%N then esc "r"
  else if (n =? 9)%N then esc "t"
  else if (n <? 32)%N then
    esc ("u00" ++ String (hexDigit (n / 16)) (String (hexDigit (n mod 16)) EmptyString))%string
  else String c EmptyString.

Fixpoint escape (s : string) : string :=
  match s with
  | EmptyString => ""%string
  | String c rest => (escapeChar c ++ escape rest)%string
  end.

Definition quote (s : string) : string :=
  (String dquote (escape s) ++ String dquote EmptyString)%string.

(** [JSON.stringify(v)] without indentation.  A property whose value is
    [undefined] is skipped, an [undefined] array element prints as null. *)
Fixpoint stringify (v : json) : string :=
  match v with
  | JUndefined => "null"
  | JNull => "null"
  | JBool true => "true"
  | JBool false => "false"
  | JNum n => decimal n
  | JStr s => quote s
  | JArr xs => ("[" ++ join "," (map stringify xs) ++ "]")%string
  | JObj fields =>
      ("{" ++ join ","
         (flat_map (fun kv =>
                      match snd kv with
                      | JUndefined => []
                      | _ => [(quote (fst kv) ++ ":" ++ stringify (snd kv))%string]
                      end) fields) ++ "}")%string
  end.

(** The functions every object inherits from [Object.prototype], each
    with the name its source text shows.  ([__proto__], an accessor, is
    the twelfth inherited property.) *)
Definition inheritedFunctions : list (string * string) :=
  [("constructor", "Object");
   ("__defineGetter__", "__defineGetter__");
   ("__defineSetter__", "__defineSetter__");
   ("hasOwnProperty", "hasOwnProperty");
   ("__lookupGetter__", "__lookupGetter__");
   ("__lookupSetter__", "__lookupSetter__");
   ("isPrototypeOf", "isPrototypeOf");
   ("propertyIsEnumerable", "propertyIsEnumerable");
   ("toString", "toString");
   ("valueOf", "valueOf");
   ("toLocaleString", "toLocaleString")].

Definition inheritedFunction (k : string) : option string :=
  match find (fun kv => String.eqb k (fst kv)) inheritedFunctions with
  | Some kv => Some (snd kv)
  | None => None
  end.

(** ToString of a built-in function. *)
Definition nativeSource (name : string) : string :=
  "function " ++ name ++ "() { [native code] }".

(** [(v || 0) + 1] *)
Definition orZeroPlusOne (v : json) : json :=
  if truthy v then
    match v with
    | JNum n => JNum (n + 1)
    | JBool _ => JNum 2
    | _ => JStr (toString v ++ "1")
    end
  else JNum 1.

(** A value read where the declared type is [number], [string],
    [string[]] or an object. *)
Definition numberOf (v : json) : Z := match v with JNum n => n | _ => 0%Z end.
Definition stringsOf (v : json) : list string :=
  match v with JArr xs => map toString xs | _ => [] end.
Definition objectOf (v : json) : object := match v with JObj o => o | _ => [] end.

(** The own properties of [o] whose value is not [undefined]: what
    [JSON.stringify] prints of an object. *)
Definition defined (o : object) : object :=
  filter (fun kv => match snd kv with JUndefined => false | _ => true end) o.

(** ToInt32: wrap into the signed 32-bit range. *)
Definition toInt32 (z : Z) : Z := ((z + 2 ^ 31) mod 2 ^ 32 - 2 ^ 31)%Z.

(** [a << k] *)
Definition shl32 (a k : Z) : Z := toInt32 (Z.shiftl (toInt32 a) k).

(** [a & b] *)
Definition and32 (a b : Z) : Z := toInt32 (Z.land (toInt32 a) (toInt32 b)).

Definition charCode (c : ascii) : Z := Z.of_N (N_of_ascii c).

(** The rolling hash shared by [PatternStorage.hashData] and
    [LearningModel.createFeaturesFromPattern]:
<<
    let hash = 0;
    for (let i = 0; i < str.length; i++) {
      const char = str.charCodeAt(i);
      hash = ((hash << 5) - hash) + char;
      hash = hash & hash;
    }
>> *)
Fixpoint rollingHashFrom (hash : Z) (str : string) : Z :=
  match str with
  | EmptyString => hash
  | String c rest =>
      let hash1 := ((shl32 hash 5 - hash) + charCode c)%Z in
      rollingHashFrom (and32 hash1 hash1) rest
  end.

Definition rollingHash (str : string) : Z := rollingHashFrom 0 str.

(** [s.toLowerCase()] on code units below 256. *)
Definition lowerChar (c : ascii) : ascii :=
  let n := N_of_ascii c in
  if ((65 <=? n) && (n <=? 90) || (192 <=? n) && (n <=? 222) && negb (n =? 215))%N
  then ascii_of_N (n + 32) else c.

Fixpoint toLowerCase (s : string) : string :=
  match s with
  | EmptyString => EmptyString
  | String c rest => String (lowerChar c) (toLowerCase rest)
  end.

Fixpoint startsWith (s sub : string) : bool :=
  match sub, s with
  | EmptyString, _ => true
  | String _ _, EmptyString => false
  | String a sub', String b s' => Ascii.eqb a b && startsWith s' sub'
  end.

(** [s.includes(sub)] *)
Fixpoint strIncludes (s sub : string) : bool :=
  startsWith s sub
  || match s with
     | EmptyString => false
     | String _ rest => strIncludes rest sub
     end.

End Js.

(* ===================================================================== *)
(** ** Insertion-ordered maps ([Map<string, V>])                          *)
(* ===================================================================== *)

Module JsMap.

Definition t (V : Type) := list (string * V).

Definition empty {V} : t V := [].

Fixpoint get {V} (k : string) (m : t V) : option V :=
  match m with
  | [] => None
  | (k', v) :: rest => if String.eqb k k' then Some v else get k rest
  end.

Definition has {V} (k : string) (m : t V) : bool :=
  match get k m with Some _ => true | None => false end.

(** [m.set(k, v)]: an existing key keeps its position, a new one goes last. *)
Fixpoint set {V} (k : string) (v : V) (m : t V) : t V :=
  match m with
  | [] => [(k, v)]
  | (k', v') :: rest =>
      if String.eqb k k' then (k', v) :: rest else (k', v') :: set k v rest
  end.

(** [m.delete(k)] *)
Fixpoint delete {V} (k : string) (m : t V) : t V :=
  match m with
  | [] => []
  | (k', v') :: rest =>
      if String.eqb k k' then delete k rest else (k', v') :: delete k rest
  end.

Definition keys {V} (m : t V) : list string := map fst m.
Definition values {V} (m : t V) : list V := map snd m.
Definition size {V} (m : t V) : Z := Z.of_nat (List.length m).

(** Keys are unique: what every map built from [empty] by [set] and
    [delete] satisfies. *)
Definition wf {V} (m : t V) : Prop := NoDup (keys m).

End JsMap.


(* ===================================================================== *)
(** ** PatternStorage.ts                                                  *)
(* ===================================================================== *)

Module PatternStorage.

Import Js.

Record PatternMetadata := {
  confidence : Z;
  frequency : Z;
  lastSeen : Z;
  tags : list string;
  source : string
}.

Record Pattern := {
  id : string;
  type : string;
  data : object;
  metadata : PatternMetadata;
  createdAt : Z;
  updatedAt : Z;
  expiresAt : option Z
}.

(** The argument of [savePattern], of type
    [Omit<Pattern, 'id' | 'createdAt' | 'updatedAt'>]: the object as the
    caller passes it, that is its own properties in the order they were
    written, whatever else it carries.  The four accessors read it as its
    declared type says. *)
Definition Candidate : Type := object.

Definition metadataOf (v : json) : PatternMetadata :=
  let o := objectOf v in
  {| confidence := numberOf (prop "confidence" o);
     frequency := numberOf (prop "frequency" o);
     lastSeen := numberOf (prop "lastSeen" o);
     tags := stringsOf (prop "tags" o);
     source := toString (prop "source" o) |}.

(** [pattern.type], [pattern.data], [pattern.metadata] *)
Definition cand_type (c : Candidate) : string := toString (prop "type" c).
Definition cand_data (c : Candidate) : object := objectOf (prop "data" c).
Definition cand_metadata (c : Candidate) : PatternMetadata := metadataOf (prop "metadata" c).

(** [pattern.expiresAt], absent when the property is missing, [undefined]
    or [null]. *)
Definition cand_expiresAt (c : Candidate) : option Z :=
  match prop "expiresAt" c with JNum n => Some n | _ => None end.

Record PatternVersion := {
  ver_patternId : string;
  ver_version : Z;
  ver_data : object;
  ver_metadata : PatternMetadata;
  ver_timestamp : Z
}.

(** [Partial<PatternMetadata>] *)
Record PartialMetadata := {
  upd_confidence : option Z;
  upd_frequency : option Z;
  upd_lastSeen : option Z;
  upd_tags : option (list string);
  upd_source : option string
}.

Record PatternUpdate := {
  upd_data : option object;
  upd_metadata : option PartialMetadata;
  upd_expiresAt : option Z
}.

Record PatternQuery := {
  q_type : option string;
  q_tags : option (list string);
  q_minConfidence : option Z;
  q_minFrequency : option Z;
  q_createdAfter : option Z;
  q_createdBefore : option Z;
  q_notExpired : option bool
}.

Record PatternStorageConfig := {
  dataDir : string;
  maxVersions : Z;
  defaultExpirationDays : Z
}.

(** The constructor's argument, [Partial<PatternStorageConfig>]. *)
Record PartialConfig := {
  opt_dataDir : option string;
  opt_maxVersions : option Z;
  opt_defaultExpirationDays : option Z
}.

(** The private fields of the class. *)
Record state := {
  config : PatternStorageConfig;
  patterns : JsMap.t Pattern;
  versions : JsMap.t (list PatternVersion);
  initialized : bool
}.

Definition set_patterns (f : JsMap.t Pattern -> JsMap.t Pattern) (s : state) : state :=
  {| config := config s; patterns := f (patterns s);
     versions := versions s; initialized := initialized s |}.

Definition set_versions
  (f : JsMap.t (list PatternVersion) -> JsMap.t (list PatternVersion)) (s : state) : state :=
  {| config := config s; patterns := patterns s;
     versions := f (versions s); initialized := initialized s |}.

Definition set_initialized (b : bool) (s : state) : state :=
  {| config := config s; patterns := patterns s;
     versions := versions s; initialized := b |}.

(** [x || d] on an optional number and on an optional string. *)
Definition orZ (x : option Z) (d : Z) : Z :=
  match x with
  | Some n => if truthyZ n then n else d
  | None => d
  end.

Definition orStr (x : option string) (d : string) : string :=
  match x with
  | Some v => if truthyStr v then v else d
  | None => d
  end.

(** [x ?? d] *)
Definition nullish {A} (x : option A) (d : A) : A :=
  match x with Some v => v | None => d end.

Definition noConfig : PartialConfig :=
  {| opt_dataDir := None; opt_maxVersions := None; opt_defaultExpirationDays := None |}.

(** [new PatternStorage(config)] *)
Definition new (cfg : PartialConfig) : state :=
  {| config := {| dataDir := orStr (opt_dataDir cfg) "./data/patterns";
                  maxVersions := orZ (opt_maxVersions cfg) 10;
                  defaultExpirationDays := orZ (opt_defaultExpirationDays cfg) 30 |};
     patterns := JsMap.empty;
     versions := JsMap.empty;
     initialized := false |}.

Definition ensureInitialized : M state unit :=
  fun s => if initialized s then Ok tt s else Throw (NotInitialized CPatternStorage) s.

Definition metadata_json (m : PatternMetadata) : json :=
  JObj [("confidence"%string, JNum (confidence m));
        ("frequency"%string, JNum (frequency m));
        ("lastSeen"%string, JNum (lastSeen m));
        ("tags"%string, JArr (map JStr (tags m)));
        ("source"%string, JStr (source m))].

(** A candidate written as the object literal
    [{ type, data, metadata }] or [{ type, data, metadata, expiresAt }],
    the way the tests and [index.ts] write it, with the metadata written
    in the order of the [PatternMetadata] interface. *)
Definition mkCandidate (type_ : string) (data_ : object) (metadata_ : PatternMetadata)
  (expiresAt_ : option Z) : Candidate :=
  [("type"%string, JStr type_);
   ("data"%string, JObj data_);
   ("metadata"%string, metadata_json metadata_)]
  ++ match expiresAt_ with Some e => [("expiresAt"%string, JNum e)] | None => [] end.

(** [hashData(data)]: [Math.abs(hash).toString(16)] of the rolling hash of
    [JSON.stringify(data)]. *)
Definition hashData (v : json) : string :=
  hex (Z.abs (rollingHash (stringify v))).

(** [generatePatternId(pattern)]: [`${pattern.type}-${hash}`] where the
    hash is taken of the whole argument. *)
Definition generatePatternId (c : Candidate) : string :=
  (cand_type c ++ "-" ++ hashData (JObj c))%string.

(** [versions.shift()] *)
Definition shift {A} (l : list A) : list A := tl l.

(** [createVersion(pattern)]; [ts] is the [Date.now()] it reads. *)
Definition createVersion (ts : Z) (pattern : Pattern) : M state unit :=
  fun s =>
    let vs := nullish (JsMap.get (id pattern) (versions s)) [] in
    let nextVersion := Z.of_nat (List.length vs) + 1 in
    let version := {| ver_patternId := id pattern;
                      ver_version := nextVersion;
                      ver_data := data pattern;
                      ver_metadata := metadata pattern;
                      ver_timestamp := ts |} in
    let pushed := vs ++ [version] in
    let trimmed :=
      if Z.of_nat (List.length pushed) >? maxVersions (config s)
      then shift pushed else pushed in
    Ok tt (set_versions (JsMap.set (id pattern) trimmed) s).

Definition msPerDay : Z := 24 * 60 * 60 * 1000.

(** [savePattern(pattern)]; [now] is the [Date.now()] of line 57 and
    [ts] the one read by [createVersion]. *)
Definition savePattern (now ts : Z) (pattern : Candidate) : M state Pattern :=
  (ensureInitialized ;;;
   s <- get_state ;;
   let id_ := generatePatternId pattern in
   let expiresAt_ :=
     nullish (cand_expiresAt pattern)
             (now + defaultExpirationDays (config s) * msPerDay) in
   let newPattern := {| id := id_;
                        type := cand_type pattern;
                        data := cand_data pattern;
                        metadata := cand_metadata pattern;
                        createdAt := now;
                        updatedAt := now;
                        expiresAt := Some expiresAt_ |} in
   (match JsMap.get id_ (patterns s) with
    | Some existing => createVersion ts existing
    | None => ret tt
    end) ;;;
   modify (set_patterns (JsMap.set id_ newPattern)) ;;;
   ret newPattern)%monad.

(** [pattern.expiresAt && now > pattern.expiresAt] *)
Definition isExpired (now : Z) (p : Pattern) : bool :=
  match expiresAt p with
  | Some e => truthyZ e && (now >? e)
  | None => false
  end.

(** [deletePattern(id)] *)
Definition deletePattern (id_ : string) : M state bool :=
  (ensureInitialized ;;;
   s <- get_state ;;
   if negb (JsMap.has id_ (patterns s)) then ret false
   else
     modify (set_patterns (JsMap.delete id_)) ;;;
     modify (set_versions (JsMap.delete id_)) ;;;
     ret true)%monad.

(** [getPattern(id)]; [now] is its [Date.now()]. *)
Definition getPattern (now : Z) (id_ : string) : M state (option Pattern) :=
  (ensureInitialized ;;;
   s <- get_state ;;
   match JsMap.get id_ (patterns s) with
   | None => ret None
   | Some pattern =>
       if isExpired now pattern
       then deletePattern id_ ;;; ret None
       else ret (Some pattern)
   end)%monad.

(** [{ ...pattern.metadata, ...update.metadata }] *)
Definition mergeMetadata (m : PatternMetadata) (u : option PartialMetadata) : PatternMetadata :=
  match u with
  | None => m
  | Some u =>
      {| confidence := nullish (upd_confidence u) (confidence m);
         frequency := nullish (upd_frequency u) (frequency m);
         lastSeen := nullish (upd_lastSeen u) (lastSeen m);
         tags := nullish (upd_tags u) (tags m);
         source := nullish (upd_source u) (source m) |}
  end.

(** [a ?? b] where both sides are optional. *)
Definition nullishOpt {A} (a b : option A) : option A :=
  match a with Some _ => a | None => b end.

(** [updatePattern(id, update)]; [ts] is read by [createVersion], [now]
    is the [Date.now()] stored in [updatedAt]. *)
Definition updatePattern (ts now : Z) (id_ : string) (update : PatternUpdate)
  : M state (option Pattern) :=
  (ensureInitialized ;;;
   s <- get_state ;;
   match JsMap.get id_ (patterns s) with
   | None => ret None
   | Some pattern =>
       createVersion ts pattern ;;;
       let updatedPattern :=
         {| id := id pattern;
            type := type pattern;
            data := nullish (upd_data update) (data pattern);
            metadata := mergeMetadata (metadata pattern) (upd_metadata update);
            createdAt := createdAt pattern;
            updatedAt := now;
            expiresAt := nullishOpt (upd_expiresAt update) (expiresAt pattern) |} in
       modify (set_patterns (JsMap.set id_ updatedPattern)) ;;;
       ret (Some updatedPattern)
   end)%monad.

Definition optTruthyZ (x : option Z) : bool :=
  match x with Some n => truthyZ n | None => false end.

Definition includes (x : string) (l : list string) : bool :=
  existsb (String.eqb x) l.

(** The body of the loop of [queryPatterns]: [true] when the pattern is
    pushed to the results. *)
Definition matchesQuery (now : Z) (query : PatternQuery) (pattern : Pattern) : bool :=
  negb (nullish (q_notExpired query) false && isExpired now pattern)
  && negb (match q_type query with
           | Some t => truthyStr t && negb (String.eqb (type pattern) t)
           | None => false
           end)
  && negb (match q_tags query with
           | Some ts =>
               (0 <? Z.of_nat (List.length ts))
               && negb (forallb (fun tag => includes tag (tags (metadata pattern))) ts)
           | None => false
           end)
  && negb (match q_minConfidence query with
           | Some c => confidence (metadata pattern) <? c
           | None => false
           end)
  && negb (match q_minFrequency query with
           | Some f => frequency (metadata pattern) <? f
           | None => false
           end)
  && negb (match q_createdAfter query with
           | Some t => truthyZ t && (createdAt pattern <? t)
           | None => false
           end)
  && negb (match q_createdBefore query with
           | Some t => truthyZ t && (createdAt pattern >? t)
           | None => false
           end).

Definition emptyQuery : PatternQuery :=
  {| q_type := None; q_tags := None; q_minConfidence := None;
     q_minFrequency := None; q_createdAfter := None; q_createdBefore := None;
     q_notExpired := None |}.

(** [queryPatterns(query)] *)
Definition queryPatterns (now : Z) (query : PatternQuery) : M state (list Pattern) :=
  (ensureInitialized ;;;
   s <- get_state ;;
   ret (filter (matchesQuery now query) (JsMap.values (patterns s))))%monad.

(** [getPatternVersions(id)] *)
Definition getPatternVersions (id_ : string) : M state (list PatternVersion) :=
  (ensureInitialized ;;;
   s <- get_state ;;
   ret (nullish (JsMap.get id_ (versions s)) []))%monad.

(** [restorePattern(id, version)]; [ts] is read by [createVersion],
    [tc] is the [Date.now()] in the [createdAt] default, [now] the one
    stored in [updatedAt]. *)
Definition restorePattern (ts tc now : Z) (id_ : string) (version : Z)
  : M state (option Pattern) :=
  (ensureInitialized ;;;
   s <- get_state ;;
   match JsMap.get id_ (versions s) with
   | None => ret None
   | Some [] => ret None
   | Some vs =>
       match find (fun v => ver_version v =? version) vs with
       | None => ret None
       | Some versionData =>
           let currentPattern := JsMap.get id_ (patterns s) in
           (match currentPattern with
            | Some p => createVersion ts p
            | None => ret tt
            end) ;;;
           let restoredPattern :=
             {| id := id_;
                type := orStr (option_map type currentPattern) "unknown";
                data := ver_data versionData;
                metadata := ver_metadata versionData;
                createdAt := orZ (option_map createdAt currentPattern) tc;
                updatedAt := now;
                expiresAt := match currentPattern with
                             | Some p => expiresAt p
                             | None => None
                             end |} in
           modify (set_patterns (JsMap.set id_ restoredPattern)) ;;;
           ret (Some restoredPattern)
       end
   end)%monad.

(** One pattern file as [loadAllPatterns] finds it, with the content of
    its versions file when that exists. *)
Definition diskEntry : Type := Pattern * option (list PatternVersion).

(** [loadAllPatterns()] over the readable pattern files of the data
    directory; a record with a falsy [id] is skipped. *)
Fixpoint loadAllPatterns (files : list diskEntry) (s : state) : state :=
  match files with
  | [] => s
  | (p, vs) :: rest =>
      if truthyStr (id p) then
        let s1 := set_patterns (JsMap.set (id p) p) s in
        let s2 := match vs with
                  | Some l => set_versions (JsMap.set (id p) l) s1
                  | None => s1
                  end in
        loadAllPatterns rest s2
      else loadAllPatterns rest s
  end.

(** [cleanExpiredPatterns()] *)
Definition cleanExpiredPatterns (now : Z) : M state unit :=
  (s <- get_state ;;
   let expiredIds := map fst (filter (fun kv => isExpired now (snd kv)) (patterns s)) in
   for_each expiredIds (fun id_ => deletePattern id_ ;;; ret tt))%monad.

(** [initialize()]; [files] is what the data directory holds and [now]
    the [Date.now()] read by [cleanExpiredPatterns]. *)
Definition initialize (files : list diskEntry) (now : Z) : M state unit :=
  (s <- get_state ;;
   if initialized s then ret tt
   else
     modify (loadAllPatterns files) ;;;
     cleanExpiredPatterns now ;;;
     modify (set_initialized true))%monad.

(** [byType] is a plain object created by [{}]: it is given by its own
    properties, and a key it does not own is read from
    [Object.prototype]. *)
Record Stats := {
  totalPatterns : Z;
  totalVersions : Z;
  byType : JsMap.t json
}.

(** [(byType[k] || 0) + 1]: for a key that [byType] does not own and that
    names an inherited function, the sum is the source text of that
    function followed by 1. *)
Definition nextCount (k : string) (byType_ : JsMap.t json) : json :=
  match JsMap.get k byType_ with
  | Some v => orZeroPlusOne v
  | None =>
      match inheritedFunction k with
      | Some name => JStr (nativeSource name ++ "1")
      | None => JNum 1
      end
  end.

(** [byType[k] = (byType[k] || 0) + 1].  For the key [__proto__] the sum
    is a string, and assigning a string to [__proto__] is ignored. *)
Definition countUp (k : string) (byType_ : JsMap.t json) : JsMap.t json :=
  if String.eqb k "__proto__" then byType_
  else JsMap.set k (nextCount k byType_) byType_.

(** [getStats()]: it has no initialization check. *)
Definition getStats : M state Stats :=
  (s <- get_state ;;
   ret {| totalPatterns := JsMap.size (patterns s);
          totalVersions :=
            fold_left (fun acc vs => acc + Z.of_nat (List.length vs))
                      (JsMap.values (versions s)) 0;
          byType :=
            fold_left (fun acc p => countUp (type p) acc)
                      (JsMap.values (patterns s)) JsMap.empty |})%monad.

(** A call of a public method, with the clock readings it consumes. *)
Inductive call :=
| CallSave (now ts : Z) (c : Candidate)
| CallGet (now : Z) (id_ : string)
| CallUpdate (ts now : Z) (id_ : string) (u : PatternUpdate)
| CallDelete (id_ : string)
| CallQuery (now : Z) (q : PatternQuery)
| CallVersions (id_ : string)
| CallRestore (ts tc now : Z) (id_ : string) (version : Z)
| CallStats.

(** The state a call leaves behind, whether it returns or throws. *)
Definition after (c : call) (s : state) : state :=
  match c with
  | CallSave now ts c => state_of (savePattern now ts c s)
  | CallGet now id_ => state_of (getPattern now id_ s)
  | CallUpdate ts now id_ u => state_of (updatePattern ts now id_ u s)
  | CallDelete id_ => state_of (deletePattern id_ s)
  | CallQuery now q => state_of (queryPatterns now q s)
  | CallVersions id_ => state_of (getPatternVersions id_ s)
  | CallRestore ts tc now id_ v => state_of (restorePattern ts tc now id_ v s)
  | CallStats => state_of (getStats s)
  end.

(** The states of a store constructed with [cfg] over a data directory
    holding [files]. *)
Inductive reachable (cfg : PartialConfig) (files : list diskEntry) : state -> Prop :=
| reach_new : reachable cfg files (new cfg)
| reach_initialize now s :
    reachable cfg files s -> reachable cfg files (state_of (initialize files now s))
| reach_call c s :
    reachable cfg files s -> reachable cfg files (after c s).

(** [updatePattern] applied once per element of [us], each with its two
    clock readings. *)
Definition updateAll (id_ : string) (us : list (Z * Z * PatternUpdate)) (s : state) : state :=
  fold_left (fun st u => state_of (updatePattern (fst (fst u)) (snd (fst u)) id_ (snd u) st))
            us s.

End PatternStorage.

(* ===================================================================== *)
(** ** KnowledgeBase.ts                                                   *)
(* ===================================================================== *)

Module KnowledgeBase.

Import Js.

Inductive KnowledgeType := fact | rule | relationship | concept.

Inductive RelationshipType :=
  causal | temporal | hierarchical | associative | contradictory.

Record KnowledgeMetadata := {
  confidence : Z;
  sources : list string;
  frequency : Z;
  tags : list string;
  lastVerified : option Z
}.

Record KnowledgeItem := {
  id : string;
  patternId : string;
  type : KnowledgeType;
  content : string;
  structuredData : object;
  metadata : KnowledgeMetadata;
  createdAt : Z;
  updatedAt : Z
}.

Record KnowledgeRelationship := {
  rel_id : string;
  fromId : string;
  toId : string;
  rel_type : RelationshipType;
  strength : Q;
  rel_metadata : option object
}.

Record KnowledgeExtractionResult := {
  extractedItems : list KnowledgeItem;
  relationships_found : list KnowledgeRelationship
}.

Record KnowledgeBaseConfig := {
  dataDir : string;
  maxItems : Z;
  enablePersistence : bool
}.

Record PartialConfig := {
  opt_dataDir : option string;
  opt_maxItems : option Z;
  opt_enablePersistence : option bool
}.

(** [Set<string>]: insertion-ordered, without repetition. *)
Definition StrSet := list string.

Definition set_has (x : string) (s : StrSet) : bool := existsb (String.eqb x) s.
Definition set_add (x : string) (s : StrSet) : StrSet :=
  if set_has x s then s else s ++ [x].
Definition set_delete (x : string) (s : StrSet) : StrSet :=
  filter (fun y => negb (String.eqb x y)) s.

Record state := {
  config : KnowledgeBaseConfig;
  items : JsMap.t KnowledgeItem;
  relationships : JsMap.t KnowledgeRelationship;
  patternIndex : JsMap.t StrSet;
  tagIndex : JsMap.t StrSet;
  initialized : bool
}.

Definition set_items (f : JsMap.t KnowledgeItem -> JsMap.t KnowledgeItem) (s : state) :=
  {| config := config s; items := f (items s); relationships := relationships s;
     patternIndex := patternIndex s; tagIndex := tagIndex s;
     initialized := initialized s |}.

Definition set_relationships
  (f : JsMap.t KnowledgeRelationship -> JsMap.t KnowledgeRelationship) (s : state) :=
  {| config := config s; items := items s; relationships := f (relationships s);
     patternIndex := patternIndex s; tagIndex := tagIndex s;
     initialized := initialized s |}.

Definition set_patternIndex (f : JsMap.t StrSet -> JsMap.t StrSet) (s : state) :=
  {| config := config s; items := items s; relationships := relationships s;
     patternIndex := f (patternIndex s); tagIndex := tagIndex s;
     initialized := initialized s |}.

Definition set_tagIndex (f : JsMap.t StrSet -> JsMap.t StrSet) (s : state) :=
  {| config := config s; items := items s; relationships := relationships s;
     patternIndex := patternIndex s; tagIndex := f (tagIndex s);
     initialized := initialized s |}.

Definition set_initialized (b : bool) (s : state) :=
  {| config := config s; items := items s; relationships := relationships s;
     patternIndex := patternIndex s; tagIndex := tagIndex s;
     initialized := b |}.

Definition nullish {A} (x : option A) (d : A) : A :=
  match x with Some v => v | None => d end.

Definition noConfig : PartialConfig :=
  {| opt_dataDir := None; opt_maxItems := None; opt_enablePersistence := None |}.

(** [new KnowledgeBase(config)] *)
Definition new (cfg : PartialConfig) : state :=
  {| config := {| dataDir := nullish (opt_dataDir cfg) "./data/knowledge"%string;
                  maxItems := nullish (opt_maxItems cfg) 10000;
                  enablePersistence := nullish (opt_enablePersistence cfg) true |};
     items := JsMap.empty;
     relationships := JsMap.empty;
     patternIndex := JsMap.empty;
     tagIndex := JsMap.empty;
     initialized := false |}.

Definition ensureInitialized : M state unit :=
  fun s => if initialized s then Ok tt s else Throw (NotInitialized CKnowledgeBase) s.

(** [`knowledge-${Date.now()}-${Math.random().toString(36).substr(2, 9)}`]:
    [now] is the clock reading and [rnd] the nine base-36 digits drawn. *)
Definition generateKnowledgeId (now : Z) (rnd : string) : string :=
  ("knowledge-" ++ decimal now ++ "-" ++ rnd)%string.

(** [`rel-${Date.now()}-${Math.random().toString(36).substr(2, 9)}`] *)
Definition generateRelationshipId (now : Z) (rnd : string) : string :=
  ("rel-" ++ decimal now ++ "-" ++ rnd)%string.

(** What the construction of one item reads from the clock and from the
    random generator, in evaluation order of the object literal. *)
Record ItemEnv := {
  idNow : Z;
  idRnd : string;
  verifiedNow : Z;
  createdNow : Z;
  updatedNow : Z
}.

Definition mkItem (env : ItemEnv) (pattern : PatternStorage.Pattern)
  (ty : KnowledgeType) (content_ : string) (structured : object)
  (ownTags : list string) : KnowledgeItem :=
  let pm := PatternStorage.metadata pattern in
  {| id := generateKnowledgeId (idNow env) (idRnd env);
     patternId := PatternStorage.id pattern;
     type := ty;
     content := content_;
     structuredData := structured;
     metadata := {| confidence := PatternStorage.confidence pm;
                    sources := [PatternStorage.source pm];
                    frequency := PatternStorage.frequency pm;
                    tags := ownTags ++ PatternStorage.tags pm;
                    lastVerified := Some (verifiedNow env) |};
     createdAt := createdNow env;
     updatedAt := updatedNow env |}.

Definition extractBehavioralKnowledge (env : ItemEnv) (pattern : PatternStorage.Pattern)
  : list KnowledgeItem :=
  let data := PatternStorage.data pattern in
  if truthy (prop "trigger" data) && truthy (prop "action" data) then
    [mkItem env pattern rule
       ("When " ++ toString (prop "trigger" data) ++ ", then "
                ++ toString (prop "action" data))%string
       [("trigger"%string, prop "trigger" data);
        ("action"%string, prop "action" data);
        ("context"%string, prop "context" data)]
       ["behavioral"%string; "rule"%string]]
  else [].

Definition extractTemporalKnowledge (env : ItemEnv) (pattern : PatternStorage.Pattern)
  : list KnowledgeItem :=
  let data := PatternStorage.data pattern in
  match prop "sequence" data with
  | JArr xs =>
      [mkItem env pattern relationship
         ("Temporal sequence: " ++ arrayJoin " -> " xs)%string
         [("sequence"%string, prop "sequence" data);
          ("interval"%string, prop "interval" data);
          ("duration"%string, prop "duration" data)]
         ["temporal"%string; "sequence"%string]]
  | _ => []
  end.

(** The separator of [steps.join]: a space, U+2192 and a space; the arrow
    is written as its three UTF-8 bytes. *)
Definition arrowSep : string :=
  String (ascii_of_N 32) (String (ascii_of_N 226) (String (ascii_of_N 134)
    (String (ascii_of_N 146) (String (ascii_of_N 32) EmptyString)))).

Definition extractSequentialKnowledge (env : ItemEnv) (pattern : PatternStorage.Pattern)
  : list KnowledgeItem :=
  let data := PatternStorage.data pattern in
  match prop "steps" data with
  | JArr xs =>
      [mkItem env pattern rule
         ("Sequential pattern: " ++ arrayJoin arrowSep xs)%string
         [("steps"%string, prop "steps" data);
          ("conditions"%string, prop "conditions" data)]
         ["sequential"%string; "rule"%string]]
  | _ => []
  end.

Definition extractCategoricalKnowledge (env : ItemEnv) (pattern : PatternStorage.Pattern)
  : list KnowledgeItem :=
  let data := PatternStorage.data pattern in
  if truthy (prop "category" data) && truthy (prop "items" data) then
    [mkItem env pattern concept
       ("Category " ++ toString (prop "category" data) ++ " contains: "
          ++ match prop "items" data with
             | JArr xs => arrayJoin ", " xs
             | v => toString v
             end)%string
       [("category"%string, prop "category" data);
        ("items"%string, prop "items" data);
        ("attributes"%string, prop "attributes" data)]
       ["categorical"%string; "concept"%string]]
  else [].

Definition extractGenericKnowledge (env : ItemEnv) (pattern : PatternStorage.Pattern)
  : KnowledgeItem :=
  let data := PatternStorage.data pattern in
  mkItem env pattern fact (stringify (JObj data)) data ["generic"%string].

(** The pairs [(items[i], items[j])], [i < j], in the order of the two
    nested loops of [analyzeRelationships]. *)
Fixpoint orderedPairs {A} (l : list A) : list (A * A) :=
  match l with
  | [] => []
  | x :: rest => map (fun y => (x, y)) rest ++ orderedPairs rest
  end.

(** [analyzeRelationships(items)]; [relEnv k] is what the [k]-th call of
    [generateRelationshipId] reads. *)
Definition analyzeRelationships (relEnv : nat -> Z * string) (its : list KnowledgeItem)
  : list KnowledgeRelationship :=
  fold_left
    (fun acc pr =>
       let item1 := fst pr in
       let item2 := snd pr in
       let commonTags :=
         filter (fun tag => existsb (String.eqb tag) (tags (metadata item2)))
                (tags (metadata item1)) in
       if (0 <? Z.of_nat (List.length commonTags)) then
         let e := relEnv (List.length acc) in
         acc ++ [{| rel_id := generateRelationshipId (fst e) (snd e);
                    fromId := id item1;
                    toId := id item2;
                    rel_type := associative;
                    strength :=
                      (inject_Z (Z.of_nat (List.length commonTags))
                       / inject_Z (Z.max (Z.of_nat (List.length (tags (metadata item1))))
                                         (Z.of_nat (List.length (tags (metadata item2))))))%Q;
                    rel_metadata := Some [("commonTags"%string, JArr (map JStr commonTags))] |}]
       else acc)
    (orderedPairs its) [].

Record ExtractEnv := {
  itemEnv : ItemEnv;
  relEnv : nat -> Z * string
}.

(** The body of [extractKnowledge(pattern)]: it reads none of the
    object's fields. *)
Definition extract (env : ExtractEnv) (pattern : PatternStorage.Pattern)
  : KnowledgeExtractionResult :=
  let ty := PatternStorage.type pattern in
  let extracted :=
    if String.eqb ty "behavioral" then extractBehavioralKnowledge (itemEnv env) pattern
    else if String.eqb ty "temporal" then extractTemporalKnowledge (itemEnv env) pattern
    else if String.eqb ty "sequential" then extractSequentialKnowledge (itemEnv env) pattern
    else if String.eqb ty "categorical" then extractCategoricalKnowledge (itemEnv env) pattern
    else [extractGenericKnowledge (itemEnv env) pattern] in
  let rels :=
    if (1 <? Z.of_nat (List.length extracted))
    then analyzeRelationships (relEnv env) extracted else [] in
  {| extractedItems := extracted; relationships_found := rels |}.

(** [extractKnowledge(pattern)]: no initialization check. *)
Definition extractKnowledge (env : ExtractEnv) (pattern : PatternStorage.Pattern)
  : M state KnowledgeExtractionResult :=
  ret (extract env pattern).

(** [updatePatternIndex(item)] *)
Definition updatePatternIndex (item : KnowledgeItem) : M state unit :=
  modify (set_patternIndex (fun idx =>
    JsMap.set (patternId item)
              (set_add (id item) (nullish (JsMap.get (patternId item) idx) [])) idx)).

(** [updateTagIndex(item)] *)
Definition updateTagIndex (item : KnowledgeItem) : M state unit :=
  for_each (tags (metadata item)) (fun tag =>
    modify (set_tagIndex (fun idx =>
      JsMap.set tag (set_add (id item) (nullish (JsMap.get tag idx) [])) idx))).

Definition removeFromIndex (key itemId : string) (idx : JsMap.t StrSet) : JsMap.t StrSet :=
  match JsMap.get key idx with
  | Some ids =>
      let ids' := set_delete itemId ids in
      if (Z.of_nat (List.length ids') =? 0)
      then JsMap.delete key idx
      else JsMap.set key ids' idx
  | None => idx
  end.

(** [removeFromPatternIndex(item)] *)
Definition removeFromPatternIndex (item : KnowledgeItem) : M state unit :=
  modify (set_patternIndex (removeFromIndex (patternId item) (id item))).

(** [removeFromTagIndex(item)] *)
Definition removeFromTagIndex (item : KnowledgeItem) : M state unit :=
  for_each (tags (metadata item)) (fun tag =>
    modify (set_tagIndex (removeFromIndex tag (id item)))).

Definition touches (id_ : string) (rel : KnowledgeRelationship) : bool :=
  String.eqb (fromId rel) id_ || String.eqb (toId rel) id_.

(** [removeKnowledge(id)] *)
Definition removeKnowledge (id_ : string) : M state bool :=
  (ensureInitialized ;;;
   s <- get_state ;;
   match JsMap.get id_ (items s) with
   | None => ret false
   | Some item =>
       removeFromPatternIndex item ;;;
       removeFromTagIndex item ;;;
       modify (set_items (JsMap.delete id_)) ;;;
       s1 <- get_state ;;
       let relationshipsToRemove :=
         map fst (filter (fun kv => touches id_ (snd kv)) (relationships s1)) in
       for_each relationshipsToRemove (fun relId =>
         modify (set_relationships (JsMap.delete relId))) ;;;
       ret true
   end)%monad.

(** Stable insertion sort, the order [Array.prototype.sort] produces for
    the comparator [(a, b) => key(a) - key(b)]. *)
Fixpoint insertBy {A} (le : A -> A -> bool) (x : A) (l : list A) : list A :=
  match l with
  | [] => [x]
  | y :: rest => if le x y then x :: l else y :: insertBy le x rest
  end.

Definition sortBy {A} (le : A -> A -> bool) (l : list A) : list A :=
  fold_right (insertBy le) [] l.

(** [pruneOldItems(count)] *)
Definition pruneOldItems (count : Z) : M state unit :=
  (s <- get_state ;;
   let itemsByAge :=
     sortBy (fun a b => createdAt (snd a) <=? createdAt (snd b)) (items s) in
   let n := Z.to_nat (Z.min count (Z.of_nat (List.length itemsByAge))) in
   for_each (firstn n itemsByAge) (fun kv => removeKnowledge (fst kv) ;;; ret tt))%monad.

(** [addKnowledge(item)] *)
Definition addKnowledge (item : KnowledgeItem) : M state unit :=
  (ensureInitialized ;;;
   s <- get_state ;;
   (if JsMap.size (items s) >=? maxItems (config s)
    then pruneOldItems 1 else ret tt) ;;;
   modify (set_items (JsMap.set (id item) item)) ;;;
   updatePatternIndex item ;;;
   updateTagIndex item)%monad.

(** [addKnowledgeItems(items)] *)
Definition addKnowledgeItems (its : list KnowledgeItem) : M state unit :=
  (ensureInitialized ;;;
   for_each its addKnowledge)%monad.

(** [addRelationship(relationship)] *)
Definition addRelationship (rel : KnowledgeRelationship) : M state unit :=
  (ensureInitialized ;;;
   modify (set_relationships (JsMap.set (rel_id rel) rel)))%monad.

(** [getKnowledge(id)] *)
Definition getKnowledge (id_ : string) : M state (option KnowledgeItem) :=
  (ensureInitialized ;;;
   s <- get_state ;;
   ret (JsMap.get id_ (items s)))%monad.

(** [getRelationship(id)] *)
Definition getRelationship (id_ : string) : M state (option KnowledgeRelationship) :=
  (ensureInitialized ;;;
   s <- get_state ;;
   ret (JsMap.get id_ (relationships s)))%monad.

(** The neighbour a relationship gives to [id_]: [toId] when [id_] is the
    source, else [fromId] when [id_] is the target. *)
Definition neighborOf (id_ : string) (rel : KnowledgeRelationship) : option string :=
  if String.eqb (fromId rel) id_ then Some (toId rel)
  else if String.eqb (toId rel) id_ then Some (fromId rel)
  else None.

(** The closure [traverse(id, depth)] of [findRelatedItems], acting on
    the pair of [visited] and [result].  Every recursive call is made at
    [depth + 1], so the test [depth > maxDepth] is the test that
    [remaining = maxDepth - depth + 1] has reached zero, and the recursion
    is structural in [remaining]. *)
Fixpoint traverse (its : JsMap.t KnowledgeItem) (rels : list KnowledgeRelationship)
  (remaining : nat) (id_ : string) (st : StrSet * list KnowledgeItem)
  : StrSet * list KnowledgeItem :=
  match remaining with
  | O => st
  | S remaining' =>
      if set_has id_ (fst st) then st
      else
        fold_left
          (fun st' rel =>
             match neighborOf id_ rel with
             | Some neighborId =>
                 if truthyStr neighborId && negb (set_has neighborId (fst st')) then
                   match JsMap.get neighborId its with
                   | Some neighbor =>
                       traverse its rels remaining' neighborId
                                (fst st', snd st' ++ [neighbor])
                   | None => st'
                   end
                 else st'
             | None => st'
             end)
          rels (set_add id_ (fst st), snd st)
  end.

(** [findRelatedItems(itemId, maxDepth)] *)
Definition findRelatedItems (itemId : string) (maxDepth : Z)
  : M state (list KnowledgeItem) :=
  (ensureInitialized ;;;
   s <- get_state ;;
   ret (snd (traverse (items s) (JsMap.values (relationships s))
                      (Z.to_nat (maxDepth + 1)) itemId ([], []))))%monad.

Record KnowledgeUpdate := {
  upd_content : option string;
  upd_structuredData : option object;
  upd_metadata : option KnowledgeMetadata
}.

(** [updateKnowledge(id, updates)]; [now] is its [Date.now()]. *)
Definition updateKnowledge (now : Z) (id_ : string) (updates : KnowledgeUpdate)
  : M state (option KnowledgeItem) :=
  (ensureInitialized ;;;
   s <- get_state ;;
   match JsMap.get id_ (items s) with
   | None => ret None
   | Some item =>
       let updatedItem :=
         {| id := id item;
            patternId := patternId item;
            type := type item;
            content := nullish (upd_content updates) (content item);
            structuredData := nullish (upd_structuredData updates) (structuredData item);
            metadata := nullish (upd_metadata updates) (metadata item);
            createdAt := createdAt item;
            updatedAt := now |} in
       modify (set_items (JsMap.set id_ updatedItem)) ;;;
       ret (Some updatedItem)
   end)%monad.

Definition typeName (t : KnowledgeType) : string :=
  match t with
  | fact => "fact" | rule => "rule"
  | relationship => "relationship" | concept => "concept"
  end.

Record KnowledgeStats := {
  totalItems : Z;
  byType : JsMap.t json;
  totalRelationships : Z;
  averageConfidence : Q
}.

(** [getStats()]: no initialization check. *)
Definition getStats : M state KnowledgeStats :=
  (s <- get_state ;;
   let totalConfidence :=
     fold_left (fun acc it => acc + confidence (metadata it)) (JsMap.values (items s)) 0 in
   ret {| totalItems := JsMap.size (items s);
          byType := fold_left (fun acc it => PatternStorage.countUp (typeName (type it)) acc)
                              (JsMap.values (items s)) JsMap.empty;
          totalRelationships := JsMap.size (relationships s);
          averageConfidence :=
            if (JsMap.size (items s) >? 0)
            then (inject_Z totalConfidence / inject_Z (JsMap.size (items s)))%Q
            else 0%Q |})%monad.

(** What [loadAllKnowledge] finds in the data directory: the readable
    knowledge files and the content of relationships.json, if present. *)
Record Disk := {
  knowledgeFiles : list KnowledgeItem;
  relationshipsFile : option (list KnowledgeRelationship)
}.

(** [loadAllKnowledge()] *)
Definition loadAllKnowledge (disk : Disk) : M state unit :=
  (for_each (knowledgeFiles disk) (fun item =>
     if truthyStr (id item) then
       modify (set_items (JsMap.set (id item) item)) ;;;
       updatePatternIndex item ;;;
       updateTagIndex item
     else ret tt) ;;;
   match relationshipsFile disk with
   | Some rels =>
       for_each rels (fun rel =>
         if truthyStr (rel_id rel)
         then modify (set_relationships (JsMap.set (rel_id rel) rel))
         else ret tt)
   | None => ret tt
   end)%monad.

(** [initialize()] *)
Definition initialize (disk : Disk) : M state unit :=
  (s <- get_state ;;
   if initialized s then ret tt
   else
     (if enablePersistence (config s) then loadAllKnowledge disk else ret tt) ;;;
     modify (set_initialized true))%monad.

Record KnowledgeQuery := {
  q_type : option KnowledgeType;
  q_tags : option (list string);
  q_patternId : option string;
  q_minConfidence : option Z;
  q_text : option string;
  q_relatedTo : option string
}.

Record KnowledgeSearchResult := {
  item : KnowledgeItem;
  relevanceScore : Q
}.

Definition type_eqb (a b : KnowledgeType) : bool :=
  match a, b with
  | fact, fact | rule, rule | relationship, relationship | concept, concept => true
  | _, _ => false
  end.

(** [findRelatedItemIds(itemId)] *)
Definition findRelatedItemIds (itemId : string) (s : state) : StrSet :=
  fold_left (fun acc rel =>
               match neighborOf itemId rel with
               | Some n => set_add n acc
               | None => acc
               end)
            (JsMap.values (relationships s)) [].

(** One iteration of the loop of [queryKnowledge]: the score with which
    the item is pushed, or [None] when the iteration ends in [continue]. *)
Definition scoreItem (query : KnowledgeQuery) (s : state) (it : KnowledgeItem) : option Q :=
  let hasTag tag := existsb (String.eqb tag) (tags (metadata it)) in
  if match q_type query with
     | Some t => negb (type_eqb (type it) t)
     | None => false
     end then None
  else
    let tagStep :=
      match q_tags query with
      | Some ts =>
          if (0 <? Z.of_nat (List.length ts)) then
            if negb (existsb hasTag ts) then None
            else Some (inject_Z (Z.of_nat (List.length (filter hasTag ts)))
                       / inject_Z (Z.of_nat (List.length ts)))%Q
          else Some 1%Q
      | None => Some 1%Q
      end in
    match tagStep with
    | None => None
    | Some score1 =>
        if match q_patternId query with
           | Some p => truthyStr p && negb (String.eqb (patternId it) p)
           | None => false
           end then None
        else if match q_minConfidence query with
                | Some c => truthyZ c && (confidence (metadata it) <? c)
                | None => false
                end then None
        else
          let textStep :=
            match q_text query with
            | Some txt =>
                if truthyStr txt then
                  let text := toLowerCase txt in
                  let contentMatch := strIncludes (toLowerCase (content it)) text in
                  let structuredMatch :=
                    strIncludes (toLowerCase (stringify (JObj (structuredData it)))) text in
                  if negb contentMatch && negb structuredMatch then None
                  else
                    let a := if contentMatch then (score1 * (12 # 10))%Q else score1 in
                    Some (if structuredMatch then (a * (11 # 10))%Q else a)
                else Some score1
            | None => Some score1
            end in
          match textStep with
          | None => None
          | Some score2 =>
              match q_relatedTo query with
              | Some r =>
                  if truthyStr r then
                    if negb (set_has (id it) (findRelatedItemIds r s)) then None
                    else
                      let found := find (touches r) (JsMap.values (relationships s)) in
                      let key := match found with
                                 | Some rel => rel_id rel
                                 | None => EmptyString
                                 end in
                      match JsMap.get key (relationships s) with
                      | Some rel => Some (score2 * strength rel)%Q
                      | None => Some score2
                      end
                  else Some score2
              | None => Some score2
              end
          end
    end.

(** [queryKnowledge(query)] *)
Definition queryKnowledge (query : KnowledgeQuery) : M state (list KnowledgeSearchResult) :=
  (ensureInitialized ;;;
   s <- get_state ;;
   let results :=
     flat_map (fun it => match scoreItem query s it with
                         | Some sc => [{| item := it; relevanceScore := sc |}]
                         | None => []
                         end)
              (JsMap.values (items s)) in
   ret (sortBy (fun a b => Qle_bool (relevanceScore b) (relevanceScore a)) results))%monad.

End KnowledgeBase.

(* ===================================================================== *)
(** ** LearningModel.ts                                                   *)
(* ===================================================================== *)

Module LearningModel.

Import Js.

Record FeatureMetadata := {
  confidence : Z;
  frequency : Z;
  timestamp : Z
}.

Record PatternFeatures := {
  id : string;
  features : list Q;
  label : string;
  metadata : FeatureMetadata
}.

Record LearningModelConfig := {
  inputSize : Z;
  learningRate : Q;
  batchSize : Z;
  epochs : Z;
  hiddenLayers : list Z;
  dropoutRate : Q
}.

Record PartialConfig := {
  opt_inputSize : option Z;
  opt_learningRate : option Q;
  opt_batchSize : option Z;
  opt_epochs : option Z;
  opt_hiddenLayers : option (list Z);
  opt_dropoutRate : option Q
}.

(** The layers [buildModel] adds. *)
Inductive Layer :=
| Dense (inputShape : option Z) (units : option Z) (activation : string)
| Dropout (rate : Q).

(** One completed call of [model.fit]. *)
Record FitCall := {
  fit_features : list (list Q);
  fit_labels : list (list Z);
  fit_batchSize : Z;
  fit_epochs : Z
}.

(** A [tf.Sequential], as far as the code determines it: the layers
    added to it, the learning rate of the optimizer that [compile]
    installed ([None] while the network is not compiled), and the fit
    calls it has gone through since it was built.  The numeric weights
    are TensorFlow's. *)
Record Sequential := {
  layers : list Layer;
  optimizer : option Q;
  fits : list FitCall
}.

Record LearningProgress := {
  epoch : Z;
  loss : Q;
  accuracy : Q;
  progress_timestamp : Z
}.

Record ModelMetrics := {
  metrics_accuracy : Q;
  metrics_loss : Q;
  metrics_timestamp : Z
}.

(** What [onEpochEnd] receives and reads: [logs?.loss], [logs?.accuracy]
    and the clock. *)
Record EpochLog := {
  log_loss : option Q;
  log_accuracy : option Q;
  log_now : Z
}.

(** How a call of [model.fit] that passed the checks on its arguments
    ends: it returns, with the last entries of [history.history.loss]
    and [history.history.acc], or it throws; either way after the given
    epochs ended. *)
Inductive FitOutcome :=
| FitReturns (logs : list EpochLog) (lastLoss : Q) (lastAcc : option Q)
| FitThrows (logs : list EpochLog).

Record state := {
  model : option Sequential;
  config : LearningModelConfig;
  isInitialized : bool;
  labelMap : list string;
  inverseLabelMap : JsMap.t Z;
  trainingHistory : list LearningProgress
}.

Definition nullish {A} (x : option A) (d : A) : A :=
  match x with Some v => v | None => d end.

Definition noConfig : PartialConfig :=
  {| opt_inputSize := None; opt_learningRate := None; opt_batchSize := None;
     opt_epochs := None; opt_hiddenLayers := None; opt_dropoutRate := None |}.

(** [new LearningModel(config)] *)
Definition new (cfg : PartialConfig) : state :=
  {| model := None;
     config := {| inputSize := nullish (opt_inputSize cfg) 100;
                  learningRate := nullish (opt_learningRate cfg) (1 # 1000);
                  batchSize := nullish (opt_batchSize cfg) 32;
                  epochs := nullish (opt_epochs cfg) 10;
                  hiddenLayers := nullish (opt_hiddenLayers cfg) [64; 32];
                  dropoutRate := nullish (opt_dropoutRate cfg) (2 # 10) |};
     isInitialized := false;
     labelMap := [];
     inverseLabelMap := JsMap.empty;
     trainingHistory := [] |}.

Definition set_model (m : option Sequential) (s : state) : state :=
  {| model := m; config := config s; isInitialized := isInitialized s;
     labelMap := labelMap s; inverseLabelMap := inverseLabelMap s;
     trainingHistory := trainingHistory s |}.

Definition set_config (c : LearningModelConfig) (s : state) : state :=
  {| model := model s; config := c; isInitialized := isInitialized s;
     labelMap := labelMap s; inverseLabelMap := inverseLabelMap s;
     trainingHistory := trainingHistory s |}.

Definition set_isInitialized (b : bool) (s : state) : state :=
  {| model := model s; config := config s; isInitialized := b;
     labelMap := labelMap s; inverseLabelMap := inverseLabelMap s;
     trainingHistory := trainingHistory s |}.

Definition set_labels (l : list string) (inv : JsMap.t Z) (s : state) : state :=
  {| model := model s; config := config s; isInitialized := isInitialized s;
     labelMap := l; inverseLabelMap := inv;
     trainingHistory := trainingHistory s |}.

Definition set_trainingHistory (h : list LearningProgress) (s : state) : state :=
  {| model := model s; config := config s; isInitialized := isInitialized s;
     labelMap := labelMap s; inverseLabelMap := inverseLabelMap s;
     trainingHistory := h |}.

Definition set_inputSize (n : Z) (c : LearningModelConfig) : LearningModelConfig :=
  {| inputSize := n; learningRate := learningRate c; batchSize := batchSize c;
     epochs := epochs c; hiddenLayers := hiddenLayers c; dropoutRate := dropoutRate c |}.

(** [if (!this.isInitialized || !this.model) throw ...] *)
Definition ensureInitialized : M state unit :=
  fun s =>
    if negb (isInitialized s) || match model s with None => true | Some _ => false end
    then Throw (NotInitialized CLearningModel) s
    else Ok tt s.

(** [[...new Set(labels)]]: the distinct labels in order of first
    occurrence. *)
Definition unique (l : list string) : list string :=
  fold_left (fun acc x => if existsb (String.eqb x) acc then acc else acc ++ [x]) l [].

(** [new Map(labels.map((label, index) => [label, index]))] *)
Definition indexMap (labels : list string) : JsMap.t Z :=
  fold_left (fun acc li => JsMap.set (fst li) (snd li) acc)
            (combine labels (map Z.of_nat (seq 0 (List.length labels))))
            JsMap.empty.

(** [tf.sequential()] *)
Definition sequential : Sequential :=
  {| layers := []; optimizer := None; fits := [] |}.

(** What [tf.layers.dense] and [tf.layers.dropout] accept: the units of
    a dense layer must be a positive integer ([hiddenLayers[0]] of an
    empty list is [undefined]), and an input shape cannot be negative;
    a dropout rate is clamped, never rejected. *)
Definition layerAccepted (l : Layer) : bool :=
  match l with
  | Dense shape units _ =>
      match units with Some u => 0 <? u | None => false end
      && match shape with Some n => 0 <=? n | None => true end
  | Dropout _ => true
  end.

(** [this.model.add(tf.layers.dense({...}))]: the layer is constructed,
    then appended. *)
Definition addLayer (l : Layer) : M state unit :=
  fun s =>
    if layerAccepted l then
      Ok tt (match model s with
             | Some m => set_model (Some {| layers := layers m ++ [l];
                                            optimizer := optimizer m;
                                            fits := fits m |}) s
             | None => s
             end)
    else Throw LayerFailure s.

(** The layers [buildModel] adds, in the order of its calls of [add]. *)
Definition plannedLayers (s : state) : list Layer :=
  let c := config s in
  let first := Dense (Some (inputSize c)) (hd_error (hiddenLayers c)) "relu" in
  let hidden :=
    flat_map (fun u => [Dense None (Some u) "relu"; Dropout (dropoutRate c)])
             (tl (hiddenLayers c)) in
  let output := Dense None (Some (Z.of_nat (List.length (labelMap s)))) "softmax" in
  first :: hidden ++ [output].

(** [this.model.compile({optimizer: tf.train.adam(learningRate), ...})] *)
Definition compile (s : state) : state :=
  match model s with
  | Some m => set_model (Some {| layers := layers m;
                                 optimizer := Some (learningRate (config s));
                                 fits := fits m |}) s
  | None => s
  end.

(** [buildModel()] *)
Definition buildModel : M state unit :=
  (modify (set_model (Some sequential)) ;;;
   s <- get_state ;;
   for_each (plannedLayers s) addLayer ;;;
   modify compile)%monad.

(** [initialize(features)] *)
Definition initialize (feats : list PatternFeatures) : M state unit :=
  (s <- get_state ;;
   if isInitialized s then ret tt
   else
     (match feats with
      | f0 :: _ =>
          modify (fun s => set_config
                    (set_inputSize (Z.of_nat (List.length (features f0))) (config s)) s)
      | [] => ret tt
      end) ;;;
     let uniqueLabels := unique (map label feats) in
     modify (set_labels uniqueLabels (indexMap uniqueLabels)) ;;;
     buildModel ;;;
     modify (set_isInitialized true))%monad.

(** [Math.max(...xs)] of a non-empty vector. *)
Definition maxQ (x : Q) (xs : list Q) : Q :=
  fold_left (fun m y => if Qle_bool m y then (if Qeq_bool m y then m else y) else m) xs x.

(** [xs.indexOf(v)] for a [v] that occurs. *)
Fixpoint indexOfQ (v : Q) (xs : list Q) : nat :=
  match xs with
  | [] => 0
  | x :: rest => if Qeq_bool x v then 0%nat else S (indexOfQ v rest)
  end.

Record ClassificationResult := {
  res_patternId : string;
  predictedLabel : option string;
  res_confidence : Q;
  probabilities : JsMap.t (option Q)
}.

(** [classifyPattern(pattern)]; [p0 :: ps] is the vector that
    [model.predict] produces. *)
Definition classifyPattern (p0 : Q) (ps : list Q) (pattern : PatternFeatures)
  : M state ClassificationResult :=
  (ensureInitialized ;;;
   s <- get_state ;;
   match model s with
   | None => throw ModelNotInitialized
   | Some _ =>
       let probs := p0 :: ps in
       let maxProb := maxQ p0 ps in
       let predictedIndex := indexOfQ maxProb probs in
       ret {| res_patternId := id pattern;
              predictedLabel := nth_error (labelMap s) predictedIndex;
              res_confidence := maxProb;
              probabilities :=
                fold_left (fun acc li => JsMap.set (fst li) (nth_error probs (snd li)) acc)
                          (combine (labelMap s) (seq 0 (List.length (labelMap s))))
                          JsMap.empty |}
   end)%monad.

(** [classifyPatterns(patterns)], each pattern with its prediction. *)
Fixpoint classifyEach (work : list (PatternFeatures * (Q * list Q)))
  : M state (list ClassificationResult) :=
  match work with
  | [] => ret []
  | (p, (p0, ps)) :: rest =>
      (r <- classifyPattern p0 ps p ;;
       rs <- classifyEach rest ;;
       ret (r :: rs))%monad
  end.

Definition classifyPatterns (work : list (PatternFeatures * (Q * list Q)))
  : M state (list ClassificationResult) :=
  (ensureInitialized ;;; classifyEach work)%monad.

Record WeightedPattern := {
  wp_id : string;
  weight : Q;
  originalFeatures : PatternFeatures
}.

(** [calculateWeight(pattern)], with the products and the sum taken
    exactly. *)
Definition calculateWeight (pattern : PatternFeatures) : Q :=
  let confidenceWeight := (inject_Z (confidence (metadata pattern)) * (7 # 10))%Q in
  let frequencyWeight :=
    (Qmin (inject_Z (frequency (metadata pattern)) / 10) 1 * (3 # 10))%Q in
  (confidenceWeight + frequencyWeight)%Q.

(** [applyWeights(patterns)]: no initialization check. *)
Definition applyWeights (patterns : list PatternFeatures) : M state (list WeightedPattern) :=
  ret (KnowledgeBase.sortBy
         (fun a b => Qle_bool (weight b) (weight a))
         (map (fun p => {| wp_id := id p; weight := calculateWeight p;
                           originalFeatures := p |}) patterns)).

(** [new Array(n).fill(0)] followed by [oneHot[index] = 1]; an
    assignment at an index equal to the length appends. *)
Definition oneHot (n : nat) (index : Z) : list Z :=
  let i := Z.to_nat index in
  if (i <? n)%nat
  then firstn i (repeat 0 n) ++ [1] ++ skipn (S i) (repeat 0 n)
  else repeat 0 i ++ [1].

(** [tf.tensor2d(rows)] without a shape: the shape is the number of rows
    and the length of the first row; an array without rows has no second
    dimension and is rejected. *)
Definition tensorAccepted {A} (rows : list (list A)) : bool :=
  match rows with
  | [] => false
  | _ :: _ => true
  end.

Definition tensor2d {A} (rows : list (list A)) : M state unit :=
  if tensorAccepted rows then ret tt else throw TensorFailure.

(** The rows [prepareTrainingData(patterns)] turns into tensors. *)
Definition prepareTrainingData (patterns : list PatternFeatures) (s : state)
  : list (list Q) * list (list Z) :=
  (map features patterns,
   map (fun p =>
          let index := nullish (JsMap.get (label p) (inverseLabelMap s)) 0 in
          oneHot (List.length (labelMap s)) index)
       patterns).

Definition progressOf (k : nat) (l : EpochLog) : LearningProgress :=
  {| epoch := Z.of_nat k + 1;
     loss := nullish (log_loss l) 0%Q;
     accuracy := nullish (log_accuracy l) 0%Q;
     progress_timestamp := log_now l |}.

Definition progressLog (logs : list EpochLog) : list LearningProgress :=
  map (fun kl => progressOf (fst kl) (snd kl))
      (combine (seq 0 (List.length logs)) logs).

(** [prepareTrainingData(patterns)]: the rows, and the two tensors
    made of them. *)
Definition trainingTensors (patterns : list PatternFeatures)
  : M state (list (list Q) * list (list Z)) :=
  (s <- get_state ;;
   let td := prepareTrainingData patterns s in
   tensor2d (fst td) ;;;
   tensor2d (snd td) ;;;
   ret td)%monad.

Definition rowLength {A} (rows : list (list A)) : Z :=
  match rows with r :: _ => Z.of_nat (List.length r) | [] => 0 end.

(** The values of a tensor made of [rows] are as many as its shape
    says: the number of rows times the length of the first row. *)
Definition filled {A} (rows : list (list A)) : bool :=
  match rows with
  | [] => true
  | r :: _ => (List.length (List.concat rows) =? List.length rows * List.length r)%nat
  end.

Definition inputShapeOf (m : Sequential) : option Z :=
  match layers m with Dense shape _ _ :: _ => shape | _ => None end.

Definition outputUnitsOf (m : Sequential) : option Z :=
  match last (layers m) (Dropout 0) with Dense _ units _ => units | Dropout _ => None end.

Definition isSome {A} (x : option A) (p : A -> bool) : bool :=
  match x with Some v => p v | None => false end.

(** What [model.fit] asks of its arguments before it trains: the
    network is compiled, the batch size is positive, the rows have the
    length of the input shape, the label rows have as many entries as
    the last layer has units, and, the loss being
    categoricalCrossentropy, the label rows have more than one entry;
    and, when the tensors are handed to the native backend, that their
    values fill their shapes. *)
Definition fitAccepts (m : Sequential) (batch : Z)
  (td : list (list Q) * list (list Z)) : bool :=
  isSome (optimizer m) (fun _ => true)
  && (0 <? batch)
  && isSome (inputShapeOf m) (Z.eqb (rowLength (fst td)))
  && isSome (outputUnitsOf m) (Z.eqb (rowLength (snd td)))
  && negb (rowLength (snd td) =? 1)
  && filled (fst td) && filled (snd td).

Definition recordFit (patterns : list PatternFeatures) (nEpochs : Z) (s : state) : state :=
  match model s with
  | Some m =>
      let td := prepareTrainingData patterns s in
      set_model (Some {| layers := layers m; optimizer := optimizer m;
                         fits := fits m ++ [{| fit_features := fst td;
                                               fit_labels := snd td;
                                               fit_batchSize := batchSize (config s);
                                               fit_epochs := nEpochs |}] |}) s
  | None => s
  end.

(** [train(patterns)] without a progress callback; [outcome] is how a
    fit that passes the checks ends and [now] the clock read for the
    returned metrics.  With no epoch to run, [history.history.loss] is
    undefined and reading its length throws. *)
Definition train (outcome : FitOutcome) (now : Z) (patterns : list PatternFeatures)
  : M state ModelMetrics :=
  (ensureInitialized ;;;
   s <- get_state ;;
   match model s with
   | None => throw ModelNotInitialized
   | Some m =>
       td <- trainingTensors patterns ;;
       modify (set_trainingHistory []) ;;;
       if fitAccepts m (batchSize (config s)) td then
         match outcome with
         | FitThrows logs =>
             modify (set_trainingHistory (progressLog logs)) ;;;
             throw FitFailure
         | FitReturns logs lastLoss lastAcc =>
             modify (set_trainingHistory (progressLog logs)) ;;;
             modify (recordFit patterns (epochs (config s))) ;;;
             if epochs (config s) <=? 0 then throw HistoryFailure
             else ret {| metrics_accuracy := nullish lastAcc 0%Q;
                         metrics_loss := lastLoss;
                         metrics_timestamp := now |}
         end
       else throw FitFailure
   end)%monad.

(** [Math.max(1, Math.floor(epochs / 2))] *)
Definition incrementalEpochs (c : LearningModelConfig) : Z :=
  Z.max 1 (epochs c / 2).

(** [updateModel(patterns, incremental)] *)
Definition updateModel (outcome : FitOutcome) (now : Z)
  (patterns : list PatternFeatures) (incremental : bool) : M state ModelMetrics :=
  (ensureInitialized ;;;
   s <- get_state ;;
   match model s with
   | None => throw ModelNotInitialized
   | Some m =>
       if incremental then
         td <- trainingTensors patterns ;;
         if fitAccepts m (batchSize (config s)) td then
           match outcome with
           | FitThrows _ => throw FitFailure
           | FitReturns _ lastLoss lastAcc =>
               modify (recordFit patterns (incrementalEpochs (config s))) ;;;
               ret {| metrics_accuracy := nullish lastAcc 0%Q;
                      metrics_loss := lastLoss;
                      metrics_timestamp := now |}
           end
         else throw FitFailure
       else train outcome now patterns
   end)%monad.

(** [saveModel(path)]: the checks; the two files written are outside the
    state. *)
Definition saveModel (path : string) : M state unit :=
  (ensureInitialized ;;;
   s <- get_state ;;
   match model s with
   | None => throw ModelNotInitialized
   | Some _ => ret tt
   end)%monad.



(** [getTrainingHistory()] *)
Definition getTrainingHistory : M state (list LearningProgress) :=
  (s <- get_state ;; ret (trainingHistory s))%monad.

(** [model.countParams()]: weights and biases of the dense layers. *)
Fixpoint countParamsFrom (width : Z) (ls : list Layer) : Z :=
  match ls with
  | [] => 0
  | Dense shape units _ :: rest =>
      let w := nullish shape width in
      let u := nullish units 0 in
      w * u + u + countParamsFrom u rest
  | Dropout _ :: rest => countParamsFrom width rest
  end.

Record ModelStats := {
  stats_isInitialized : bool;
  numClasses : Z;
  stats_inputSize : Z;
  numParameters : Z
}.

(** [this.model?.countParams() ?? 0]: counting builds the network, which
    a network without layers refuses. *)
Definition countParams : M state Z :=
  (s <- get_state ;;
   match model s with
   | Some m => match layers m with
               | [] => throw EmptyModelFailure
               | _ :: _ => ret (countParamsFrom 0 (layers m))
               end
   | None => ret 0
   end)%monad.

(** [getModelStats()] *)
Definition getModelStats : M state ModelStats :=
  (numParameters_ <- countParams ;;
   s <- get_state ;;
   ret {| stats_isInitialized := isInitialized s;
          numClasses := Z.of_nat (List.length (labelMap s));
          stats_inputSize := inputSize (config s);
          numParameters := numParameters_ |})%monad.

(** [dispose()] *)
Definition dispose : M state unit :=
  modify (fun s => set_isInitialized false (set_model None s)).

(** [normalizeFeatures(features)], with the differences and quotients
    taken exactly: what the code computes as long as no difference
    overflows. *)
Definition normalizeFeatures (fs : list Q) : list Q :=
  match fs with
  | [] => []
  | f0 :: rest =>
      let max := maxQ f0 rest in
      let min := fold_left (fun m y => if Qle_bool y m then (if Qeq_bool m y then m else y) else m)
                           rest f0 in
      if Qeq_bool max min then map (fun _ => 1 # 2) fs
      else map (fun f => ((f - min) / (max - min))%Q) fs
  end.

(** [xs.slice(0, size)] *)
Definition slice0 {A} (xs : list A) (size : Z) : list A :=
  if size <? 0
  then firstn (Z.to_nat (Z.of_nat (List.length xs) + size)) xs
  else firstn (Z.to_nat size) xs.

(** [createFeaturesFromPattern(pattern, size)] *)
Definition createFeaturesFromPattern (pattern : object) (size : Z) : list Q :=
  let flatValues :=
    flat_map (fun kv =>
                match snd kv with
                | JNum n => [inject_Z n]
                | JBool b => [if b then 1%Q else 0%Q]
                | JStr str => [(inject_Z (Z.rem (Z.abs (rollingHash str)) 1000) / 1000)%Q]
                | _ => []
                end) pattern in
  if Z.of_nat (List.length flatValues) >=? size
  then slice0 flatValues size
  else flatValues ++ repeat 0%Q (Z.to_nat (size - Z.of_nat (List.length flatValues))).

End LearningModel.

(* ===================================================================== *)
(** ** index.ts: MemoryStorageSystem                                      *)
(* ===================================================================== *)

Module MemoryStorageSystem.

Record state := {
  patternStorage : PatternStorage.state;
  learningModel : LearningModel.state;
  knowledgeBase : KnowledgeBase.state
}.

(** Calls on the three private members. *)
Definition onPatternStorage {A} (c : M PatternStorage.state A) : M state A :=
  fun s =>
    match c (patternStorage s) with
    | Ok a ps => Ok a {| patternStorage := ps; learningModel := learningModel s;
                         knowledgeBase := knowledgeBase s |}
    | Throw e ps => Throw e {| patternStorage := ps; learningModel := learningModel s;
                               knowledgeBase := knowledgeBase s |}
    end.

Definition onLearningModel {A} (c : M LearningModel.state A) : M state A :=
  fun s =>
    match c (learningModel s) with
    | Ok a lm => Ok a {| patternStorage := patternStorage s; learningModel := lm;
                         knowledgeBase := knowledgeBase s |}
    | Throw e lm => Throw e {| patternStorage := patternStorage s; learningModel := lm;
                               knowledgeBase := knowledgeBase s |}
    end.

Definition onKnowledgeBase {A} (c : M KnowledgeBase.state A) : M state A :=
  fun s =>
    match c (knowledgeBase s) with
    | Ok a kb => Ok a {| patternStorage := patternStorage s;
                         learningModel := learningModel s; knowledgeBase := kb |}
    | Throw e kb => Throw e {| patternStorage := patternStorage s;
                               learningModel := learningModel s; knowledgeBase := kb |}
    end.

Record Config := {
  patternDataDir : option string;
  knowledgeDataDir : option string;
  modelConfig : option LearningModel.PartialConfig
}.

Definition noConfig : Config :=
  {| patternDataDir := None; knowledgeDataDir := None; modelConfig := None |}.

(** [new MemoryStorageSystem(config)] *)
Definition new (cfg : Config) : state :=
  {| patternStorage :=
       PatternStorage.new
         {| PatternStorage.opt_dataDir :=
              Some (PatternStorage.nullish (patternDataDir cfg) "./data/patterns"%string);
            PatternStorage.opt_maxVersions := None;
            PatternStorage.opt_defaultExpirationDays := None |};
     learningModel :=
       LearningModel.new (LearningModel.nullish (modelConfig cfg) LearningModel.noConfig);
     knowledgeBase :=
       KnowledgeBase.new
         {| KnowledgeBase.opt_dataDir :=
              Some (KnowledgeBase.nullish (knowledgeDataDir cfg) "./data/knowledge"%string);
            KnowledgeBase.opt_maxItems := None;
            KnowledgeBase.opt_enablePersistence := None |} |}.

(** The object literal that [initialize], [addPattern] and
    [classifyPattern] build from a pattern. *)
Definition featuresOf (p : PatternStorage.Pattern) : LearningModel.PatternFeatures :=
  {| LearningModel.id := PatternStorage.id p;
     LearningModel.features :=
       LearningModel.createFeaturesFromPattern (PatternStorage.data p) 100;
     LearningModel.label := PatternStorage.type p;
     LearningModel.metadata :=
       {| LearningModel.confidence := PatternStorage.confidence (PatternStorage.metadata p);
          LearningModel.frequency := PatternStorage.frequency (PatternStorage.metadata p);
          LearningModel.timestamp := PatternStorage.createdAt p |} |}.

Record InitEnv := {
  patternFiles : list PatternStorage.diskEntry;
  cleanNow : Z;
  knowledgeDisk : KnowledgeBase.Disk;
  initQueryNow : Z
}.

(** [initialize()] *)
Definition initialize (env : InitEnv) : M state unit :=
  (onPatternStorage (PatternStorage.initialize (patternFiles env) (cleanNow env)) ;;;
   onKnowledgeBase (KnowledgeBase.initialize (knowledgeDisk env)) ;;;
   allPatterns <- onPatternStorage
                    (PatternStorage.queryPatterns (initQueryNow env) PatternStorage.emptyQuery) ;;
   if (0 <? Z.of_nat (List.length allPatterns))
   then onLearningModel (LearningModel.initialize (map featuresOf allPatterns))
   else ret tt)%monad.

(** Everything one call of [addPattern] reads from outside: the clock
    readings of [savePattern] and [createVersion], those of the
    extraction, the outcome of the incremental fit with the clock read
    after it, and, for the catch block, the clock read by
    [queryPatterns], the outcome of the full fit and the clock after. *)
Record AddEnv := {
  saveNow : Z;
  versionNow : Z;
  extractEnv : KnowledgeBase.ExtractEnv;
  incrementalFit : LearningModel.FitOutcome;
  incrementalNow : Z;
  queryNow : Z;
  fullFit : LearningModel.FitOutcome;
  fullNow : Z
}.

(** The catch block of [addPattern]. *)
Definition fullRetrain (env : AddEnv) : M state unit :=
  (allPatterns <- onPatternStorage
                    (PatternStorage.queryPatterns (queryNow env) PatternStorage.emptyQuery) ;;
   let allFeatures := map featuresOf allPatterns in
   onLearningModel LearningModel.dispose ;;;
   onLearningModel (LearningModel.initialize allFeatures) ;;;
   onLearningModel (LearningModel.train (fullFit env) (fullNow env) allFeatures) ;;;
   ret tt)%monad.

(** [addPattern(pattern)] *)
Definition addPattern (env : AddEnv) (pattern : PatternStorage.Candidate) : M state unit :=
  (savedPattern <- onPatternStorage
                     (PatternStorage.savePattern (saveNow env) (versionNow env) pattern) ;;
   extraction <- onKnowledgeBase
                   (KnowledgeBase.extractKnowledge (extractEnv env) savedPattern) ;;
   onKnowledgeBase
     (KnowledgeBase.addKnowledgeItems (KnowledgeBase.extractedItems extraction)) ;;;
   for_each (KnowledgeBase.relationships_found extraction)
            (fun rel => onKnowledgeBase (KnowledgeBase.addRelationship rel)) ;;;
   let feats := featuresOf savedPattern in
   try_catch
     (onLearningModel
        (LearningModel.updateModel (incrementalFit env) (incrementalNow env) [feats] true) ;;;
      ret tt)
     (fun _ => fullRetrain env))%monad.

(** [searchPatterns(query)] *)
Definition searchPatterns (now : Z) (query : PatternStorage.PatternQuery)
  : M state (list PatternStorage.Pattern) :=
  onPatternStorage (PatternStorage.queryPatterns now query).

(** [searchKnowledge(query)] *)
Definition searchKnowledge (query : KnowledgeBase.KnowledgeQuery)
  : M state (list KnowledgeBase.KnowledgeSearchResult) :=
  onKnowledgeBase (KnowledgeBase.queryKnowledge query).

(** [classifyPattern(pattern)] *)
Definition classifyPattern (p0 : Q) (ps : list Q) (pattern : PatternStorage.Pattern)
  : M state LearningModel.ClassificationResult :=
  onLearningModel (LearningModel.classifyPattern p0 ps (featuresOf pattern)).

Record Stats := {
  stats_patterns : PatternStorage.Stats;
  stats_model : LearningModel.ModelStats;
  stats_knowledge : KnowledgeBase.KnowledgeStats
}.

(** [getStats()] *)
Definition getStats : M state Stats :=
  (p <- onPatternStorage PatternStorage.getStats ;;
   m <- onLearningModel LearningModel.getModelStats ;;
   k <- onKnowledgeBase KnowledgeBase.getStats ;;
   ret {| stats_patterns := p; stats_model := m; stats_knowledge := k |})%monad.

(** [shutdown()] *)
Definition shutdown : M state unit :=
  onLearningModel LearningModel.dispose.

End MemoryStorageSystem.

(* ===================================================================== *)
(** * Notions used in the statements                                      *)
(* ===================================================================== *)

Module PS := PatternStorage.
Module KB := KnowledgeBase.
Module LM := LearningModel.
Module MS := MemoryStorageSystem.

Ltac split_all := repeat match goal with |- _ /\ _ => split end.

Ltac run_monad :=
  unfold bind, ret, throw, modify, get_state, put, try_catch in *; simpl in *.

(** ** The pattern store *)

(** The version [createVersion] builds when the pattern has the versions
    [vs]. *)
Definition versionOf (ts : Z) (p : PS.Pattern) (vs : list PS.PatternVersion) :=
  {| PS.ver_patternId := PS.id p;
     PS.ver_version := Z.of_nat (List.length vs) + 1;
     PS.ver_data := PS.data p;
     PS.ver_metadata := PS.metadata p;
     PS.ver_timestamp := ts |}.

(** The list [createVersion] stores for the pattern: [v] pushed, then one
    [shift] if the length exceeds the limit. *)
Definition pushTrim (limit : Z) (vs : list PS.PatternVersion) (v : PS.PatternVersion) :=
  if Z.of_nat (List.length (vs ++ [v])) >? limit then PS.shift (vs ++ [v]) else vs ++ [v].

(** [this.versions.get(k) ?? []] *)
Definition versionsOf (k : string) (s : PS.state) : list PS.PatternVersion :=
  PS.nullish (JsMap.get k (PS.versions s)) [].

(** What every state of a store constructed with [cfg] satisfies: the
    configuration is the constructor's, both maps have unique keys, and a
    pattern is stored under its own id. *)
Record inv (cfg : PS.PartialConfig) (s : PS.state) : Prop := {
  inv_config : PS.config s = PS.config (PS.new cfg);
  inv_patterns : JsMap.wf (PS.patterns s);
  inv_versions : JsMap.wf (PS.versions s);
  inv_ids : forall k p, JsMap.get k (PS.patterns s) = Some p -> PS.id p = k
}.

(** No pattern has more than [maxVersions] versions. *)
Definition bounded (s : PS.state) : Prop :=
  forall id_ vs, JsMap.get id_ (PS.versions s) = Some vs ->
                 Z.of_nat (List.length vs) <= PS.maxVersions (PS.config s).

(** No versions file of the data directory holds more than [limit]
    versions. *)
Definition files_bounded (limit : Z) (files : list PS.diskEntry) : Prop :=
  Forall (fun e => match snd e with
                   | Some vs => Z.of_nat (List.length vs) <= limit
                   | None => True
                   end) files.

Definition good (cfg : PS.PartialConfig) (s : PS.state) : Prop :=
  inv cfg s /\ bounded s.

(** The record [savePattern] builds and stores. *)
Definition savedPattern (now : Z) (c : PS.Candidate) (s : PS.state) : PS.Pattern :=
  {| PS.id := PS.generatePatternId c;
     PS.type := PS.cand_type c;
     PS.data := PS.cand_data c;
     PS.metadata := PS.cand_metadata c;
     PS.createdAt := now;
     PS.updatedAt := now;
     PS.expiresAt :=
       Some (PS.nullish (PS.cand_expiresAt c)
                        (now + PS.defaultExpirationDays (PS.config s) * PS.msPerDay)) |}.

(** The record [updatePattern] builds and stores. *)
Definition updatedPattern (now : Z) (p : PS.Pattern) (u : PS.PatternUpdate) : PS.Pattern :=
  {| PS.id := PS.id p;
     PS.type := PS.type p;
     PS.data := PS.nullish (PS.upd_data u) (PS.data p);
     PS.metadata := PS.mergeMetadata (PS.metadata p) (PS.upd_metadata u);
     PS.createdAt := PS.createdAt p;
     PS.updatedAt := now;
     PS.expiresAt := PS.nullishOpt (PS.upd_expiresAt u) (PS.expiresAt p) |}.

(** The number of patterns of type [t] among [l]. *)
Definition countType (t : string) (l : list PS.Pattern) : Z :=
  Z.of_nat (List.length (filter (fun p => String.eqb (PS.type p) t) l)).

(** [n] times the character 1. *)
Fixpoint ones (n : nat) : string :=
  match n with
  | O => EmptyString
  | S n' => (ones n' ++ "1")%string
  end.

(** What [byType] holds under the key [t] once [n] entries with that key
    have been counted: no own property if there was none, or for the key
    [__proto__]; for the name of an inherited function the source text of
    that function followed by [n] ones; otherwise the number [n]. *)
Definition tally (t : string) (n : Z) : option Js.json :=
  if n <=? 0 then None
  else if String.eqb t "__proto__" then None
  else match Js.inheritedFunction t with
       | Some name => Some (Js.JStr (Js.nativeSource name ++ ones (Z.to_nat n)))
       | None => Some (Js.JNum n)
       end.

(** The total length of the lists of [l]. *)
Definition sumLengths {A} (l : list (list A)) : Z :=
  fold_right (fun vs acc => Z.of_nat (List.length vs) + acc) 0 l.

(** ** The knowledge base *)

(** The state [removeKnowledge(id)] reaches when the item exists. *)
Definition afterRemove (id_ : string) (item : KB.KnowledgeItem) (s : KB.state) : KB.state :=
  let s1 := KB.set_patternIndex (KB.removeFromIndex (KB.patternId item) (KB.id item)) s in
  let s2 := fold_left (fun st tag => KB.set_tagIndex (KB.removeFromIndex tag (KB.id item)) st)
                      (KB.tags (KB.metadata item)) s1 in
  let s3 := KB.set_items (JsMap.delete id_) s2 in
  fold_left (fun st relId => KB.set_relationships (JsMap.delete relId) st)
            (map fst (filter (fun kv => KB.touches id_ (snd kv)) (KB.relationships s3)))
            s3.

(** The entries of the item map, oldest first: [itemsByAge] of
    [pruneOldItems]. *)
Definition itemsByAge (s : KB.state) : list (string * KB.KnowledgeItem) :=
  KB.sortBy (fun a b => KB.createdAt (snd a) <=? KB.createdAt (snd b)) (KB.items s).

(** The entries [pruneOldItems(count)] removes. *)
Definition victims (count : Z) (s : KB.state) : list (string * KB.KnowledgeItem) :=
  firstn (Z.to_nat (Z.min count (Z.of_nat (List.length (itemsByAge s))))) (itemsByAge s).

(** The item map after the capacity check of [addKnowledge]. *)
Definition prunedItems (s : KB.state) : JsMap.t KB.KnowledgeItem :=
  if JsMap.size (KB.items s) >=? KB.maxItems (KB.config s)
  then fold_left (fun m kv => JsMap.delete (fst kv) m) (victims 1 s) (KB.items s)
  else KB.items s.

(** In a state of [traverse]: the start item is marked visited and no
    item stored under the start id has been pushed. *)
Definition startExcluded (x : string) (st : KB.StrSet * list KB.KnowledgeItem) : Prop :=
  KB.set_has x (fst st) = true /\ Forall (fun it => KB.id it <> x) (snd st).

(** ** The learning model and the orchestrator *)



(** Whether the two tensors of [prepareTrainingData] can be made of the
    rows of [ps]. *)
Definition tensorsPass (ps : list LM.PatternFeatures) (lm : LM.state) : bool :=
  LM.tensorAccepted (fst (LM.prepareTrainingData ps lm))
  && LM.tensorAccepted (snd (LM.prepareTrainingData ps lm)).

(** Whether [fit] accepts the rows of [ps] for the network of [lm]. *)
Definition fitPasses (ps : list LM.PatternFeatures) (lm : LM.state) : bool :=
  match LM.model lm with
  | Some m => LM.fitAccepts m (LM.batchSize (LM.config lm)) (LM.prepareTrainingData ps lm)
  | None => false
  end.

(** A configuration whose hidden layers can be built: there is a first
    one, and each has a positive number of units. *)
Definition buildable (c : LM.LearningModelConfig) : bool :=
  match LM.hiddenLayers c with
  | [] => false
  | _ :: _ => forallb (Z.ltb 0) (LM.hiddenLayers c)
  end.

(** The network [buildModel] leaves when every layer is accepted. *)
Definition builtModel (s : LM.state) : LM.Sequential :=
  {| LM.layers := LM.plannedLayers s;
     LM.optimizer := Some (LM.learningRate (LM.config s));
     LM.fits := [] |}.

(** The state in which [initialize(features)] calls [buildModel]. *)
Definition labelled (feats : list LM.PatternFeatures) (s : LM.state) : LM.state :=
  LM.set_labels (LM.unique (map LM.label feats))
                (LM.indexMap (LM.unique (map LM.label feats)))
                (match feats with
                 | f0 :: _ =>
                     LM.set_config
                       (LM.set_inputSize (Z.of_nat (List.length (LM.features f0))) (LM.config s)) s
                 | [] => s
                 end).


(** The try/catch at the end of [addPattern]. *)
Definition learningStep (env : MS.AddEnv) (saved : PS.Pattern) : M MS.state unit :=
  try_catch
    (bind (MS.onLearningModel
             (LM.updateModel (MS.incrementalFit env) (MS.incrementalNow env)
                             [MS.featuresOf saved] true))
          (fun _ => ret tt))
    (fun _ => MS.fullRetrain env).

(** The knowledge base after [addPattern] added the extracted items. *)
Definition knowledgeAfter (env : MS.AddEnv) (saved : PS.Pattern) (kb : KB.state) : KB.state :=
  state_of (KB.addKnowledgeItems
              (KB.extractedItems (KB.extract (MS.extractEnv env) saved)) kb).

(** A computation that leaves the pattern store and the knowledge base
    of the system as they are. *)
Definition keepsStores {A} (c : M MS.state A) : Prop :=
  forall s,
    MS.patternStorage (state_of (c s)) = MS.patternStorage s
    /\ MS.knowledgeBase (state_of (c s)) = MS.knowledgeBase s.

(** ** The stores and patterns of the test suites *)

(** A store with the default configuration over an empty data
    directory, initialized. *)
Definition freshStore : PS.state :=
  state_of (PS.initialize [] 0 (PS.new PS.noConfig)).

Definition exampleMetadata (frequency_ : Z) : PS.PatternMetadata :=
  {| PS.confidence := 1;
     PS.frequency := frequency_;
     PS.lastSeen := 1000;
     PS.tags := ["test"%string];
     PS.source := "test"%string |}.

(** The pattern of the pattern-storage tests. *)
Definition exampleCandidate (frequency_ : Z) (expires : option Z) : PS.Candidate :=
  PS.mkCandidate "test" [("key"%string, Js.JStr "value")] (exampleMetadata frequency_) expires.

Definition exampleUpdate : PS.PatternUpdate :=
  {| PS.upd_data := Some [("key"%string, Js.JStr "updated")];
     PS.upd_metadata := None;
     PS.upd_expiresAt := None |}.

(** [n] updates at the clock readings 2000, 2001, ... *)
Definition exampleUpdates (n : nat) : list (Z * Z * PS.PatternUpdate) :=
  map (fun i => (2000 + Z.of_nat i, 2000 + Z.of_nat i, exampleUpdate)) (seq 0 n).

(** A data directory that holds the pattern of the tests, saved
    earlier, with a versions file of [n] versions. *)
Definition directoryWithHistory (n : nat) : list PS.diskEntry :=
  let k := PS.generatePatternId (exampleCandidate 1 None) in
  [({| PS.id := k; PS.type := "test"%string;
       PS.data := [("key"%string, Js.JStr "value")];
       PS.metadata := exampleMetadata 1;
       PS.createdAt := 100; PS.updatedAt := 100; PS.expiresAt := None |},
    Some (map (fun i => {| PS.ver_patternId := k;
                           PS.ver_version := Z.of_nat i + 1;
                           PS.ver_data := [("key"%string, Js.JStr "old")];
                           PS.ver_metadata := exampleMetadata 1;
                           PS.ver_timestamp := 100 |})
              (seq 0 n)))].

(** A knowledge base with the default configuration over an empty data
    directory, initialized. *)
Definition freshKnowledgeBase : KB.state :=
  state_of (KB.initialize {| KB.knowledgeFiles := []; KB.relationshipsFile := None |}
                          (KB.new KB.noConfig)).

(** The relationship of the test 'should add a relationship'. *)
Definition exampleRelationship : KB.KnowledgeRelationship :=
  {| KB.rel_id := "rel-1"%string;
     KB.fromId := "knowledge-1"%string;
     KB.toId := "knowledge-2"%string;
     KB.rel_type := KB.associative;
     KB.strength := 8 # 10;
     KB.rel_metadata := None |}.

(** A knowledge item as the knowledge-base tests build them. *)
Definition exampleItem (id_ : string) (created : Z) : KB.KnowledgeItem :=
  {| KB.id := id_;
     KB.patternId := "pattern-1"%string;
     KB.type := KB.fact;
     KB.content := "Item"%string;
     KB.structuredData := [];
     KB.metadata := {| KB.confidence := 1;
                       KB.sources := ["test"%string];
                       KB.frequency := 1;
                       KB.tags := ["common"%string];
                       KB.lastVerified := None |};
     KB.createdAt := created;
     KB.updatedAt := created |}.

Definition exampleLink (relId from to : string) : KB.KnowledgeRelationship :=
  {| KB.rel_id := relId;
     KB.fromId := from;
     KB.toId := to;
     KB.rel_type := KB.associative;
     KB.strength := 1;
     KB.rel_metadata := None |}.

(** Items x, a, b, z and the relationships x-a, x-b, a-z, b-z. *)
Definition diamond : KB.state :=
  state_of
    ((KB.addKnowledge (exampleItem "x" 1) ;;;
      KB.addKnowledge (exampleItem "a" 2) ;;;
      KB.addKnowledge (exampleItem "b" 3) ;;;
      KB.addKnowledge (exampleItem "z" 4) ;;;
      KB.addRelationship (exampleLink "r1" "x" "a") ;;;
      KB.addRelationship (exampleLink "r2" "x" "b") ;;;
      KB.addRelationship (exampleLink "r3" "a" "z") ;;;
      KB.addRelationship (exampleLink "r4" "b" "z"))%monad freshKnowledgeBase).


(** The readings of one [addPattern] at clock reading [t], with random
    digits [rnd]; a fit that passes the checks of [fit] returns. *)
Definition exampleEnv (t : Z) (rnd : string) : MS.AddEnv :=
  {| MS.saveNow := t;
     MS.versionNow := t;
     MS.extractEnv := {| KB.itemEnv := {| KB.idNow := t; KB.idRnd := rnd;
                                          KB.verifiedNow := t; KB.createdNow := t;
                                          KB.updatedNow := t |};
                         KB.relEnv := fun _ => (t, rnd) |};
     MS.incrementalFit := LM.FitReturns [] 0 None;
     MS.incrementalNow := t;
     MS.queryNow := t;
     MS.fullFit := LM.FitReturns [] 0 None;
     MS.fullNow := t |}.

(** The first two patterns of the test 'should handle multiple
    patterns'. *)
Definition behavioralCandidate : PS.Candidate :=
  PS.mkCandidate "behavioral"
    [("trigger"%string, Js.JStr "A"); ("action"%string, Js.JStr "B")]
    (exampleMetadata 1) None.

Definition temporalCandidate : PS.Candidate :=
  PS.mkCandidate "temporal"
    [("sequence"%string, Js.JArr [Js.JStr "event 1"; Js.JStr "event 2"]);
     ("interval"%string, Js.JNum 1000)]
    (exampleMetadata 1) None.

(** The third pattern of the test 'should handle multiple patterns'. *)
Definition categoricalCandidate : PS.Candidate :=
  PS.mkCandidate "categorical"
    [("category"%string, Js.JStr "fruit");
     ("items"%string, Js.JArr [Js.JStr "apple"; Js.JStr "banana"])]
    (exampleMetadata 1) None.

(** A data directory that holds the given candidates as the patterns
    saved from them at clock reading 100, without versions files. *)
Definition directoryOf (cs : list PS.Candidate) : list PS.diskEntry :=
  map (fun c => (savedPattern 100 c freshStore, None)) cs.

(** A system with the default configuration, initialized at clock
    reading 200 over a pattern directory that holds [cs] and an empty
    knowledge directory. *)
Definition systemOver (cs : list PS.Candidate) : MS.state :=
  state_of (MS.initialize
              {| MS.patternFiles := directoryOf cs; MS.cleanNow := 200;
                 MS.knowledgeDisk := {| KB.knowledgeFiles := [];
                                        KB.relationshipsFile := None |};
                 MS.initQueryNow := 200 |}
              (MS.new MS.noConfig)).

(** The system started over one stored pattern: [initialize] built the
    classifier with the one label "behavioral". *)
Definition systemWithOneLabel : MS.state := systemOver [behavioralCandidate].

(** The system started over two stored patterns: the classifier has the
    labels "behavioral" and "temporal". *)
Definition systemWithTwoLabels : MS.state :=
  systemOver [behavioralCandidate; temporalCandidate].

(** ** Notions of the further properties *)

(** What a query asks of a pattern, condition by condition: a condition
    whose field is absent, or is the empty string, an empty tag list or
    the number zero where the code tests the field for truthiness, asks
    nothing. *)
Definition satisfies (now : Z) (q : PS.PatternQuery) (p : PS.Pattern) : Prop :=
  (PS.q_notExpired q = Some true ->
   forall e, PS.expiresAt p = Some e -> e <> 0 -> now <= e)
  /\ (forall t, PS.q_type q = Some t -> t <> EmptyString -> PS.type p = t)
  /\ (forall ts tag, PS.q_tags q = Some ts -> In tag ts -> In tag (PS.tags (PS.metadata p)))
  /\ (forall c, PS.q_minConfidence q = Some c -> c <= PS.confidence (PS.metadata p))
  /\ (forall f, PS.q_minFrequency q = Some f -> f <= PS.frequency (PS.metadata p))
  /\ (forall t, PS.q_createdAfter q = Some t -> t <> 0 -> t <= PS.createdAt p)
  /\ (forall t, PS.q_createdBefore q = Some t -> t <> 0 -> PS.createdAt p <= t).

(** A row of [n] entries that holds 1 at position [i] and 0 elsewhere. *)
Definition isOneHot (n i : nat) (row : list Z) : Prop :=
  List.length row = n
  /\ forall j, (j < n)%nat -> nth_error row j = Some (if (j =? i)%nat then 1 else 0).

(** The entry [applyWeights] builds for a pattern. *)
Definition weighted (p : LM.PatternFeatures) : LM.WeightedPattern :=
  {| LM.wp_id := LM.id p; LM.weight := LM.calculateWeight p; LM.originalFeatures := p |}.

(** A number with room for one subtraction in a double: its absolute
    value is at most 2^1022. *)
Definition withinDouble (x : Q) : Prop :=
  (- inject_Z (2 ^ 1022) <= x /\ x <= inject_Z (2 ^ 1022))%Q.

(** A string without a hyphen. *)
Fixpoint hyphenFree (str : string) : bool :=
  match str with
  | EmptyString => true
  | String c rest => negb (Ascii.eqb c "-") && hyphenFree rest
  end.

(** The number of knowledge items of type [t] among [l]. *)
Definition countKnowledgeType (t : KB.KnowledgeType) (l : list KB.KnowledgeItem) : Z :=
  Z.of_nat (List.length (filter (fun it => KB.type_eqb (KB.type it) t) l)).

(** The sum of the confidences of the items of [l]. *)
Definition sumConfidence (l : list KB.KnowledgeItem) : Z :=
  fold_right (fun it acc => KB.confidence (KB.metadata it) + acc) 0 l.

(** What a knowledge query asks of an item before scoring: the type, the
    pattern id and the minimum confidence; an empty pattern id and a zero
    minimum ask nothing. *)
Definition passesFilters (q : KB.KnowledgeQuery) (it : KB.KnowledgeItem) : Prop :=
  (forall t, KB.q_type q = Some t -> KB.type it = t)
  /\ (forall p, KB.q_patternId q = Some p -> p <> EmptyString -> KB.patternId it = p)
  /\ (forall c, KB.q_minConfidence q = Some c -> c <> 0 -> c <= KB.confidence (KB.metadata it))
  /\ (forall ts, KB.q_tags q = Some ts -> ts <> [] ->
                 exists tag, In tag ts /\ In tag (KB.tags (KB.metadata it))).

(* ===================================================================== *)
(** * Properties                                                          *)
(* ===================================================================== *)


(** ** Insertion-ordered maps *)

Section JsMapFacts.

Context {V : Type}.
Implicit Types (m : JsMap.t V) (k : string) (v : V).

Lemma get_set_eq m k v : JsMap.get k (JsMap.set k v m) = Some v.
Proof.
  induction m as [|[k' v'] m IH]; simpl.
  - now rewrite String.eqb_refl.
  - destruct (String.eqb k k') eqn:E; simpl; rewrite E; auto.
Qed.

Lemma get_set_ne m k k' v :
  k <> k' -> JsMap.get k' (JsMap.set k v m) = JsMap.get k' m.
Proof.
  intros Hne. induction m as [|[k0 v0] m IH]; simpl.
  - destruct (String.eqb_spec k' k); congruence.
  - destruct (String.eqb_spec k k0); simpl.
    + subst k0. destruct (String.eqb_spec k' k); congruence.
    + destruct (String.eqb_spec k' k0); auto.
Qed.

Lemma get_delete_eq m k : JsMap.get k (JsMap.delete k m) = None.
Proof.
  induction m as [|[k' v'] m IH]; simpl; auto.
  destruct (String.eqb k k') eqn:E; simpl; auto. now rewrite E.
Qed.

Lemma get_delete_ne m k k' :
  k <> k' -> JsMap.get k' (JsMap.delete k m) = JsMap.get k' m.
Proof.
  intros Hne. induction m as [|[k0 v0] m IH]; simpl; auto.
  destruct (String.eqb_spec k k0); simpl.
  - subst k0. destruct (String.eqb_spec k' k); congruence.
  - destruct (String.eqb_spec k' k0); auto.
Qed.

Lemma get_In m k v : JsMap.get k m = Some v -> In (k, v) m.
Proof.
  induction m as [|[k' v'] m IH]; simpl; [discriminate|].
  destruct (String.eqb_spec k k'); intros H.
  - inversion H; subst; auto.
  - auto.
Qed.

Lemma get_None_keys m k : JsMap.get k m = None <-> ~ In k (JsMap.keys m).
Proof.
  induction m as [|[k' v'] m IH]; simpl.
  - tauto.
  - destruct (String.eqb_spec k k').
    + subst. split; [discriminate | intros H; exfalso; apply H; auto].
    + rewrite IH. split; [intros H [E|I]; congruence || auto | tauto].
Qed.

Lemma In_get_wf m k v : JsMap.wf m -> In (k, v) m -> JsMap.get k m = Some v.
Proof.
  unfold JsMap.wf, JsMap.keys.
  induction m as [|[k' v'] m IH]; simpl; [tauto|].
  intros Hnd [E|I].
  - inversion E; subst. now rewrite String.eqb_refl.
  - inversion Hnd as [|? ? Hnotin Hnd']; subst.
    destruct (String.eqb_spec k k').
    + subst. exfalso. apply Hnotin. apply (in_map fst) in I. exact I.
    + auto.
Qed.

Lemma keys_set m k v :
  JsMap.keys (JsMap.set k v m)
  = if JsMap.has k m then JsMap.keys m else JsMap.keys m ++ [k].
Proof.
  unfold JsMap.has, JsMap.keys.
  induction m as [|[k' v'] m IH]; simpl; auto.
  destruct (String.eqb_spec k k'); simpl; auto.
  rewrite IH. destruct (JsMap.get k m); reflexivity.
Qed.

Lemma wf_empty : JsMap.wf (@JsMap.empty V).
Proof. constructor. Qed.

Lemma wf_set m k v : JsMap.wf m -> JsMap.wf (JsMap.set k v m).
Proof.
  unfold JsMap.wf. intros H. rewrite keys_set.
  unfold JsMap.has. destruct (JsMap.get k m) eqn:E; auto.
  apply get_None_keys in E.
  apply NoDup_app; auto.
  - constructor; [simpl; tauto | constructor].
  - intros x Hx [<-|[]]. contradiction.
Qed.

Lemma In_delete m k k' v :
  In (k', v) (JsMap.delete k m) <-> In (k', v) m /\ k <> k'.
Proof.
  induction m as [|[k0 v0] m IH]; simpl; [tauto|].
  destruct (String.eqb_spec k k0); simpl.
  - subst k0. rewrite IH. split.
    + tauto.
    + intros [[E|I] Hne]; [inversion E; congruence | tauto].
  - rewrite IH. split.
    + intros [E|[I Hne]]; [inversion E; subst; auto | tauto].
    + tauto.
Qed.

Lemma keys_delete m k x :
  In x (JsMap.keys (JsMap.delete k m)) <-> In x (JsMap.keys m) /\ k <> x.
Proof.
  unfold JsMap.keys. rewrite !in_map_iff. split.
  - intros [[k' v] [E I]]. simpl in E. subst k'. apply In_delete in I.
    destruct I as [I Hne]. split; auto. exists (x, v); auto.
  - intros [[[k' v] [E I]] Hne]. simpl in E. subst k'.
    exists (x, v). split; auto. apply In_delete; auto.
Qed.

Lemma wf_delete m k : JsMap.wf m -> JsMap.wf (JsMap.delete k m).
Proof.
  unfold JsMap.wf, JsMap.keys.
  induction m as [|[k0 v0] m IH]; simpl; auto.
  intros Hnd. inversion Hnd as [|? ? Hnotin Hnd']; subst.
  destruct (String.eqb_spec k k0); simpl; auto.
  constructor; auto.
  intros Hin. apply Hnotin. apply (keys_delete m k k0) in Hin. tauto.
Qed.

Lemma length_set m k v :
  List.length (JsMap.set k v m)
  = if JsMap.has k m then List.length m else S (List.length m).
Proof.
  unfold JsMap.has.
  induction m as [|[k' v'] m IH]; simpl; auto.
  destruct (String.eqb_spec k k'); simpl; auto.
  rewrite IH. destruct (JsMap.get k m); reflexivity.
Qed.

Lemma delete_absent m k : JsMap.get k m = None -> JsMap.delete k m = m.
Proof.
  induction m as [|[k' v'] m IH]; simpl; auto.
  destruct (String.eqb_spec k k'); [discriminate|].
  intros H. now rewrite IH.
Qed.

Lemma length_delete m k :
  JsMap.wf m -> JsMap.has k m = true ->
  S (List.length (JsMap.delete k m)) = List.length m.
Proof.
  unfold JsMap.wf, JsMap.keys, JsMap.has.
  induction m as [|[k' v'] m IH]; simpl; [discriminate|].
  intros Hnd. inversion Hnd as [|? ? Hnotin Hnd']; subst.
  destruct (String.eqb_spec k k'); simpl.
  - subst k'. intros _. rewrite delete_absent; auto.
    apply get_None_keys. exact Hnotin.
  - intros H. f_equal. auto.
Qed.

End JsMapFacts.

(** ** PatternStorage: state invariants *)

Lemma orZ_nonzero x d : d <> 0 -> PS.orZ x d <> 0.
Proof.
  intros Hd. unfold PS.orZ, Js.truthyZ. destruct x as [n|]; auto.
  destruct (Z.eqb_spec n 0); simpl; auto.
Qed.

Lemma maxVersions_new_nonzero cfg : PS.maxVersions (PS.config (PS.new cfg)) <> 0.
Proof. simpl. apply orZ_nonzero. discriminate. Qed.

Lemma createVersion_eq ts p s :
  PS.createVersion ts p s
  = Ok tt (PS.set_versions
             (JsMap.set (PS.id p)
                (pushTrim (PS.maxVersions (PS.config s))
                   (PS.nullish (JsMap.get (PS.id p) (PS.versions s)) [])
                   (versionOf ts p (PS.nullish (JsMap.get (PS.id p) (PS.versions s)) []))))
             s).
Proof. reflexivity. Qed.

Lemma pushTrim_length limit vs v :
  0 <= limit -> Z.of_nat (List.length vs) <= limit ->
  Z.of_nat (List.length (pushTrim limit vs v)) = Z.min (Z.of_nat (List.length vs) + 1) limit.
Proof.
  intros H0 Hle. unfold pushTrim, PS.shift.
  rewrite length_app. cbn [List.length].
  destruct (Z.gtb_spec (Z.of_nat (List.length vs + 1)) limit) as [Hgt|Hngt].
  - destruct vs as [|x vs]; cbn [app tl List.length] in *;
      rewrite ?length_app; cbn [List.length]; lia.
  - rewrite length_app. cbn [List.length]. lia.
Qed.

Lemma pushTrim_fifo limit vs v :
  1 <= limit ->
  (Z.of_nat (List.length vs) < limit -> pushTrim limit vs v = vs ++ [v])
  /\ (Z.of_nat (List.length vs) = limit -> pushTrim limit vs v = tl vs ++ [v]).
Proof.
  intros H1. unfold pushTrim, PS.shift. rewrite length_app. cbn [List.length].
  split; intros H.
  - destruct (Z.gtb_spec (Z.of_nat (List.length vs + 1)) limit); auto. lia.
  - destruct (Z.gtb_spec (Z.of_nat (List.length vs + 1)) limit); [|lia].
    destruct vs; cbn [app tl List.length] in *; [lia | reflexivity].
Qed.

Lemma inv_createVersion cfg ts p s :
  inv cfg s -> inv cfg (state_of (PS.createVersion ts p s)).
Proof.
  intros [Hc Hp Hv Hi]. rewrite createVersion_eq. simpl.
  constructor; simpl; auto. now apply wf_set.
Qed.

Lemma bounded_createVersion ts p s :
  0 <= PS.maxVersions (PS.config s) ->
  bounded s -> bounded (state_of (PS.createVersion ts p s)).
Proof.
  intros H0 Hb. rewrite createVersion_eq. simpl.
  intros k vs. simpl.
  destruct (string_dec (PS.id p) k) as [->|Hne].
  - rewrite get_set_eq. intros E. inversion E; subst; clear E.
    rewrite pushTrim_length; [lia | auto |].
    destruct (JsMap.get k (PS.versions s)) eqn:G; simpl; [eauto | lia].
  - rewrite get_set_ne by auto. apply Hb.
Qed.

Lemma inv_set_pattern cfg k p s :
  PS.id p = k -> inv cfg s -> inv cfg (PS.set_patterns (JsMap.set k p) s).
Proof.
  intros Hk [Hc Hp Hv Hi]. constructor; simpl; auto.
  - now apply wf_set.
  - intros k' p'. destruct (string_dec k k') as [->|Hne].
    + rewrite get_set_eq. intros E; inversion E; subst; auto.
    + rewrite get_set_ne by auto. apply Hi.
Qed.

Lemma inv_deletePattern cfg k s :
  inv cfg s -> inv cfg (state_of (PS.deletePattern k s)).
Proof.
  intros [Hc Hp Hv Hi]. unfold PS.deletePattern, PS.ensureInitialized. run_monad.
  destruct (PS.initialized s); simpl; [|constructor; auto].
  destruct (JsMap.has k (PS.patterns s)); simpl; constructor; simpl; auto using wf_delete.
  intros k' p'. destruct (string_dec k k') as [->|Hne].
  - now rewrite get_delete_eq.
  - rewrite get_delete_ne by auto. apply Hi.
Qed.

Lemma bounded_deletePattern k s :
  bounded s -> bounded (state_of (PS.deletePattern k s)).
Proof.
  intros Hb. unfold PS.deletePattern, PS.ensureInitialized. run_monad.
  destruct (PS.initialized s); simpl; auto.
  destruct (JsMap.has k (PS.patterns s)); simpl; auto.
  intros k' vs. simpl.
  destruct (string_dec k k') as [->|Hne].
  - now rewrite get_delete_eq.
  - rewrite get_delete_ne by auto. apply Hb.
Qed.

Lemma config_deletePattern k s :
  PS.config (state_of (PS.deletePattern k s)) = PS.config s.
Proof.
  unfold PS.deletePattern, PS.ensureInitialized. run_monad.
  destruct (PS.initialized s); simpl; auto.
  destruct (JsMap.has k (PS.patterns s)); reflexivity.
Qed.

Section PatternStorageInvariant.

Variable cfg : PS.PartialConfig.
Hypothesis limit_nonneg : 0 <= PS.maxVersions (PS.config (PS.new cfg)).

Lemma good_createVersion ts p s :
  good cfg s -> good cfg (state_of (PS.createVersion ts p s)).
Proof.
  intros [Hi Hb]. split.
  - now apply inv_createVersion.
  - apply bounded_createVersion; auto. rewrite (inv_config _ _ Hi). exact limit_nonneg.
Qed.

Lemma good_set_pattern k p s :
  PS.id p = k -> good cfg s -> good cfg (PS.set_patterns (JsMap.set k p) s).
Proof.
  intros Hk [Hi Hb]. split; [now apply inv_set_pattern | exact Hb].
Qed.

Lemma patterns_createVersion ts p s :
  PS.patterns (state_of (PS.createVersion ts p s)) = PS.patterns s.
Proof. reflexivity. Qed.

Lemma good_deletePattern k s :
  good cfg s -> good cfg (state_of (PS.deletePattern k s)).
Proof.
  intros [Hi Hb]. split; [now apply inv_deletePattern | now apply bounded_deletePattern].
Qed.

Lemma good_savePattern now ts c s :
  good cfg s -> good cfg (state_of (PS.savePattern now ts c s)).
Proof.
  intros Hg. unfold PS.savePattern, PS.ensureInitialized. run_monad.
  destruct (PS.initialized s); simpl; auto.
  destruct (JsMap.get (PS.generatePatternId c) (PS.patterns s)) as [old|]; simpl.
  - apply (good_set_pattern _ _ (state_of (PS.createVersion ts old s))); auto.
    now apply good_createVersion.
  - now apply good_set_pattern.
Qed.

Lemma good_getPattern now k s :
  good cfg s -> good cfg (state_of (PS.getPattern now k s)).
Proof.
  intros Hg. unfold PS.getPattern.
  pose proof (good_deletePattern k s Hg) as Hd.
  unfold PS.ensureInitialized. run_monad.
  destruct (PS.initialized s) eqn:Hinit; simpl; auto.
  destruct (JsMap.get k (PS.patterns s)) as [p|]; simpl; auto.
  destruct (PS.isExpired now p); simpl; auto.
  destruct (PS.deletePattern k s); simpl in *; auto.
Qed.

Lemma good_updatePattern ts now k u s :
  good cfg s -> good cfg (state_of (PS.updatePattern ts now k u s)).
Proof.
  intros Hg. unfold PS.updatePattern, PS.ensureInitialized. run_monad.
  destruct (PS.initialized s); simpl; auto.
  destruct (JsMap.get k (PS.patterns s)) as [p|] eqn:G; simpl; auto.
  apply (good_set_pattern _ _ (state_of (PS.createVersion ts p s))).
  - simpl. exact (inv_ids _ _ (proj1 Hg) _ _ G).
  - now apply good_createVersion.
Qed.

Lemma good_restorePattern ts tc now k v s :
  good cfg s -> good cfg (state_of (PS.restorePattern ts tc now k v s)).
Proof.
  intros Hg. unfold PS.restorePattern, PS.ensureInitialized. run_monad.
  destruct (PS.initialized s); simpl; auto.
  destruct (JsMap.get k (PS.versions s)) as [[|v0 vs]|]; simpl; auto.
  destruct (if PS.ver_version v0 =? v then Some v0
            else find (fun v1 => PS.ver_version v1 =? v) vs) as [vd|]; simpl; auto.
  destruct (JsMap.get k (PS.patterns s)) as [p|]; simpl.
  - apply (good_set_pattern _ _ (state_of (PS.createVersion ts p s))); auto.
    now apply good_createVersion.
  - now apply good_set_pattern.
Qed.

Lemma good_after c s : good cfg s -> good cfg (PS.after c s).
Proof.
  intros Hg. destruct c; simpl.
  - now apply good_savePattern.
  - now apply good_getPattern.
  - now apply good_updatePattern.
  - now apply good_deletePattern.
  - unfold PS.queryPatterns, PS.ensureInitialized. run_monad.
    destruct (PS.initialized s); simpl; auto.
  - unfold PS.getPatternVersions, PS.ensureInitialized. run_monad.
    destruct (PS.initialized s); simpl; auto.
  - now apply good_restorePattern.
  - exact Hg.
Qed.

Lemma good_loadAllPatterns files s :
  files_bounded (PS.maxVersions (PS.config (PS.new cfg))) files ->
  good cfg s -> good cfg (PS.loadAllPatterns files s).
Proof.
  intros Hf. revert s. induction Hf as [|[p vs] files Hp Hf IH]; intros s Hg; simpl; auto.
  destruct (Js.truthyStr (PS.id p)); auto.
  apply IH.
  assert (Hs1 : good cfg (PS.set_patterns (JsMap.set (PS.id p) p) s))
    by now apply good_set_pattern.
  destruct Hs1 as [[Hc Hwp Hwv Hids] Hb].
  destruct vs as [l|]; simpl in *.
  - split; [constructor; simpl; auto using wf_set|].
    intros k vs'. simpl. destruct (string_dec (PS.id p) k) as [->|Hne].
    + rewrite get_set_eq. intros E; inversion E; subst. now rewrite Hc.
    + rewrite get_set_ne by auto. apply Hb.
  - split; [constructor; simpl; auto using wf_set | exact Hb].
Qed.

Lemma good_cleanup ids s :
  good cfg s ->
  good cfg (state_of (for_each ids (fun id_ => bind (PS.deletePattern id_) (fun _ => ret tt)) s)).
Proof.
  revert s. induction ids as [|k ids IH]; intros s Hg; simpl; auto.
  pose proof (good_deletePattern k s Hg) as Hd.
  unfold bind at 1. unfold bind at 1.
  destruct (PS.deletePattern k s) as [b s'|e s']; simpl in *; auto.
Qed.

Lemma good_initialize files now s :
  files_bounded (PS.maxVersions (PS.config (PS.new cfg))) files ->
  good cfg s -> good cfg (state_of (PS.initialize files now s)).
Proof.
  intros Hf Hg. unfold PS.initialize. run_monad.
  destruct (PS.initialized s); simpl; auto.
  pose proof (good_loadAllPatterns files s Hf Hg) as Hl.
  unfold PS.cleanExpiredPatterns. run_monad.
  match goal with
  | |- context [for_each ?l ?f ?st] =>
      assert (Hc : good cfg (state_of (for_each l f st)))
        by exact (good_cleanup l st Hl);
      destruct (for_each l f st) as [u s'|e s']
  end; simpl in *; auto.
  destruct Hc as [[Hc1 Hc2 Hc3 Hc4] Hb]. split; [constructor|]; auto.
Qed.

Lemma good_new : good cfg (PS.new cfg).
Proof.
  split; [constructor; simpl; auto; try constructor; discriminate|].
  intros k vs. simpl. discriminate.
Qed.

Lemma reachable_good files s :
  files_bounded (PS.maxVersions (PS.config (PS.new cfg))) files ->
  PS.reachable cfg files s -> good cfg s.
Proof.
  intros Hf Hr. induction Hr.
  - apply good_new.
  - now apply good_initialize.
  - now apply good_after.
Qed.

End PatternStorageInvariant.

(** ** PatternStorage: the methods on an initialized store *)

Lemma savePattern_ok now ts c s :
  PS.initialized s = true ->
  PS.savePattern now ts c s
  = Ok (savedPattern now c s)
       (PS.set_patterns
          (JsMap.set (PS.generatePatternId c) (savedPattern now c s))
          (match JsMap.get (PS.generatePatternId c) (PS.patterns s) with
           | Some old => state_of (PS.createVersion ts old s)
           | None => s
           end)).
Proof.
  intros Hinit. unfold PS.savePattern, PS.ensureInitialized. run_monad.
  rewrite Hinit.
  destruct (JsMap.get (PS.generatePatternId c) (PS.patterns s)); reflexivity.
Qed.

Lemma updatePattern_ok ts now k u s p :
  PS.initialized s = true ->
  JsMap.get k (PS.patterns s) = Some p ->
  PS.updatePattern ts now k u s
  = Ok (Some (updatedPattern now p u))
       (PS.set_patterns (JsMap.set k (updatedPattern now p u))
                        (state_of (PS.createVersion ts p s))).
Proof.
  intros Hinit Hget. unfold PS.updatePattern, PS.ensureInitialized. run_monad.
  rewrite Hinit, Hget. reflexivity.
Qed.

Lemma initialized_savePattern now ts c s :
  PS.initialized s = true ->
  PS.initialized (state_of (PS.savePattern now ts c s)) = true.
Proof.
  intros Hinit. rewrite savePattern_ok by auto. simpl.
  destruct (JsMap.get (PS.generatePatternId c) (PS.patterns s)); auto.
Qed.

Section VersionCount.

Variable cfg : PS.PartialConfig.
Hypothesis limit_nonneg : 0 <= PS.maxVersions (PS.config (PS.new cfg)).

Lemma update_step ts now k u s p :
  good cfg s -> PS.initialized s = true ->
  JsMap.get k (PS.patterns s) = Some p ->
  let s' := state_of (PS.updatePattern ts now k u s) in
  PS.initialized s' = true
  /\ JsMap.get k (PS.patterns s') = Some (updatedPattern now p u)
  /\ Z.of_nat (List.length (versionsOf k s'))
     = Z.min (Z.of_nat (List.length (versionsOf k s)) + 1)
             (PS.maxVersions (PS.config (PS.new cfg))).
Proof.
  intros Hg Hinit Hget s'. subst s'.
  rewrite (updatePattern_ok ts now k u s p Hinit Hget), createVersion_eq.
  destruct Hg as [Hi Hb].
  pose proof (inv_ids _ _ Hi _ _ Hget) as Hid.
  unfold versionsOf.
  cbn [state_of PS.set_patterns PS.set_versions PS.initialized PS.patterns
       PS.versions PS.config].
  split; [exact Hinit|]. split; [apply get_set_eq|].
  rewrite Hid, get_set_eq. cbn [PS.nullish].
  rewrite (inv_config _ _ Hi).
  apply pushTrim_length; auto.
  destruct (JsMap.get k (PS.versions s)) eqn:G; cbn [PS.nullish List.length].
  - rewrite <- (inv_config _ _ Hi). eauto.
  - exact limit_nonneg.
Qed.

Lemma updateAll_count k us :
  forall s p,
    good cfg s -> PS.initialized s = true ->
    JsMap.get k (PS.patterns s) = Some p ->
    Z.of_nat (List.length (versionsOf k (PS.updateAll k us s)))
    = Z.min (Z.of_nat (List.length (versionsOf k s)) + Z.of_nat (List.length us))
            (PS.maxVersions (PS.config (PS.new cfg)))
      \/ us = [].
Proof.
  induction us as [|[[ts now] u] us IH]; intros s p Hg Hinit Hget; [now right|].
  left. unfold PS.updateAll. cbn [fold_left fst snd].
  destruct (update_step ts now k u s p Hg Hinit Hget) as (Hi' & Hg' & Hl').
  pose proof (good_updatePattern cfg limit_nonneg ts now k u s Hg) as Hgood'.
  fold (PS.updateAll k us (state_of (PS.updatePattern ts now k u s))).
  destruct (IH _ _ Hgood' Hi' Hg') as [E|E].
  - rewrite E, Hl'. cbn [List.length]. lia.
  - subst us. unfold PS.updateAll. cbn [fold_left List.length]. rewrite Hl'. lia.
Qed.

End VersionCount.

(** ** C3: the version limit *)

(** C3, as stated, fails: [initialize] loads the versions files as they
    are, and [createVersion] drops one version per version it adds.  A
    store with the default limit of 10, opened over a directory whose
    versions file holds 12 versions, has 12 versions of that pattern, and
    still has 12 after the pattern is saved and updated 11 times. *)
Lemma C3_counterexample :
  let k := PS.generatePatternId (exampleCandidate 1 None) in
  let s := state_of (PS.initialize (directoryWithHistory 12) 1000 (PS.new PS.noConfig)) in
  let s' := PS.updateAll k (exampleUpdates 11)
              (state_of (PS.savePattern 1500 1500 (exampleCandidate 1 None) s)) in
  PS.reachable PS.noConfig (directoryWithHistory 12) s
  /\ PS.reachable PS.noConfig (directoryWithHistory 12) s'
  /\ PS.initialized s = true
  /\ PS.maxVersions (PS.config s) = 10
  /\ option_map (@List.length _) (value_of (PS.getPatternVersions k s)) = Some 12%nat
  /\ option_map (@List.length _) (value_of (PS.getPatternVersions k s')) = Some 12%nat.
Proof.
  cbv zeta.
  assert (Hr : PS.reachable PS.noConfig (directoryWithHistory 12)
                 (state_of (PS.initialize (directoryWithHistory 12) 1000
                                          (PS.new PS.noConfig))))
    by (apply PS.reach_initialize, PS.reach_new).
  split; [exact Hr|]. split.
  - assert (Hall : forall us st,
               PS.reachable PS.noConfig (directoryWithHistory 12) st ->
               PS.reachable PS.noConfig (directoryWithHistory 12)
                 (PS.updateAll (PS.generatePatternId (exampleCandidate 1 None)) us st)).
    { induction us as [|[[a b] u] us IH]; intros st Hst; [exact Hst|].
      unfold PS.updateAll. cbn [fold_left fst snd]. apply IH.
      exact (PS.reach_call _ _ (PS.CallUpdate a b _ u) st Hst). }
    apply Hall.
    exact (PS.reach_call _ _ (PS.CallSave 1500 1500 (exampleCandidate 1 None)) _ Hr).
  - split_all; vm_compute; reflexivity.
Qed.

(** C3, amended.  In every state of a store whose version limit is not
    negative (the default is 10) and whose data directory held version
    lists within the limit: (1) each pattern has at most [maxVersions]
    versions; (2)
    [createVersion] appends the new version at the end and, once the list
    is full, drops the head of the list, which is the oldest version
    (first in, first out); (3) with the limit 10, saving a pattern and
    then updating it 11 times leaves exactly 10 versions. *)
Theorem C3_version_limit :
  forall cfg files s,
    0 <= PS.maxVersions (PS.config (PS.new cfg)) ->
    files_bounded (PS.maxVersions (PS.config (PS.new cfg))) files ->
    PS.reachable cfg files s ->
    (forall k vs, JsMap.get k (PS.versions s) = Some vs ->
                  Z.of_nat (List.length vs) <= PS.maxVersions (PS.config s))
    /\ (forall ts p,
          let old := versionsOf (PS.id p) s in
          let new := versionsOf (PS.id p) (state_of (PS.createVersion ts p s)) in
          (Z.of_nat (List.length old) < PS.maxVersions (PS.config s) ->
           new = old ++ [versionOf ts p old])
          /\ (Z.of_nat (List.length old) = PS.maxVersions (PS.config s) ->
              new = tl old ++ [versionOf ts p old]))
    /\ (PS.maxVersions (PS.config s) = 10 -> PS.initialized s = true ->
        forall now ts c us,
          List.length us = 11%nat ->
          let k := PS.generatePatternId c in
          let s' := PS.updateAll k us (state_of (PS.savePattern now ts c s)) in
          exists vs, PS.getPatternVersions k s' = Ok vs s' /\ List.length vs = 10%nat).
Proof.
  intros cfg files s H0 Hf Hr.
  pose proof (reachable_good cfg H0 files s Hf Hr) as Hg.
  pose proof (maxVersions_new_nonzero cfg) as Hnz.
  assert (Hcfg : PS.config s = PS.config (PS.new cfg)) by apply (inv_config _ _ (proj1 Hg)).
  split; [exact (proj2 Hg)|]. split.
  - intros ts p old new. subst new.
    rewrite createVersion_eq. unfold versionsOf.
    cbn [state_of PS.versions PS.set_versions]. rewrite get_set_eq.
    cbn [PS.nullish]. fold (versionsOf (PS.id p) s). fold old.
    apply pushTrim_fifo. rewrite Hcfg. lia.
  - intros Hmax Hinit now ts c us Hlen k s'.
    set (s1 := state_of (PS.savePattern now ts c s)) in *.
    assert (Hg1 : good cfg s1) by now apply good_savePattern.
    assert (Hi1 : PS.initialized s1 = true) by now apply initialized_savePattern.
    assert (Hp1 : JsMap.get k (PS.patterns s1) = Some (savedPattern now c s)).
    { unfold s1. rewrite savePattern_ok by auto.
      cbn [state_of PS.patterns PS.set_patterns]. apply get_set_eq. }
    assert (Hrun : forall us0 st, PS.initialized st = true ->
              PS.initialized (PS.updateAll k us0 st) = true).
    { induction us0 as [|[[a b] u] us0 IH]; intros st Hst; auto.
      unfold PS.updateAll. cbn [fold_left fst snd]. apply IH.
      unfold PS.updatePattern, PS.ensureInitialized. run_monad. rewrite Hst.
      destruct (JsMap.get k (PS.patterns st)); auto. }
    exists (versionsOf k s'). split.
    + unfold PS.getPatternVersions, PS.ensureInitialized. run_monad.
      unfold s'. rewrite (Hrun us s1 Hi1). reflexivity.
    + destruct (updateAll_count cfg H0 k us s1 _ Hg1 Hi1 Hp1) as [E|E];
        [|subst us; discriminate].
      fold s' in E. rewrite Hlen in E. rewrite <- Hcfg, Hmax in E.
      assert (Hb1 : Z.of_nat (List.length (versionsOf k s1)) <= 10).
      { unfold versionsOf.
        destruct (JsMap.get k (PS.versions s1)) eqn:G; cbn [PS.nullish List.length]; [|lia].
        pose proof (proj2 Hg1 _ _ G) as Hb.
        rewrite (inv_config _ _ (proj1 Hg1)), <- Hcfg, Hmax in Hb. exact Hb. }
      lia.
Qed.

(** The theorem on the store that the pattern-storage tests use: default
    configuration, empty data directory, initialized. *)
Lemma C3_version_limit_witness :
  let s := state_of (PS.initialize [] 0 (PS.new PS.noConfig)) in
  (forall k vs, JsMap.get k (PS.versions s) = Some vs ->
                Z.of_nat (List.length vs) <= PS.maxVersions (PS.config s))
  /\ (forall ts p,
        let old := versionsOf (PS.id p) s in
        let new := versionsOf (PS.id p) (state_of (PS.createVersion ts p s)) in
        (Z.of_nat (List.length old) < PS.maxVersions (PS.config s) ->
         new = old ++ [versionOf ts p old])
        /\ (Z.of_nat (List.length old) = PS.maxVersions (PS.config s) ->
            new = tl old ++ [versionOf ts p old]))
  /\ (PS.maxVersions (PS.config s) = 10 -> PS.initialized s = true ->
      forall now ts c us,
        List.length us = 11%nat ->
        let k := PS.generatePatternId c in
        let s' := PS.updateAll k us (state_of (PS.savePattern now ts c s)) in
        exists vs, PS.getPatternVersions k s' = Ok vs s' /\ List.length vs = 10%nat).
Proof.
  apply (C3_version_limit PS.noConfig []).
  - vm_compute. discriminate.
  - constructor.
  - apply (PS.reach_initialize PS.noConfig [] 0). apply PS.reach_new.
Defined.

(** ** C1: the pattern id *)

(** C1, as stated, fails: two candidates with the same type and the same
    data but a different [metadata.frequency] get different ids, and
    saving one after the other leaves two records. *)
Lemma C1_counterexample :
  let a := exampleCandidate 1 None in
  let b := exampleCandidate 2 None in
  PS.cand_type a = PS.cand_type b
  /\ PS.cand_data a = PS.cand_data b
  /\ PS.generatePatternId a = "test-72134933"%string
  /\ PS.generatePatternId b = "test-4a61990c"%string
  /\ PS.generatePatternId a <> PS.generatePatternId b
  /\ JsMap.size
       (PS.patterns
          (state_of (PS.savePattern 2 2 b (state_of (PS.savePattern 1 1 a freshStore)))))
     = 2.
Proof.
  cbv zeta.
  split; [reflexivity|]. split; [reflexivity|].
  split; [vm_compute; reflexivity|]. split; [vm_compute; reflexivity|].
  split; [|vm_compute; reflexivity].
  intros H. vm_compute in H. discriminate H.
Qed.

Lemma stringify_defined o :
  Js.stringify (Js.JObj (Js.defined o)) = Js.stringify (Js.JObj o).
Proof.
  cbn [Js.stringify]. do 3 f_equal. unfold Js.defined.
  induction o as [|[k v] o IH]; cbn [filter flat_map snd]; [reflexivity|].
  destruct v; cbn [flat_map snd fst app]; rewrite ?IH; reflexivity.
Qed.

Lemma prop_absent k o : ~ In k (map fst o) -> Js.prop k o = Js.JUndefined.
Proof.
  induction o as [|[k' v] o IH]; cbn [Js.prop map fst In]; intros H; [reflexivity|].
  destruct (String.eqb_spec k k') as [->|Hne]; [exfalso; apply H; now left|].
  apply IH. intros Hin. apply H. now right.
Qed.

Lemma In_defined_keys k o : In k (map fst (Js.defined o)) -> In k (map fst o).
Proof.
  unfold Js.defined. intros H. apply in_map_iff in H. destruct H as (kv & E & Hin).
  apply filter_In in Hin. apply in_map_iff. exists kv. tauto.
Qed.

Lemma prop_defined k o :
  NoDup (map fst o) -> Js.prop k (Js.defined o) = Js.prop k o.
Proof.
  induction o as [|[k' v] o IH]; cbn [map fst]; intros Hnd; [reflexivity|].
  inversion Hnd as [|? ? Hnotin Hnd']; subst.
  unfold Js.defined. cbn [filter snd Js.prop].
  destruct (String.eqb_spec k k') as [->|Hne].
  - destruct v; cbn [Js.prop]; rewrite ?String.eqb_refl; try reflexivity.
    apply prop_absent. intros Hin. apply Hnotin. now apply In_defined_keys.
  - destruct v; cbn [Js.prop];
      try (destruct (String.eqb_spec k k'); [contradiction|]); now apply IH.
Qed.

(** C1, amended.  The id is the type followed by a hash of the JSON text
    of the whole candidate as passed, so it is settled by the properties
    the candidate owns with a value other than [undefined], in the order
    they were written: two candidates that agree on these get the same
    id.  On an initialized store both saves return, each with the id of
    its candidate.  If the ids are equal the second save is an upsert: the
    number of records is unchanged and the record under the id is the one
    saved last.  If they differ, both records are in the store
    afterwards. *)
Theorem C1_same_candidate_upsert :
  forall s now ts now' ts' c c',
    PS.initialized s = true ->
    (NoDup (map fst c) -> NoDup (map fst c') -> Js.defined c = Js.defined c' ->
     PS.generatePatternId c = PS.generatePatternId c')
    /\ exists p s1 p' s2,
         PS.savePattern now ts c s = Ok p s1
         /\ PS.savePattern now' ts' c' s1 = Ok p' s2
         /\ PS.id p = PS.generatePatternId c
         /\ PS.id p' = PS.generatePatternId c'
         /\ (PS.generatePatternId c' = PS.generatePatternId c ->
             JsMap.size (PS.patterns s2) = JsMap.size (PS.patterns s1)
             /\ JsMap.get (PS.id p) (PS.patterns s2) = Some p')
         /\ (PS.generatePatternId c' <> PS.generatePatternId c ->
             JsMap.get (PS.id p) (PS.patterns s2) = Some p
             /\ JsMap.get (PS.id p') (PS.patterns s2) = Some p').
Proof.
  intros s now ts now' ts' c c' Hinit. split.
  - intros Hc Hc' Hdef. unfold PS.generatePatternId, PS.hashData, PS.cand_type.
    rewrite <- (prop_defined "type" c Hc), <- (prop_defined "type" c' Hc').
    rewrite <- (stringify_defined c), <- (stringify_defined c'). now rewrite Hdef.
  - pose proof (initialized_savePattern now ts c s Hinit) as Hinit1.
    rewrite (savePattern_ok now ts c s Hinit) in *.
    cbn [state_of] in Hinit1.
    set (s1 := PS.set_patterns _ _) in *.
    assert (Hg : JsMap.get (PS.generatePatternId c) (PS.patterns s1)
                 = Some (savedPattern now c s)) by apply get_set_eq.
    exists (savedPattern now c s), s1.
    rewrite (savePattern_ok now' ts' c' s1 Hinit1).
    eexists _, _. split; [reflexivity|]. split; [reflexivity|].
    split; [reflexivity|]. split; [reflexivity|].
    cbn [savedPattern PS.id]. split.
    + intros Heq. rewrite Heq, Hg.
      cbn [PS.patterns PS.set_patterns]. rewrite patterns_createVersion. split.
      * unfold JsMap.size. rewrite length_set. unfold JsMap.has. now rewrite Hg.
      * apply get_set_eq.
    + intros Hne. cbn [PS.patterns PS.set_patterns]. split; [|apply get_set_eq].
      rewrite get_set_ne by exact Hne.
      destruct (JsMap.get (PS.generatePatternId c') (PS.patterns s1));
        [rewrite patterns_createVersion|]; exact Hg.
Qed.

(** The candidate of the tests, and the same literal with an
    [expiresAt: undefined] written after it. *)
Lemma C1_same_candidate_upsert_witness :
  let c := exampleCandidate 1 None in
  let c' := (exampleCandidate 1 None ++ [("expiresAt"%string, Js.JUndefined)])%list in
  c <> c'
  /\ PS.generatePatternId c = PS.generatePatternId c'
  /\ exists p s1 p' s2,
       PS.savePattern 1 1 c freshStore = Ok p s1
       /\ PS.savePattern 2 2 c' s1 = Ok p' s2
       /\ JsMap.size (PS.patterns s2) = JsMap.size (PS.patterns s1)
       /\ JsMap.get (PS.id p) (PS.patterns s2) = Some p'.
Proof.
  cbv zeta.
  pose proof (C1_same_candidate_upsert freshStore 1 1 2 2
                (exampleCandidate 1 None)
                (exampleCandidate 1 None ++ [("expiresAt"%string, Js.JUndefined)])%list
                eq_refl) as [Hid Hsave].
  assert (Hsame : PS.generatePatternId (exampleCandidate 1 None)
                  = PS.generatePatternId
                      (exampleCandidate 1 None ++ [("expiresAt"%string, Js.JUndefined)])%list).
  { apply Hid.
    - vm_compute. repeat constructor; cbn; intuition discriminate.
    - vm_compute. repeat constructor; cbn; intuition discriminate.
    - reflexivity. }
  split; [intros H; apply (f_equal (@List.length _)) in H; discriminate H|].
  split; [exact Hsame|].
  destruct Hsave as (p & s1 & p' & s2 & E1 & E2 & _ & _ & Heq & _).
  exists p, s1, p', s2. split; [exact E1|]. split; [exact E2|].
  apply Heq. symmetry. exact Hsame.
Defined.

(** ** C4: version numbers *)

(** C4 fails on the code.  [createVersion] numbers a version by the
    current length of the list plus one, and the list stops growing once
    it is trimmed to [maxVersions]: after a save and 12 updates under the
    default limit of 10 the retained versions are numbered
    3, 4, ..., 10, 11, 11. *)
Theorem C4_version_numbers_repeat :
  let k := PS.generatePatternId (exampleCandidate 1 None) in
  let s := PS.updateAll k (exampleUpdates 12)
             (state_of (PS.savePattern 1000 1000 (exampleCandidate 1 None) freshStore)) in
  value_of (PS.getPatternVersions k s)
  = Some (versionsOf k s)
  /\ map PS.ver_version (versionsOf k s) = [3; 4; 5; 6; 7; 8; 9; 10; 11; 11]
  /\ ~ NoDup (map PS.ver_version (versionsOf k s)).
Proof.
  cbv zeta. split; [vm_compute; reflexivity|].
  assert (E : map PS.ver_version
                (versionsOf (PS.generatePatternId (exampleCandidate 1 None))
                   (PS.updateAll (PS.generatePatternId (exampleCandidate 1 None))
                      (exampleUpdates 12)
                      (state_of (PS.savePattern 1000 1000 (exampleCandidate 1 None)
                                                freshStore))))
              = [3; 4; 5; 6; 7; 8; 9; 10; 11; 11]) by (vm_compute; reflexivity).
  split; [exact E|]. rewrite E. clear E. intros Hnd.
  repeat match goal with
         | H : NoDup (_ :: _) |- _ => inversion H; clear H; subst
         end.
  cbn [In] in *. tauto.
Qed.

(** ** C5: the time stamps of a saved pattern *)

(** What [savePattern] stores, on any initialized store: [createdAt] and
    [updatedAt] are both the clock reading of this save, whether or not
    the id was present, and [expiresAt] is the caller's value or else the
    clock reading plus [defaultExpirationDays] days. *)
Lemma savePattern_timestamps now ts c s :
  PS.initialized s = true ->
  exists p s',
    PS.savePattern now ts c s = Ok p s'
    /\ JsMap.get (PS.generatePatternId c) (PS.patterns s') = Some p
    /\ PS.createdAt p = now
    /\ PS.updatedAt p = now
    /\ PS.expiresAt p
       = Some (match PS.cand_expiresAt c with
               | Some e => e
               | None => now + PS.defaultExpirationDays (PS.config s) * (24 * 60 * 60 * 1000)
               end).
Proof.
  intros Hinit. rewrite savePattern_ok by auto.
  eexists _, _. split; [reflexivity|]. split.
  - cbn [PS.patterns PS.set_patterns]. apply get_set_eq.
  - split; [reflexivity|]. split; [reflexivity|].
    cbn [savedPattern PS.expiresAt]. destruct (PS.cand_expiresAt c); reflexivity.
Qed.

(** C5 fails on the code in its first part.  A pattern saved at clock
    reading 1000 and saved again, unchanged, at 5000 is stored with
    [createdAt] 5000: the re-save overwrites the creation time.  The
    other two parts hold here: [updatedAt] is 5000 and [expiresAt] is
    5000 plus 30 days. *)
Theorem C5_resave_resets_createdAt :
  let c := exampleCandidate 1 None in
  let k := PS.generatePatternId c in
  let s1 := state_of (PS.savePattern 1000 1000 c freshStore) in
  let s2 := state_of (PS.savePattern 5000 5000 c s1) in
  option_map PS.createdAt (JsMap.get k (PS.patterns s1)) = Some 1000
  /\ option_map PS.createdAt (JsMap.get k (PS.patterns s2)) = Some 5000
  /\ option_map PS.updatedAt (JsMap.get k (PS.patterns s2)) = Some 5000
  /\ option_map PS.expiresAt (JsMap.get k (PS.patterns s2))
     = Some (Some (5000 + 30 * 86400000))
  /\ JsMap.size (PS.patterns s2) = 1.
Proof. cbv zeta. split_all; vm_compute; reflexivity. Qed.

(** ** C6: expiration on read *)

Lemma delete_split {V} (m : JsMap.t V) k v :
  JsMap.wf m -> JsMap.get k m = Some v ->
  exists l1 l2, m = l1 ++ (k, v) :: l2 /\ JsMap.delete k m = l1 ++ l2.
Proof.
  unfold JsMap.wf, JsMap.keys.
  induction m as [|[k' v'] m IH]; simpl; [discriminate|].
  intros Hnd Hget. inversion Hnd as [|? ? Hnotin Hnd']; subst.
  destruct (String.eqb_spec k k').
  - subst k'. inversion Hget; subst. exists [], m. split; auto.
    simpl. apply delete_absent. apply get_None_keys. exact Hnotin.
  - destruct (IH Hnd' Hget) as (l1 & l2 & E1 & E2).
    exists ((k', v') :: l1), l2. simpl. now rewrite <- E1, E2.
Qed.

Lemma append_assoc (a b c : string) : ((a ++ b) ++ c = a ++ (b ++ c))%string.
Proof. induction a as [|x a IH]; cbn; [reflexivity | now rewrite IH]. Qed.

Lemma tally_zero t : tally t 0 = None.
Proof. reflexivity. Qed.

Lemma tally_succ t n :
  0 <= n ->
  tally t (n + 1)
  = if String.eqb t "__proto__" then None
    else Some (match tally t n with
               | Some v => Js.orZeroPlusOne v
               | None => match Js.inheritedFunction t with
                         | Some name => Js.JStr (Js.nativeSource name ++ "1")
                         | None => Js.JNum 1
                         end
               end).
Proof.
  intros Hn. unfold tally.
  destruct (Z.leb_spec (n + 1) 0); [lia|].
  destruct (String.eqb t "__proto__"); [reflexivity|].
  destruct (Z.leb_spec n 0) as [Hz|Hpos].
  - assert (n = 0) by lia. subst n.
    destruct (Js.inheritedFunction t); reflexivity.
  - destruct (Js.inheritedFunction t) as [name|].
    + f_equal. unfold Js.orZeroPlusOne. cbn [Js.truthy Js.nativeSource Js.toString].
      cbn [String.append String.eqb negb]. do 2 f_equal.
      replace (Z.to_nat (n + 1)) with (S (Z.to_nat n)) by lia.
      cbn [ones]. rewrite !append_assoc. reflexivity.
    + f_equal. unfold Js.orZeroPlusOne. cbn [Js.truthy].
      destruct (Z.eqb_spec n 0); [lia | reflexivity].
Qed.

(** The fold of [getStats] over entries with the keys [key p]: under
    every key, [byType] holds the tally of the entries with that key. *)
Lemma countUp_fold {A} (key : A -> string) t (l : list A) :
  forall acc n,
    0 <= n ->
    JsMap.get t acc = tally t n ->
    JsMap.get t (fold_left (fun a p => PS.countUp (key p) a) l acc)
    = tally t (n + Z.of_nat (List.length (filter (fun p => String.eqb (key p) t) l))).
Proof.
  induction l as [|p l IH]; intros acc n Hn Hacc; cbn [fold_left filter List.length].
  - now rewrite Z.add_0_r.
  - destruct (String.eqb_spec (key p) t) as [E|Hne].
    + cbn [List.length].
      replace (n + Z.of_nat (S (List.length (filter (fun p0 => String.eqb (key p0) t) l))))
        with ((n + 1) + Z.of_nat (List.length (filter (fun p0 => String.eqb (key p0) t) l)))
        by lia.
      apply IH; [lia|].
      rewrite (tally_succ t n Hn). unfold PS.countUp. rewrite E.
      destruct (String.eqb t "__proto__") eqn:P.
      * rewrite Hacc. unfold tally. rewrite P.
        destruct (n <=? 0); reflexivity.
      * rewrite get_set_eq. unfold PS.nextCount. rewrite Hacc. reflexivity.
    + apply IH; [lia|]. unfold PS.countUp.
      destruct (String.eqb (key p) "__proto__"); [exact Hacc|].
      rewrite get_set_ne by auto. exact Hacc.
Qed.

Lemma byType_fold t l :
  JsMap.get t (fold_left (fun a p => PS.countUp (PS.type p) a) l JsMap.empty)
  = tally t (countType t l).
Proof.
  unfold countType. now rewrite (countUp_fold PS.type t l JsMap.empty 0).
Qed.

Lemma totalVersions_fold {A} (l : list (list A)) :
  forall acc,
    fold_left (fun a vs => a + Z.of_nat (List.length vs)) l acc = acc + sumLengths l.
Proof.
  induction l as [|vs l IH]; intros acc; simpl; [lia|]. rewrite IH. lia.
Qed.

Lemma countType_app t l1 l2 :
  countType t (l1 ++ l2) = countType t l1 + countType t l2.
Proof. unfold countType. rewrite filter_app, length_app. lia. Qed.

Lemma sumLengths_app {A} (l1 l2 : list (list A)) :
  sumLengths (l1 ++ l2) = sumLengths l1 + sumLengths l2.
Proof. induction l1; simpl; lia. Qed.

Lemma getStats_eq s :
  PS.getStats s
  = Ok {| PS.totalPatterns := JsMap.size (PS.patterns s);
          PS.totalVersions :=
            fold_left (fun acc vs => acc + Z.of_nat (List.length vs))
                      (JsMap.values (PS.versions s)) 0;
          PS.byType :=
            fold_left (fun acc p => PS.countUp (PS.type p) acc)
                      (JsMap.values (PS.patterns s)) JsMap.empty |} s.
Proof. reflexivity. Qed.

Lemma isExpired_true now p e :
  PS.expiresAt p = Some e -> e <> 0 -> e < now -> PS.isExpired now p = true.
Proof.
  intros He Hnz Hlt. unfold PS.isExpired, Js.truthyZ. rewrite He.
  destruct (Z.eqb_spec e 0); [contradiction|].
  destruct (Z.gtb_spec now e); [reflexivity | lia].
Qed.

(** C6, as stated, fails for a pattern stored with [expiresAt = 0]: the
    test [pattern.expiresAt && ...] takes 0 for an absent expiry, so at
    clock reading 2000 [getPattern] returns the pattern and keeps it. *)
Lemma C6_counterexample :
  let c := exampleCandidate 1 (Some 0) in
  let k := PS.generatePatternId c in
  let s := state_of (PS.savePattern 1000 1000 c freshStore) in
  option_map PS.expiresAt (JsMap.get k (PS.patterns s)) = Some (Some 0)
  /\ value_of (PS.getPattern 2000 k s) = Some (JsMap.get k (PS.patterns s))
  /\ value_of (PS.getPattern 2000 k s) <> Some None
  /\ state_of (PS.getPattern 2000 k s) = s
  /\ option_map PS.totalPatterns (value_of (PS.getStats (state_of (PS.getPattern 2000 k s))))
     = Some 1.
Proof.
  cbv zeta. split_all; try (vm_compute; reflexivity).
  intros H. vm_compute in H. discriminate H.
Qed.

(** C6, amended.  On an initialized store: [getPattern] of an absent id
    returns null and leaves the state as it is; [getPattern] of a stored
    pattern whose [expiresAt] is not 0 and lies before the clock reading
    returns null and deletes the pattern and its version history, so that
    [getStats] afterwards counts one pattern less and none of its
    versions, and [byType] shows under every key what it shows for one
    pattern less of the deleted pattern's type: a number for an ordinary
    type, and for a type that names a property every object inherits
    (such as constructor or __proto__) the text or the missing entry that
    [tally] describes. *)
Theorem C6_expired_get_deletes :
  forall s now k,
    PS.initialized s = true ->
    JsMap.wf (PS.patterns s) -> JsMap.wf (PS.versions s) ->
    (JsMap.get k (PS.patterns s) = None -> PS.getPattern now k s = Ok None s)
    /\ (forall p e,
          JsMap.get k (PS.patterns s) = Some p ->
          PS.expiresAt p = Some e -> e <> 0 -> e < now ->
          exists s',
            PS.getPattern now k s = Ok None s'
            /\ JsMap.get k (PS.patterns s') = None
            /\ JsMap.get k (PS.versions s') = None
            /\ forall st st',
                 PS.getStats s = Ok st s -> PS.getStats s' = Ok st' s' ->
                 PS.totalPatterns st' = PS.totalPatterns st - 1
                 /\ PS.totalVersions st'
                    = PS.totalVersions st - Z.of_nat (List.length (versionsOf k s))
                 /\ forall t,
                      JsMap.get t (PS.byType st)
                      = tally t (countType t (JsMap.values (PS.patterns s)))
                      /\ JsMap.get t (PS.byType st')
                         = tally t (countType t (JsMap.values (PS.patterns s))
                                    - (if String.eqb (PS.type p) t then 1 else 0))).
Proof.
  intros s now k Hinit Hwp Hwv. split.
  - intros Hnone. unfold PS.getPattern, PS.ensureInitialized. run_monad.
    now rewrite Hinit, Hnone.
  - intros p e Hget He Hnz Hlt.
    pose proof (isExpired_true now p e He Hnz Hlt) as Hexp.
    exists (PS.set_versions (JsMap.delete k) (PS.set_patterns (JsMap.delete k) s)).
    split.
    { unfold PS.getPattern, PS.deletePattern, PS.ensureInitialized, JsMap.has. run_monad.
      rewrite Hinit, Hget, Hexp. simpl. rewrite Hinit, Hget. reflexivity. }
    cbn [PS.patterns PS.versions PS.set_versions PS.set_patterns].
    split; [apply get_delete_eq|]. split; [apply get_delete_eq|].
    intros st st'. rewrite !getStats_eq. intros E E'.
    inversion E; subst st; clear E. inversion E'; subst st'; clear E'.
    cbn [PS.totalPatterns PS.totalVersions PS.byType PS.patterns PS.versions
         PS.set_versions PS.set_patterns].
    destruct (delete_split _ _ _ Hwp Hget) as (l1 & l2 & E1 & E2).
    split; [|split].
    + unfold JsMap.size. rewrite E2, E1, !length_app. cbn [List.length]. lia.
    + rewrite !totalVersions_fold. unfold versionsOf.
      destruct (JsMap.get k (PS.versions s)) as [vs|] eqn:G; cbn [PS.nullish List.length].
      * destruct (delete_split _ _ _ Hwv G) as (m1 & m2 & F1 & F2).
        rewrite F2, F1. unfold JsMap.values. rewrite !map_app, !sumLengths_app.
        cbn [map snd sumLengths fold_right]. unfold sumLengths. lia.
      * rewrite (delete_absent _ _ G). lia.
    + intros t. rewrite !byType_fold. split; [reflexivity|]. f_equal.
      rewrite E2, E1.
      unfold JsMap.values. rewrite !map_app, !countType_app.
      cbn [map snd]. change (p :: map snd l2) with ([p] ++ map snd l2).
      rewrite countType_app.
      assert (Hp : countType t [p] = if String.eqb (PS.type p) t then 1 else 0).
      { unfold countType. cbn [filter].
        destruct (String.eqb (PS.type p) t); reflexivity. }
      rewrite Hp. lia.
Qed.

Lemma C6_expired_get_deletes_witness :
  let c := exampleCandidate 1 (Some 1500) in
  let k := PS.generatePatternId c in
  let s := state_of (PS.savePattern 1000 1000 c freshStore) in
  exists s',
    PS.getPattern 2000 k s = Ok None s'
    /\ JsMap.get k (PS.patterns s') = None
    /\ JsMap.get k (PS.versions s') = None
    /\ forall st st',
         PS.getStats s = Ok st s -> PS.getStats s' = Ok st' s' ->
         PS.totalPatterns st' = PS.totalPatterns st - 1
         /\ PS.totalVersions st'
            = PS.totalVersions st - Z.of_nat (List.length (versionsOf k s))
         /\ forall t,
              JsMap.get t (PS.byType st)
              = tally t (countType t (JsMap.values (PS.patterns s)))
              /\ JsMap.get t (PS.byType st')
                 = tally t (countType t (JsMap.values (PS.patterns s))
                            - (if String.eqb "test" t then 1 else 0)).
Proof.
  cbv zeta.
  refine (proj2 (C6_expired_get_deletes
                   (state_of (PS.savePattern 1000 1000
                                (exampleCandidate 1 (Some 1500)) freshStore))
                   2000 (PS.generatePatternId (exampleCandidate 1 (Some 1500)))
                   _ _ _)
                (savedPattern 1000 (exampleCandidate 1 (Some 1500)) freshStore)
                1500 _ _ _ _).
  - vm_compute. reflexivity.
  - vm_compute. repeat constructor. intros [].
  - vm_compute. constructor.
  - vm_compute. reflexivity.
  - reflexivity.
  - discriminate.
  - reflexivity.
Defined.

(** ** KnowledgeBase: relationships *)

Lemma for_each_modify {S A} (f : A -> S -> S) (l : list A) (s : S) :
  for_each l (fun x => modify (f x)) s = Ok tt (fold_left (fun st x => f x st) l s).
Proof.
  revert s. induction l as [|x l IH]; intros s; simpl; auto.
  unfold bind, modify at 1. apply IH.
Qed.

Lemma tagIndex_fold_frame (f : string -> JsMap.t KB.StrSet -> JsMap.t KB.StrSet) l s :
  let s' := fold_left (fun st tag => KB.set_tagIndex (f tag) st) l s in
  KB.items s' = KB.items s
  /\ KB.relationships s' = KB.relationships s
  /\ KB.initialized s' = KB.initialized s
  /\ KB.config s' = KB.config s
  /\ KB.patternIndex s' = KB.patternIndex s.
Proof.
  revert s. induction l as [|x l IH]; intros s; cbn [fold_left]; auto.
  destruct (IH (KB.set_tagIndex (f x) s)) as (H1 & H2 & H3 & H4 & H5).
  cbv zeta. rewrite H1, H2, H3, H4, H5. auto.
Qed.

Lemma relationships_fold_delete ks s :
  let s' := fold_left (fun st relId => KB.set_relationships (JsMap.delete relId) st) ks s in
  KB.relationships s' = fold_left (fun m k => JsMap.delete k m) ks (KB.relationships s)
  /\ KB.items s' = KB.items s
  /\ KB.initialized s' = KB.initialized s
  /\ KB.config s' = KB.config s.
Proof.
  revert s. induction ks as [|k ks IH]; intros s; cbn [fold_left]; auto.
  destruct (IH (KB.set_relationships (JsMap.delete k) s)) as (H1 & H2 & H3 & H4).
  cbv zeta. rewrite H1, H2, H3, H4. auto.
Qed.

Lemma In_fold_delete {V} ks (m : JsMap.t V) k v :
  In (k, v) (fold_left (fun m0 x => JsMap.delete x m0) ks m)
  <-> In (k, v) m /\ ~ In k ks.
Proof.
  revert m. induction ks as [|x ks IH]; intros m; cbn [fold_left In].
  - tauto.
  - rewrite IH, In_delete. intuition congruence.
Qed.

Lemma removeKnowledge_ok id_ item s :
  KB.initialized s = true ->
  JsMap.get id_ (KB.items s) = Some item ->
  KB.removeKnowledge id_ s = Ok true (afterRemove id_ item s).
Proof.
  intros Hinit Hget.
  unfold KB.removeKnowledge, KB.ensureInitialized, KB.removeFromPatternIndex,
    KB.removeFromTagIndex.
  unfold bind at 1. rewrite Hinit.
  unfold bind at 1, get_state at 1. rewrite Hget.
  unfold bind at 1, modify at 1.
  unfold bind at 1. rewrite for_each_modify.
  unfold bind at 1, modify at 1.
  unfold bind at 1, get_state at 1.
  unfold bind at 1. rewrite for_each_modify.
  reflexivity.
Qed.

Lemma removeKnowledge_absent id_ s :
  KB.initialized s = true ->
  JsMap.get id_ (KB.items s) = None ->
  KB.removeKnowledge id_ s = Ok false s.
Proof.
  intros Hinit Hget. unfold KB.removeKnowledge, KB.ensureInitialized. run_monad.
  now rewrite Hinit, Hget.
Qed.

Lemma afterRemove_frame id_ item s :
  KB.items (afterRemove id_ item s) = JsMap.delete id_ (KB.items s)
  /\ KB.relationships (afterRemove id_ item s)
     = fold_left (fun m k => JsMap.delete k m)
         (map fst (filter (fun kv => KB.touches id_ (snd kv)) (KB.relationships s)))
         (KB.relationships s)
  /\ KB.initialized (afterRemove id_ item s) = KB.initialized s
  /\ KB.config (afterRemove id_ item s) = KB.config s.
Proof.
  unfold afterRemove.
  set (s1 := KB.set_patternIndex _ s).
  destruct (tagIndex_fold_frame (fun tag => KB.removeFromIndex tag (KB.id item))
              (KB.tags (KB.metadata item)) s1) as (T1 & T2 & T3 & T4 & _).
  cbv zeta in T1, T2, T3, T4.
  set (s2 := fold_left _ (KB.tags (KB.metadata item)) s1) in *.
  set (s3 := KB.set_items (JsMap.delete id_) s2).
  destruct (relationships_fold_delete
              (map fst (filter (fun kv => KB.touches id_ (snd kv)) (KB.relationships s3)))
              s3) as (R1 & R2 & R3 & R4).
  cbv zeta in R1, R2, R3, R4. rewrite R1, R2, R3, R4.
  unfold s3. cbn [KB.items KB.relationships KB.initialized KB.config KB.set_items].
  rewrite T1, T2, T3, T4. unfold s1. cbn. auto.
Qed.

(** C7, as stated, fails in its first part: on a freshly initialized
    knowledge base, which holds no item at all, [addRelationship] of a
    relationship between "knowledge-1" and "knowledge-2" returns and the
    relationship is stored.  (The test 'should add a relationship' does
    exactly this.) *)
Lemma C7_counterexample :
  JsMap.get (KB.fromId exampleRelationship) (KB.items freshKnowledgeBase) = None
  /\ JsMap.get (KB.toId exampleRelationship) (KB.items freshKnowledgeBase) = None
  /\ value_of (KB.addRelationship exampleRelationship freshKnowledgeBase) = Some tt
  /\ value_of (KB.getRelationship "rel-1"
                 (state_of (KB.addRelationship exampleRelationship freshKnowledgeBase)))
     = Some (Some exampleRelationship).
Proof. split_all; vm_compute; reflexivity. Qed.

(** C7, amended.  On an initialized knowledge base, [addRelationship]
    stores any relationship, without looking at the items; and
    [removeKnowledge] of an existing item returns true, removes the item
    and leaves no stored relationship whose [fromId] or [toId] is the
    removed id, while for an absent id it returns false and changes
    nothing. *)
Theorem C7_relationships_cascade :
  forall s,
    KB.initialized s = true ->
    (forall rel,
        exists s', KB.addRelationship rel s = Ok tt s'
                   /\ JsMap.get (KB.rel_id rel) (KB.relationships s') = Some rel
                   /\ KB.items s' = KB.items s)
    /\ (forall id_ item,
          JsMap.get id_ (KB.items s) = Some item ->
          exists s', KB.removeKnowledge id_ s = Ok true s'
                     /\ JsMap.get id_ (KB.items s') = None
                     /\ forall k rel, In (k, rel) (KB.relationships s') ->
                                      KB.fromId rel <> id_ /\ KB.toId rel <> id_)
    /\ (forall id_, JsMap.get id_ (KB.items s) = None ->
                    KB.removeKnowledge id_ s = Ok false s).
Proof.
  intros s Hinit. split; [|split].
  - intros rel. eexists. split.
    + unfold KB.addRelationship, KB.ensureInitialized. run_monad. rewrite Hinit. reflexivity.
    + cbn [KB.relationships KB.items KB.set_relationships]. split; auto. apply get_set_eq.
  - intros id_ item Hget. exists (afterRemove id_ item s).
    split; [now apply removeKnowledge_ok|].
    destruct (afterRemove_frame id_ item s) as (F1 & F2 & _).
    rewrite F1, F2. split; [apply get_delete_eq|].
    intros k rel Hin. apply In_fold_delete in Hin. destruct Hin as [Hin Hnot].
    assert (Ht : KB.touches id_ rel = false).
    { destruct (KB.touches id_ rel) eqn:E; auto. exfalso. apply Hnot.
      apply in_map_iff. exists (k, rel). split; auto.
      apply filter_In. split; auto. }
    unfold KB.touches in Ht. apply orb_false_elim in Ht. destruct Ht as [H1 H2].
    apply String.eqb_neq in H1, H2. auto.
  - intros id_ Hnone. now apply removeKnowledge_absent.
Qed.

Lemma C7_relationships_cascade_witness :
  exists s',
    KB.removeKnowledge "a" diamond = Ok true s'
    /\ JsMap.get "a"%string (KB.items s') = None
    /\ forall k rel, In (k, rel) (KB.relationships s') ->
                     KB.fromId rel <> "a"%string /\ KB.toId rel <> "a"%string.
Proof.
  refine (proj1 (proj2 (C7_relationships_cascade diamond _)) "a"%string
                (exampleItem "a" 2) _).
  - vm_compute. reflexivity.
  - vm_compute. reflexivity.
Defined.

(** ** C8: related items *)

(** C8 fails on the code in two of its four parts.  In the diamond
    x-a, x-b, a-z, b-z the direct neighbours of x are a and b, and
    [findRelatedItems("x", 1)] returns a, z, b, z: it contains z, which is
    two hops from x, and it contains z twice.  An item reached at depth
    [maxDepth + 1] is pushed to the result before the depth test of the
    recursive call, which returns without marking it visited.  With
    [maxDepth = 0] the result is a, b, one hop away. *)
Theorem C8_findRelated_overshoots_and_repeats :
  KB.findRelatedItemIds "x" diamond = ["a"%string; "b"%string]
  /\ option_map (map KB.id) (value_of (KB.findRelatedItems "x" 1 diamond))
     = Some ["a"%string; "z"%string; "b"%string; "z"%string]
  /\ option_map (map KB.id) (value_of (KB.findRelatedItems "x" 0 diamond))
     = Some ["a"%string; "b"%string].
Proof. split_all; vm_compute; reflexivity. Qed.

(** ** C9: calls before [initialize] *)

(** C9, as stated, fails: on a store that was constructed and never
    initialized, [PatternStorage.getStats] returns (all counts zero);
    likewise [KnowledgeBase.extractKnowledge] returns its one item and
    [LearningModel.applyWeights] returns the weighted list, as the
    learning-model tests expect of a model that was never initialized. *)
Lemma C9_counterexample :
  PS.initialized (PS.new PS.noConfig) = false
  /\ PS.getStats (PS.new PS.noConfig)
     = Ok {| PS.totalPatterns := 0; PS.totalVersions := 0; PS.byType := [] |}
          (PS.new PS.noConfig)
  /\ KB.initialized (KB.new KB.noConfig) = false
  /\ option_map (fun r => List.length (KB.extractedItems r))
       (value_of (KB.extractKnowledge
                    {| KB.itemEnv := {| KB.idNow := 1; KB.idRnd := "abc";
                                        KB.verifiedNow := 1; KB.createdNow := 1;
                                        KB.updatedNow := 1 |};
                       KB.relEnv := fun _ => (1, "abc"%string) |}
                    (savedPattern 1 (exampleCandidate 1 None) freshStore)
                    (KB.new KB.noConfig)))
     = Some 1%nat
  /\ LM.isInitialized (LM.new LM.noConfig) = false
  /\ option_map (map LM.wp_id)
       (value_of (LM.applyWeights
                    [ {| LM.id := "1"; LM.features := [];  LM.label := "class1";
                         LM.metadata := {| LM.confidence := 0; LM.frequency := 1;
                                           LM.timestamp := 0 |} |};
                      {| LM.id := "2"; LM.features := [];  LM.label := "class2";
                         LM.metadata := {| LM.confidence := 1; LM.frequency := 10;
                                           LM.timestamp := 0 |} |} ]
                    (LM.new LM.noConfig)))
     = Some ["2"%string; "1"%string].
Proof. split_all; vm_compute; reflexivity. Qed.

(** C9, amended.  Before [initialize], the operations that start with
    the initialization check throw the component's not-initialized error
    and leave the state as it is: for the pattern store savePattern,
    getPattern, updatePattern, deletePattern, queryPatterns,
    getPatternVersions and restorePattern; for the knowledge base
    addKnowledge, addKnowledgeItems, addRelationship, getKnowledge,
    getRelationship, queryKnowledge, findRelatedItems, removeKnowledge
    and updateKnowledge; for the learning model classifyPattern,
    classifyPatterns, train, updateModel and saveModel.  The operations
    without the check return normally: getStats of the pattern store and
    of the knowledge base, extractKnowledge, and applyWeights,
    getModelStats and getTrainingHistory of the learning model; the one
    exception is getModelStats on the network without layers that an
    [initialize] which failed at its first layer leaves behind, where
    counting the parameters throws. *)
Theorem C9_initialization_checks :
  (forall s,
      PS.initialized s = false ->
      (forall now ts c, PS.savePattern now ts c s = Throw (NotInitialized CPatternStorage) s)
      /\ (forall now k, PS.getPattern now k s = Throw (NotInitialized CPatternStorage) s)
      /\ (forall ts now k u,
             PS.updatePattern ts now k u s = Throw (NotInitialized CPatternStorage) s)
      /\ (forall k, PS.deletePattern k s = Throw (NotInitialized CPatternStorage) s)
      /\ (forall now q, PS.queryPatterns now q s = Throw (NotInitialized CPatternStorage) s)
      /\ (forall k, PS.getPatternVersions k s = Throw (NotInitialized CPatternStorage) s)
      /\ (forall ts tc now k v,
             PS.restorePattern ts tc now k v s = Throw (NotInitialized CPatternStorage) s)
      /\ (exists st, PS.getStats s = Ok st s))
  /\ (forall s,
        KB.initialized s = false ->
        (forall it, KB.addKnowledge it s = Throw (NotInitialized CKnowledgeBase) s)
        /\ (forall its, KB.addKnowledgeItems its s = Throw (NotInitialized CKnowledgeBase) s)
        /\ (forall rel, KB.addRelationship rel s = Throw (NotInitialized CKnowledgeBase) s)
        /\ (forall k, KB.getKnowledge k s = Throw (NotInitialized CKnowledgeBase) s)
        /\ (forall k, KB.getRelationship k s = Throw (NotInitialized CKnowledgeBase) s)
        /\ (forall q, KB.queryKnowledge q s = Throw (NotInitialized CKnowledgeBase) s)
        /\ (forall k d, KB.findRelatedItems k d s = Throw (NotInitialized CKnowledgeBase) s)
        /\ (forall k, KB.removeKnowledge k s = Throw (NotInitialized CKnowledgeBase) s)
        /\ (forall now k u,
               KB.updateKnowledge now k u s = Throw (NotInitialized CKnowledgeBase) s)
        /\ (forall env p, exists r, KB.extractKnowledge env p s = Ok r s)
        /\ (exists st, KB.getStats s = Ok st s))
  /\ (forall s,
        LM.isInitialized s = false ->
        (forall p0 ps p,
            LM.classifyPattern p0 ps p s = Throw (NotInitialized CLearningModel) s)
        /\ (forall work, LM.classifyPatterns work s = Throw (NotInitialized CLearningModel) s)
        /\ (forall o now ps, LM.train o now ps s = Throw (NotInitialized CLearningModel) s)
        /\ (forall o now ps inc,
               LM.updateModel o now ps inc s = Throw (NotInitialized CLearningModel) s)
        /\ (forall path, LM.saveModel path s = Throw (NotInitialized CLearningModel) s)
        /\ (forall ps, exists w, LM.applyWeights ps s = Ok w s)
        /\ ((forall m, LM.model s = Some m -> LM.layers m <> []) ->
            exists st, LM.getModelStats s = Ok st s)
        /\ (forall m, LM.model s = Some m -> LM.layers m = [] ->
            LM.getModelStats s = Throw EmptyModelFailure s)
        /\ (exists h, LM.getTrainingHistory s = Ok h s)).
Proof.
  split; [|split].
  - intros s H.
    split_all; intros;
      try (unfold PS.savePattern, PS.getPattern, PS.updatePattern, PS.deletePattern,
             PS.queryPatterns, PS.getPatternVersions, PS.restorePattern,
             PS.ensureInitialized, bind; rewrite H; reflexivity).
    eexists. reflexivity.
  - intros s H.
    split_all; intros;
      try (unfold KB.addKnowledge, KB.addKnowledgeItems, KB.addRelationship,
             KB.getKnowledge, KB.getRelationship, KB.queryKnowledge,
             KB.findRelatedItems, KB.removeKnowledge, KB.updateKnowledge,
             KB.ensureInitialized, bind; rewrite H; reflexivity);
      eexists; reflexivity.
  - intros s H.
    split; [|split; [|split; [|split; [|split; [|split; [|split; [|split]]]]]]]; intros;
      try (unfold LM.classifyPattern, LM.classifyPatterns, LM.train, LM.updateModel,
             LM.saveModel, LM.ensureInitialized, bind; rewrite H; reflexivity).
    + eexists; reflexivity.
    + unfold LM.getModelStats, LM.countParams, bind, get_state, ret.
      destruct (LM.model s) as [m|] eqn:Hm; [|eexists; reflexivity].
      specialize (H0 m eq_refl).
      destruct (LM.layers m); [congruence|eexists; reflexivity].
    + unfold LM.getModelStats, LM.countParams, bind, get_state, throw.
      rewrite H0, H1. reflexivity.
    + eexists; reflexivity.
Qed.

Lemma C9_initialization_checks_witness :
  PS.getPattern 0 "test-1" (PS.new PS.noConfig)
  = Throw (NotInitialized CPatternStorage) (PS.new PS.noConfig)
  /\ KB.addRelationship exampleRelationship (KB.new KB.noConfig)
     = Throw (NotInitialized CKnowledgeBase) (KB.new KB.noConfig)
  /\ LM.saveModel "model" (LM.new LM.noConfig)
     = Throw (NotInitialized CLearningModel) (LM.new LM.noConfig).
Proof.
  split; [|split].
  - exact (proj1 (proj2 (proj1 C9_initialization_checks (PS.new PS.noConfig) eq_refl))
             0 "test-1"%string).
  - exact (proj1 (proj2 (proj2 (proj1 (proj2 C9_initialization_checks)
                                   (KB.new KB.noConfig) eq_refl)))
             exampleRelationship).
  - exact (proj1 (proj2 (proj2 (proj2 (proj2 (proj2 (proj2 C9_initialization_checks)
                                   (LM.new LM.noConfig) eq_refl)))))
             "model"%string).
Defined.

(** ** KnowledgeBase: adding items *)

Lemma bind_ok {S A B} (c : M S A) (k : A -> M S B) s a s' :
  c s = Ok a s' -> bind c k s = k a s'.
Proof. intros H. unfold bind. now rewrite H. Qed.

Lemma bind_throw {S A B} (c : M S A) (k : A -> M S B) s e s' :
  c s = Throw e s' -> bind c k s = Throw e s'.
Proof. intros H. unfold bind. now rewrite H. Qed.

Lemma removeKnowledge_total k s :
  KB.initialized s = true ->
  exists b s',
    KB.removeKnowledge k s = Ok b s'
    /\ KB.initialized s' = true
    /\ KB.config s' = KB.config s
    /\ KB.items s' = JsMap.delete k (KB.items s).
Proof.
  intros Hinit. destruct (JsMap.get k (KB.items s)) as [it|] eqn:G.
  - exists true, (afterRemove k it s). split; [now apply removeKnowledge_ok|].
    destruct (afterRemove_frame k it s) as (F1 & _ & F3 & F4).
    rewrite F1, F3, F4. auto.
  - exists false, s. split; [now apply removeKnowledge_absent|].
    rewrite (delete_absent _ _ G). auto.
Qed.

Lemma prune_each ks :
  forall s,
    KB.initialized s = true ->
    exists s',
      for_each ks (fun kv : string * KB.KnowledgeItem =>
                     bind (KB.removeKnowledge (fst kv)) (fun _ => ret tt)) s = Ok tt s'
      /\ KB.initialized s' = true
      /\ KB.config s' = KB.config s
      /\ KB.items s' = fold_left (fun m kv => JsMap.delete (fst kv) m) ks (KB.items s).
Proof.
  induction ks as [|[k it] ks IH]; intros s Hinit; cbn [for_each fold_left fst].
  - exists s. auto.
  - destruct (removeKnowledge_total k s Hinit) as (b & s1 & E & I1 & C1 & T1).
    destruct (IH s1 I1) as (s2 & E2 & I2 & C2 & T2).
    exists s2. split.
    + erewrite bind_ok; [exact E2|]. erewrite bind_ok; [reflexivity | exact E].
    + rewrite I2, C2, T2, C1, T1. auto.
Qed.

Lemma pruneOldItems_ok count s :
  KB.initialized s = true ->
  exists s',
    KB.pruneOldItems count s = Ok tt s'
    /\ KB.initialized s' = true
    /\ KB.config s' = KB.config s
    /\ KB.items s' = fold_left (fun m kv => JsMap.delete (fst kv) m)
                               (victims count s) (KB.items s).
Proof.
  intros Hinit. unfold KB.pruneOldItems.
  destruct (prune_each (victims count s) s Hinit) as (s' & E & H).
  exists s'. split; [|exact H].
  erewrite bind_ok; [|reflexivity]. exact E.
Qed.

Lemma addKnowledge_ok it s :
  KB.initialized s = true ->
  exists s',
    KB.addKnowledge it s = Ok tt s'
    /\ KB.initialized s' = true
    /\ KB.config s' = KB.config s
    /\ KB.items s' = JsMap.set (KB.id it) it (prunedItems s).
Proof.
  intros Hinit. unfold KB.addKnowledge.
  assert (Hp : exists s1,
             (if JsMap.size (KB.items s) >=? KB.maxItems (KB.config s)
              then KB.pruneOldItems 1 else ret tt) s = Ok tt s1
             /\ KB.initialized s1 = true
             /\ KB.config s1 = KB.config s
             /\ KB.items s1 = prunedItems s).
  { unfold prunedItems.
    destruct (JsMap.size (KB.items s) >=? KB.maxItems (KB.config s)).
    - now apply pruneOldItems_ok.
    - exists s. auto. }
  destruct Hp as (s1 & E1 & I1 & C1 & T1).
  destruct (tagIndex_fold_frame
              (fun tag idx => JsMap.set tag
                 (KB.set_add (KB.id it) (KB.nullish (JsMap.get tag idx) [])) idx)
              (KB.tags (KB.metadata it))
              (KB.set_patternIndex
                 (fun idx => JsMap.set (KB.patternId it)
                    (KB.set_add (KB.id it) (KB.nullish (JsMap.get (KB.patternId it) idx) []))
                    idx)
                 (KB.set_items (JsMap.set (KB.id it) it) s1)))
    as (F1 & _ & F3 & F4 & _).
  cbv zeta in F1, F3, F4.
  eexists. split.
  - erewrite bind_ok; [|unfold KB.ensureInitialized; rewrite Hinit; reflexivity].
    erewrite bind_ok; [|reflexivity].
    erewrite bind_ok; [|exact E1].
    erewrite bind_ok; [|reflexivity].
    unfold KB.updatePatternIndex. erewrite bind_ok; [|reflexivity].
    unfold KB.updateTagIndex. rewrite for_each_modify. reflexivity.
  - rewrite F1, F3, F4. cbn [KB.items KB.initialized KB.config KB.set_items
                             KB.set_patternIndex].
    rewrite I1, C1, T1. auto.
Qed.

Lemma addKnowledgeItems_single it s :
  KB.initialized s = true ->
  exists s',
    KB.addKnowledgeItems [it] s = Ok tt s'
    /\ KB.initialized s' = true
    /\ KB.config s' = KB.config s
    /\ KB.items s' = JsMap.set (KB.id it) it (prunedItems s).
Proof.
  intros Hinit. destruct (addKnowledge_ok it s Hinit) as (s' & E & H).
  exists s'. split; [|exact H]. unfold KB.addKnowledgeItems.
  erewrite bind_ok; [|unfold KB.ensureInitialized; rewrite Hinit; reflexivity].
  cbn [for_each]. erewrite bind_ok; [reflexivity | exact E].
Qed.

Lemma addKnowledgeItems_nil s :
  KB.initialized s = true -> KB.addKnowledgeItems [] s = Ok tt s.
Proof.
  intros Hinit. unfold KB.addKnowledgeItems.
  erewrite bind_ok; [|unfold KB.ensureInitialized; rewrite Hinit; reflexivity].
  reflexivity.
Qed.

(** An extraction yields no item or one item, whose id is built from the
    clock reading and the random digits alone, and never a relationship. *)
Lemma extract_shape env p :
  KB.relationships_found (KB.extract env p) = []
  /\ (KB.extractedItems (KB.extract env p) = []
      \/ exists it,
           KB.extractedItems (KB.extract env p) = [it]
           /\ KB.id it = KB.generateKnowledgeId (KB.idNow (KB.itemEnv env))
                                                (KB.idRnd (KB.itemEnv env))
           /\ KB.patternId it = PS.id p).
Proof.
  unfold KB.extract.
  set (items :=
         if String.eqb (PS.type p) "behavioral"
         then KB.extractBehavioralKnowledge (KB.itemEnv env) p
         else if String.eqb (PS.type p) "temporal"
         then KB.extractTemporalKnowledge (KB.itemEnv env) p
         else if String.eqb (PS.type p) "sequential"
         then KB.extractSequentialKnowledge (KB.itemEnv env) p
         else if String.eqb (PS.type p) "categorical"
         then KB.extractCategoricalKnowledge (KB.itemEnv env) p
         else [KB.extractGenericKnowledge (KB.itemEnv env) p]).
  assert (H : items = []
              \/ exists it, items = [it]
                 /\ KB.id it = KB.generateKnowledgeId (KB.idNow (KB.itemEnv env))
                                                      (KB.idRnd (KB.itemEnv env))
                 /\ KB.patternId it = PS.id p).
  { unfold items, KB.extractBehavioralKnowledge, KB.extractTemporalKnowledge,
      KB.extractSequentialKnowledge, KB.extractCategoricalKnowledge,
      KB.extractGenericKnowledge.
    repeat match goal with
           | |- context [if ?b then _ else _] => destruct b
           | |- context [match Js.prop ?k ?d with _ => _ end] => destruct (Js.prop k d)
           end;
      (now left) || (right; eexists; split; [reflexivity | split; reflexivity]). }
  cbn [KB.extractedItems KB.relationships_found].
  split; [|exact H].
  destruct H as [-> | (it & -> & _)]; reflexivity.
Qed.

Local Open Scope list_scope.
(** ** LearningModel: labels, label rows and feature vectors *)

Lemma createFeatures_length pattern size :
  0 <= size -> List.length (LM.createFeaturesFromPattern pattern size) = Z.to_nat size.
Proof.
  intros Hsize. unfold LM.createFeaturesFromPattern.
  set (flat := flat_map _ pattern).
  destruct (Z.geb_spec (Z.of_nat (List.length flat)) size) as [Hge|Hlt].
  - unfold LM.slice0. destruct (Z.ltb_spec size 0); [lia|].
    rewrite length_firstn. lia.
  - rewrite length_app, repeat_length. lia.
Qed.

Lemma featuresOf_length p : List.length (LM.features (MS.featuresOf p)) = 100%nat.
Proof.
  unfold MS.featuresOf. cbn [LM.features].
  rewrite createFeatures_length by lia. reflexivity.
Qed.

Lemma unique_NoDup_acc l :
  forall acc,
    NoDup acc ->
    NoDup (fold_left (fun acc x => if existsb (String.eqb x) acc then acc else acc ++ [x]) l acc).
Proof.
  induction l as [|x l IH]; intros acc Hacc; cbn [fold_left]; auto.
  apply IH. destruct (existsb (String.eqb x) acc) eqn:E; auto.
  apply NoDup_app; auto.
  - constructor; [intros []|constructor].
  - intros y Hy [<-|[]].
    assert (Hex : existsb (String.eqb x) acc = true).
    { apply existsb_exists. exists x. split; auto. apply String.eqb_refl. }
    congruence.
Qed.

Lemma unique_NoDup l : NoDup (LM.unique l).
Proof. apply unique_NoDup_acc. constructor. Qed.

Lemma fold_set_get_notin {V} (l : list (string * V)) :
  forall acc k,
    ~ In k (map fst l) ->
    JsMap.get k (fold_left (fun acc li => JsMap.set (fst li) (snd li) acc) l acc)
    = JsMap.get k acc.
Proof.
  induction l as [|[k' v'] l IH]; intros acc k Hk; cbn [fold_left fst snd]; auto.
  rewrite IH by (intros H; apply Hk; now right).
  apply get_set_ne. intros ->. apply Hk. now left.
Qed.

Lemma fold_set_get {V} (l : list (string * V)) :
  forall acc k v,
    NoDup (map fst l) -> In (k, v) l ->
    JsMap.get k (fold_left (fun acc li => JsMap.set (fst li) (snd li) acc) l acc) = Some v.
Proof.
  induction l as [|[k' v'] l IH]; intros acc k v Hnd Hin; [destruct Hin|].
  cbn [map fst] in Hnd. inversion Hnd as [|? ? Hn Hd]; subst.
  cbn [fold_left fst snd]. destruct Hin as [E|Hin].
  - injection E as -> ->. rewrite fold_set_get_notin by exact Hn. apply get_set_eq.
  - now apply IH.
Qed.

Lemma map_fst_combine_seq (labels : list string) :
  forall k, map fst (combine labels (map Z.of_nat (seq k (List.length labels)))) = labels.
Proof.
  induction labels as [|a labels IH]; intros k; cbn [List.length seq map combine fst]; auto.
  now rewrite IH.
Qed.

Lemma In_combine_seq (labels : list string) :
  forall k i l,
    nth_error labels i = Some l ->
    In (l, Z.of_nat (k + i)) (combine labels (map Z.of_nat (seq k (List.length labels)))).
Proof.
  induction labels as [|a labels IH]; intros k i l H; [destruct i; discriminate|].
  cbn [List.length seq map combine]. destruct i as [|i]; cbn [nth_error] in H.
  - injection H as ->. left. now rewrite Nat.add_0_r.
  - right. replace (k + S i)%nat with (S k + i)%nat by lia. now apply IH.
Qed.

Lemma indexMap_get labels i l :
  NoDup labels ->
  nth_error labels i = Some l ->
  JsMap.get l (LM.indexMap labels) = Some (Z.of_nat i).
Proof.
  intros Hnd H. unfold LM.indexMap. apply fold_set_get.
  - now rewrite map_fst_combine_seq.
  - exact (In_combine_seq labels 0 i l H).
Qed.

Lemma indexMap_get_None labels l :
  ~ In l labels -> JsMap.get l (LM.indexMap labels) = None.
Proof.
  intros H. unfold LM.indexMap. rewrite fold_set_get_notin; [reflexivity|].
  now rewrite map_fst_combine_seq.
Qed.

Lemma nth_error_repeat {A} (x : A) n j : (j < n)%nat -> nth_error (repeat x n) j = Some x.
Proof.
  revert j. induction n as [|n IH]; intros j H; [lia|].
  destruct j; cbn; auto. apply IH. lia.
Qed.

Lemma oneHot_isOneHot n i : (i < n)%nat -> isOneHot n i (LM.oneHot n (Z.of_nat i)).
Proof.
  intros Hi. unfold LM.oneHot. rewrite Nat2Z.id.
  destruct (Nat.ltb_spec i n) as [_|]; [|lia].
  split.
  - rewrite !length_app, length_firstn, length_skipn, repeat_length. cbn [List.length]. lia.
  - intros j Hj.
    assert (Hlen : List.length (firstn i (repeat 0 n)) = i)
      by (rewrite length_firstn, repeat_length; lia).
    destruct (Nat.eqb_spec j i) as [->|Hne].
    + rewrite nth_error_app2 by lia. rewrite Hlen, Nat.sub_diag. reflexivity.
    + destruct (Nat.lt_ge_cases j i) as [Hlt|Hge].
      * rewrite nth_error_app1 by lia. rewrite nth_error_firstn.
        destruct (Nat.ltb_spec j i); [|lia]. apply nth_error_repeat. lia.
      * rewrite nth_error_app2 by lia. rewrite Hlen.
        destruct (j - i)%nat as [|d] eqn:D; [lia|]. cbn [app nth_error].
        rewrite nth_error_skipn. apply nth_error_repeat. lia.
Qed.

(** ** LearningModel: building the network *)

Lemma for_each_addLayer ls :
  forall s m,
    LM.model s = Some m ->
    forallb LM.layerAccepted ls = true ->
    for_each ls LM.addLayer s
    = Ok tt (LM.set_model (Some {| LM.layers := LM.layers m ++ ls;
                                   LM.optimizer := LM.optimizer m;
                                   LM.fits := LM.fits m |}) s).
Proof.
  induction ls as [|l ls IH]; intros s m Hm Hall.
  - cbn [for_each]. unfold ret. rewrite app_nil_r.
    destruct s, m; cbn in *; subst; reflexivity.
  - cbn [for_each forallb] in *. apply andb_true_iff in Hall. destruct Hall as [Hl Hr].
    unfold bind. unfold LM.addLayer at 1. rewrite Hl, Hm.
    rewrite (IH (LM.set_model (Some {| LM.layers := LM.layers m ++ [l];
                                       LM.optimizer := LM.optimizer m;
                                       LM.fits := LM.fits m |}) s) _ eq_refl Hr).
    cbn. rewrite <- app_assoc. reflexivity.
Qed.

Lemma for_each_addLayer_rejected ls :
  forall s m,
    LM.model s = Some m ->
    forallb LM.layerAccepted ls = false ->
    exists done l rest,
      ls = done ++ l :: rest
      /\ forallb LM.layerAccepted done = true
      /\ LM.layerAccepted l = false
      /\ for_each ls LM.addLayer s
         = Throw LayerFailure
                 (LM.set_model (Some {| LM.layers := LM.layers m ++ done;
                                        LM.optimizer := LM.optimizer m;
                                        LM.fits := LM.fits m |}) s).
Proof.
  induction ls as [|l ls IH]; intros s m Hm Hall; [discriminate|].
  cbn [forallb] in Hall. destruct (LM.layerAccepted l) eqn:Hl.
  - cbn [andb] in Hall.
    destruct (IH (LM.set_model (Some {| LM.layers := LM.layers m ++ [l];
                                        LM.optimizer := LM.optimizer m;
                                        LM.fits := LM.fits m |}) s) _ eq_refl Hall)
      as (done & l' & rest & -> & Hd & Hl' & E).
    exists (l :: done), l', rest. split; [reflexivity|].
    split; [cbn [forallb]; now rewrite Hl, Hd|]. split; [exact Hl'|].
    cbn [for_each]. unfold bind. unfold LM.addLayer at 1. rewrite Hl, Hm, E.
    cbn. rewrite <- app_assoc. reflexivity.
  - exists [], l, ls. split; [reflexivity|]. split; [reflexivity|]. split; [exact Hl|].
    cbn [for_each]. unfold bind, LM.addLayer. rewrite Hl, app_nil_r.
    destruct s, m; cbn in *; subst; reflexivity.
Qed.

Lemma buildModel_ok s :
  forallb LM.layerAccepted (LM.plannedLayers s) = true ->
  LM.buildModel s = Ok tt (LM.set_model (Some (builtModel s)) s).
Proof.
  intros H. unfold LM.buildModel, bind, modify, get_state. cbv beta iota.
  change (LM.plannedLayers (LM.set_model (Some LM.sequential) s)) with (LM.plannedLayers s).
  rewrite (for_each_addLayer (LM.plannedLayers s) (LM.set_model (Some LM.sequential) s)
             LM.sequential eq_refl H).
  reflexivity.
Qed.

Lemma buildModel_rejected s :
  forallb LM.layerAccepted (LM.plannedLayers s) = false ->
  exists done l rest,
    LM.plannedLayers s = done ++ l :: rest
    /\ forallb LM.layerAccepted done = true
    /\ LM.layerAccepted l = false
    /\ LM.buildModel s
       = Throw LayerFailure
               (LM.set_model (Some {| LM.layers := done; LM.optimizer := None;
                                      LM.fits := [] |}) s).
Proof.
  intros H.
  destruct (for_each_addLayer_rejected (LM.plannedLayers s)
              (LM.set_model (Some LM.sequential) s) LM.sequential eq_refl H)
    as (done & l & rest & E & Hd & Hl & F).
  exists done, l, rest. split; [exact E|]. split; [exact Hd|]. split; [exact Hl|].
  unfold LM.buildModel, bind, modify, get_state. cbv beta iota.
  change (LM.plannedLayers (LM.set_model (Some LM.sequential) s)) with (LM.plannedLayers s).
  rewrite F. reflexivity.
Qed.

Lemma hidden_accepted rate (us : list Z) :
  forallb LM.layerAccepted
          (flat_map (fun u => [LM.Dense None (Some u) "relu"; LM.Dropout rate]) us)
  = forallb (Z.ltb 0) us.
Proof.
  induction us as [|u us IH]; [reflexivity|].
  cbn [flat_map app forallb LM.layerAccepted]. rewrite IH.
  destruct (0 <? u); reflexivity.
Qed.

Lemma plannedLayers_accepted s :
  forallb LM.layerAccepted (LM.plannedLayers s)
  = buildable (LM.config s) && (0 <=? LM.inputSize (LM.config s))
    && negb (match LM.labelMap s with [] => true | _ :: _ => false end).
Proof.
  unfold LM.plannedLayers, buildable.
  cbn [forallb]. rewrite forallb_app, hidden_accepted.
  destruct (LM.hiddenLayers (LM.config s)) as [|h t]; [reflexivity|].
  cbn [hd_error tl forallb LM.layerAccepted].
  assert (Hout : (0 <? Z.of_nat (List.length (LM.labelMap s)))
                 = negb (match LM.labelMap s with [] => true | _ :: _ => false end)).
  { destruct (LM.labelMap s); [reflexivity|]. cbn [List.length negb]. apply Z.ltb_lt. lia. }
  rewrite Hout.
  destruct (0 <? h), (0 <=? LM.inputSize (LM.config s)), (forallb (Z.ltb 0) t),
    (LM.labelMap s); reflexivity.
Qed.

Lemma unique_In_acc x l :
  forall acc,
    In x (fold_left (fun a y => if existsb (String.eqb y) a then a else a ++ [y]) l acc)
    <-> In x acc \/ In x l.
Proof.
  induction l as [|y l IH]; intros acc; cbn [fold_left In]; [tauto|].
  rewrite IH. destruct (existsb (String.eqb y) acc) eqn:E.
  - apply existsb_exists in E. destruct E as (z & Hz & Ez).
    apply String.eqb_eq in Ez. subst z. intuition (subst; auto).
  - rewrite in_app_iff. cbn [In]. intuition (subst; auto).
Qed.

Lemma unique_In x l : In x (LM.unique l) <-> In x l.
Proof. unfold LM.unique. rewrite unique_In_acc. cbn [In]. tauto. Qed.

Lemma unique_nonempty x l : LM.unique (x :: l) <> [].
Proof.
  intros E. assert (H : In x (LM.unique (x :: l))) by (apply unique_In; now left).
  rewrite E in H. destruct H.
Qed.

Lemma initialize_front feats s :
  LM.isInitialized s = false ->
  LM.initialize feats s
  = bind LM.buildModel (fun _ => modify (LM.set_isInitialized true)) (labelled feats s).
Proof.
  intros Hinit. unfold LM.initialize, labelled.
  unfold bind at 1, get_state. rewrite Hinit.
  destruct feats as [|f0 rest]; reflexivity.
Qed.

Lemma labelled_accepted f0 rest s :
  buildable (LM.config s) = true ->
  forallb LM.layerAccepted (LM.plannedLayers (labelled (f0 :: rest) s)) = true.
Proof.
  intros Hb. rewrite plannedLayers_accepted.
  cbn [labelled LM.config LM.set_labels LM.set_config LM.labelMap LM.inputSize
       LM.set_inputSize].
  assert (Hb' : buildable (LM.set_inputSize (Z.of_nat (List.length (LM.features f0)))
                                            (LM.config s)) = true) by exact Hb.
  rewrite Hb'.
  destruct (Z.leb_spec 0 (Z.of_nat (List.length (LM.features f0)))); [|lia].
  pose proof (unique_nonempty (LM.label f0) (map LM.label rest)) as Hne.
  cbn [map]. destruct (LM.unique (LM.label f0 :: map LM.label rest)); [congruence|reflexivity].
Qed.

Lemma initialize_ok feats s :
  LM.isInitialized s = false ->
  buildable (LM.config s) = true ->
  feats <> [] ->
  LM.initialize feats s
  = Ok tt (LM.set_isInitialized true
             (LM.set_model (Some (builtModel (labelled feats s))) (labelled feats s))).
Proof.
  intros Hinit Hb Hne. destruct feats as [|f0 rest]; [congruence|].
  rewrite initialize_front by exact Hinit.
  erewrite bind_ok; [|apply buildModel_ok, labelled_accepted, Hb].
  reflexivity.
Qed.

Lemma initialize_rejected feats s :
  LM.isInitialized s = false ->
  forallb LM.layerAccepted (LM.plannedLayers (labelled feats s)) = false ->
  exists done,
    LM.initialize feats s
    = Throw LayerFailure
            (LM.set_model (Some {| LM.layers := done; LM.optimizer := None;
                                   LM.fits := [] |}) (labelled feats s)).
Proof.
  intros Hinit Hrej. rewrite initialize_front by exact Hinit.
  destruct (buildModel_rejected _ Hrej) as (done & l & rest & _ & _ & _ & E).
  exists done. erewrite bind_throw; [reflexivity | exact E].
Qed.

Lemma last_plannedLayers s :
  last (LM.plannedLayers s) (LM.Dropout 0)
  = LM.Dense None (Some (Z.of_nat (List.length (LM.labelMap s)))) "softmax".
Proof. unfold LM.plannedLayers. cbv zeta. rewrite app_comm_cons. apply last_last. Qed.

(** ** LearningModel: the tensors and the checks of [fit] *)




Lemma trainingTensors_eq ps lm :
  LM.trainingTensors ps lm
  = if tensorsPass ps lm then Ok (LM.prepareTrainingData ps lm) lm
    else Throw TensorFailure lm.
Proof.
  unfold LM.trainingTensors, tensorsPass, LM.tensor2d, bind, get_state, ret, throw.
  cbv zeta.
  destruct (LM.tensorAccepted (fst (LM.prepareTrainingData ps lm))); [|reflexivity].
  destruct (LM.tensorAccepted (snd (LM.prepareTrainingData ps lm))); reflexivity.
Qed.

Lemma ensureInitialized_ok lm m :
  LM.isInitialized lm = true -> LM.model lm = Some m -> LM.ensureInitialized lm = Ok tt lm.
Proof. intros Hi Hm. unfold LM.ensureInitialized. now rewrite Hi, Hm. Qed.

(** ** LearningModel: incremental update *)



(** ** LearningModel: training *)

Lemma train_eq o now ps lm m :
  LM.isInitialized lm = true -> LM.model lm = Some m ->
  LM.train o now ps lm
  = if tensorsPass ps lm then
      if fitPasses ps lm then
        match o with
        | LM.FitThrows logs =>
            Throw FitFailure (LM.set_trainingHistory (LM.progressLog logs) lm)
        | LM.FitReturns logs lastLoss lastAcc =>
            let lm' := LM.recordFit ps (LM.epochs (LM.config lm))
                         (LM.set_trainingHistory (LM.progressLog logs) lm) in
            if LM.epochs (LM.config lm) <=? 0 then Throw HistoryFailure lm'
            else Ok {| LM.metrics_accuracy := LM.nullish lastAcc 0%Q;
                       LM.metrics_loss := lastLoss;
                       LM.metrics_timestamp := now |} lm'
        end
      else Throw FitFailure (LM.set_trainingHistory [] lm)
    else Throw TensorFailure lm.
Proof.
  intros Hi Hm. unfold LM.train.
  erewrite bind_ok; [|eapply ensureInitialized_ok; eauto].
  unfold bind at 1, get_state. rewrite Hm.
  unfold bind at 1. rewrite trainingTensors_eq.
  destruct (tensorsPass ps lm); [|reflexivity].
  unfold fitPasses. rewrite Hm.
  unfold bind at 1, modify.
  destruct (LM.fitAccepts m _ _); [|reflexivity].
  destruct o as [logs lastLoss lastAcc|logs]; [|reflexivity].
  unfold bind, modify. cbv zeta.
  destruct (LM.epochs (LM.config lm) <=? 0); reflexivity.
Qed.

(** ** LearningModel: dispose, initialize and train again *)


Lemma labelled_rejected feats s :
  buildable (LM.config s) = false \/ feats = [] ->
  forallb LM.layerAccepted (LM.plannedLayers (labelled feats s)) = false.
Proof.
  intros H. rewrite plannedLayers_accepted. destruct H as [Hb| ->].
  - assert (Hb' : buildable (LM.config (labelled feats s)) = false)
      by (destruct feats; exact Hb).
    rewrite Hb'. reflexivity.
  - cbn. rewrite !andb_false_r. reflexivity.
Qed.





(** ** MemoryStorageSystem.addPattern *)

Lemma onPatternStorage_ok {A} (c : M PS.state A) s a ps' :
  c (MS.patternStorage s) = Ok a ps' ->
  MS.onPatternStorage c s
  = Ok a {| MS.patternStorage := ps'; MS.learningModel := MS.learningModel s;
            MS.knowledgeBase := MS.knowledgeBase s |}.
Proof. intros H. unfold MS.onPatternStorage. now rewrite H. Qed.

Lemma onKnowledgeBase_ok {A} (c : M KB.state A) s a kb' :
  c (MS.knowledgeBase s) = Ok a kb' ->
  MS.onKnowledgeBase c s
  = Ok a {| MS.patternStorage := MS.patternStorage s;
            MS.learningModel := MS.learningModel s; MS.knowledgeBase := kb' |}.
Proof. intros H. unfold MS.onKnowledgeBase. now rewrite H. Qed.

Lemma onLearningModel_ok {A} (c : M LM.state A) s a lm' :
  c (MS.learningModel s) = Ok a lm' ->
  MS.onLearningModel c s
  = Ok a {| MS.patternStorage := MS.patternStorage s; MS.learningModel := lm';
            MS.knowledgeBase := MS.knowledgeBase s |}.
Proof. intros H. unfold MS.onLearningModel. now rewrite H. Qed.


Lemma knowledgeAfter_ok env saved kb :
  KB.initialized kb = true ->
  KB.addKnowledgeItems (KB.extractedItems (KB.extract (MS.extractEnv env) saved)) kb
  = Ok tt (knowledgeAfter env saved kb)
  /\ KB.initialized (knowledgeAfter env saved kb) = true
  /\ KB.config (knowledgeAfter env saved kb) = KB.config kb.
Proof.
  intros Hinit. unfold knowledgeAfter.
  destruct (extract_shape (MS.extractEnv env) saved) as [_ [E | (it & E & _)]]; rewrite E.
  - rewrite addKnowledgeItems_nil by auto. auto.
  - destruct (addKnowledgeItems_single it kb Hinit) as (kb' & E' & I & C & _).
    rewrite E'. auto.
Qed.

Lemma addPattern_front env c s :
  PS.initialized (MS.patternStorage s) = true ->
  KB.initialized (MS.knowledgeBase s) = true ->
  let saved := savedPattern (MS.saveNow env) c (MS.patternStorage s) in
  MS.addPattern env c s
  = learningStep env saved
      {| MS.patternStorage :=
           state_of (PS.savePattern (MS.saveNow env) (MS.versionNow env) c
                                    (MS.patternStorage s));
         MS.learningModel := MS.learningModel s;
         MS.knowledgeBase := knowledgeAfter env saved (MS.knowledgeBase s) |}.
Proof.
  intros Hps Hkb saved. unfold MS.addPattern.
  erewrite bind_ok;
    [|apply onPatternStorage_ok; rewrite savePattern_ok by auto; reflexivity].
  fold saved.
  erewrite bind_ok; [|apply onKnowledgeBase_ok; reflexivity].
  destruct (knowledgeAfter_ok env saved (MS.knowledgeBase s) Hkb) as (E & _).
  erewrite bind_ok; [|apply onKnowledgeBase_ok; exact E].
  destruct (extract_shape (MS.extractEnv env) saved) as [R _]. rewrite R.
  cbn [for_each]. erewrite bind_ok; [|reflexivity].
  rewrite savePattern_ok by auto. reflexivity.
Qed.

Lemma matchesQuery_empty now p : PS.matchesQuery now PS.emptyQuery p = true.
Proof. reflexivity. Qed.

Lemma queryPatterns_all now ps :
  PS.initialized ps = true ->
  PS.queryPatterns now PS.emptyQuery ps = Ok (JsMap.values (PS.patterns ps)) ps.
Proof.
  intros Hinit. unfold PS.queryPatterns, PS.ensureInitialized. run_monad.
  rewrite Hinit. f_equal.
  induction (JsMap.values (PS.patterns ps)) as [|p l IH]; simpl; auto.
  now rewrite IH.
Qed.

Lemma onLearningModel_bind {A B} (c : M LM.state A) (k : A -> M LM.state B) s :
  bind (MS.onLearningModel c) (fun a => MS.onLearningModel (k a)) s
  = MS.onLearningModel (bind c k) s.
Proof.
  unfold bind, MS.onLearningModel. destruct (c (MS.learningModel s)); reflexivity.
Qed.









(** ** C2: incremental update or full rebuild *)




(** ** C10: repeated extraction *)

Section SortFacts.

Context {A : Type} (key : A -> Z).

Let le (a b : A) : bool := key a <=? key b.

Lemma insertBy_In x y l : In y (KB.insertBy le x l) <-> y = x \/ In y l.
Proof.
  induction l as [|z l IH]; cbn [KB.insertBy In]; [intuition|].
  destruct (le x z); cbn [In]; [intuition|]. rewrite IH. intuition.
Qed.

Lemma sortBy_In y l : In y (KB.sortBy le l) <-> In y l.
Proof.
  unfold KB.sortBy. induction l as [|x l IH]; cbn [fold_right In]; [tauto|].
  rewrite insertBy_In, IH. intuition.
Qed.

Lemma insertBy_length x l : List.length (KB.insertBy le x l) = S (List.length l).
Proof.
  induction l as [|z l IH]; cbn [KB.insertBy List.length]; auto.
  destruct (le x z); cbn [List.length]; auto.
Qed.

Lemma sortBy_length l : List.length (KB.sortBy le l) = List.length l.
Proof.
  unfold KB.sortBy. induction l as [|x l IH]; cbn [fold_right List.length]; auto.
  now rewrite insertBy_length, IH.
Qed.

Lemma sortBy_head_min l h t :
  KB.sortBy le l = h :: t -> forall y, In y l -> key h <= key y.
Proof.
  unfold KB.sortBy. revert h t.
  induction l as [|x l IH]; intros h t E y Hy; cbn [fold_right] in E; [destruct Hy|].
  destruct (fold_right (KB.insertBy le) [] l) as [|h' t'] eqn:S.
  - pose proof (sortBy_length l) as Hl. unfold KB.sortBy in Hl. rewrite S in Hl.
    destruct l; [|discriminate]. cbn in E. inversion E; subst.
    destruct Hy as [<-|[]]. lia.
  - cbn [KB.insertBy] in E. unfold le in E at 1.
    destruct (Z.leb_spec (key x) (key h')) as [Hle|Hgt]; inversion E; subst; clear E.
    + destruct Hy as [<-|Hy]; [lia|]. pose proof (IH _ _ eq_refl y Hy). lia.
    + destruct Hy as [<-|Hy]; [lia|]. exact (IH _ _ eq_refl y Hy).
Qed.

End SortFacts.

Lemma values_frame_queryPatterns now q s :
  state_of (PS.queryPatterns now q s) = s.
Proof.
  unfold PS.queryPatterns, PS.ensureInitialized. run_monad.
  destruct (PS.initialized s); reflexivity.
Qed.

Lemma keepsStores_ret {A} (a : A) : keepsStores (ret a).
Proof. intros s. split; reflexivity. Qed.

Lemma keepsStores_bind {A B} (c : M MS.state A) (k : A -> M MS.state B) :
  keepsStores c -> (forall a, keepsStores (k a)) -> keepsStores (bind c k).
Proof.
  intros Hc Hk s. unfold bind. specialize (Hc s).
  destruct (c s) as [a s'|e s']; cbn [state_of] in *.
  - destruct (Hk a s') as [H1 H2]. rewrite H1, H2. exact Hc.
  - exact Hc.
Qed.

Lemma keepsStores_try {A} (c : M MS.state A) (h : error -> M MS.state A) :
  keepsStores c -> (forall e, keepsStores (h e)) -> keepsStores (try_catch c h).
Proof.
  intros Hc Hh s. unfold try_catch. specialize (Hc s).
  destruct (c s) as [a s'|e s']; cbn [state_of] in *.
  - exact Hc.
  - destruct (Hh e s') as [H1 H2]. rewrite H1, H2. exact Hc.
Qed.

Lemma keepsStores_onLearningModel {A} (c : M LM.state A) :
  keepsStores (MS.onLearningModel c).
Proof.
  intros s. unfold MS.onLearningModel.
  destruct (c (MS.learningModel s)); split; reflexivity.
Qed.

Lemma keepsStores_query now q :
  keepsStores (MS.onPatternStorage (PS.queryPatterns now q)).
Proof.
  intros s. unfold MS.onPatternStorage.
  pose proof (values_frame_queryPatterns now q (MS.patternStorage s)) as H.
  destruct (PS.queryPatterns now q (MS.patternStorage s)); cbn [state_of] in *;
    subst; split; reflexivity.
Qed.

Lemma keepsStores_learningStep env saved : keepsStores (learningStep env saved).
Proof.
  unfold learningStep. apply keepsStores_try.
  - apply keepsStores_bind; [apply keepsStores_onLearningModel|].
    intros; apply keepsStores_ret.
  - intros e. unfold MS.fullRetrain.
    apply keepsStores_bind; [apply keepsStores_query|]. intros all.
    repeat (apply keepsStores_bind; [apply keepsStores_onLearningModel|]; intros).
    apply keepsStores_ret.
Qed.

Lemma addPattern_stores env c s :
  PS.initialized (MS.patternStorage s) = true ->
  KB.initialized (MS.knowledgeBase s) = true ->
  let saved := savedPattern (MS.saveNow env) c (MS.patternStorage s) in
  MS.patternStorage (state_of (MS.addPattern env c s))
  = state_of (PS.savePattern (MS.saveNow env) (MS.versionNow env) c (MS.patternStorage s))
  /\ MS.knowledgeBase (state_of (MS.addPattern env c s))
     = knowledgeAfter env saved (MS.knowledgeBase s).
Proof.
  intros Hps Hkb saved. rewrite (addPattern_front env c s Hps Hkb).
  apply (keepsStores_learningStep env _).
Qed.

Lemma prunedItems_below s :
  JsMap.size (KB.items s) < KB.maxItems (KB.config s) -> prunedItems s = KB.items s.
Proof.
  intros H. unfold prunedItems.
  destruct (Z.geb_spec (JsMap.size (KB.items s)) (KB.maxItems (KB.config s))); [lia|reflexivity].
Qed.

Lemma prunedItems_full s :
  JsMap.wf (KB.items s) ->
  JsMap.size (KB.items s) >= KB.maxItems (KB.config s) ->
  0 < JsMap.size (KB.items s) ->
  exists victim,
    In victim (KB.items s)
    /\ (forall other, In other (KB.items s) ->
                      KB.createdAt (snd victim) <= KB.createdAt (snd other))
    /\ prunedItems s = JsMap.delete (fst victim) (KB.items s)
    /\ JsMap.size (prunedItems s) = JsMap.size (KB.items s) - 1.
Proof.
  intros Hwf Hfull Hpos. unfold prunedItems.
  destruct (Z.geb_spec (JsMap.size (KB.items s)) (KB.maxItems (KB.config s))); [|lia].
  unfold victims, itemsByAge.
  pose proof (sortBy_length (fun kv : string * KB.KnowledgeItem => KB.createdAt (snd kv))
                            (KB.items s)) as Hlen.
  destruct (KB.sortBy _ (KB.items s)) as [|h t] eqn:S.
  - unfold JsMap.size in Hpos. rewrite <- Hlen in Hpos. cbn in Hpos. lia.
  - assert (Hn : Z.to_nat (Z.min 1 (Z.of_nat (List.length (h :: t)))) = 1%nat)
      by (cbn [List.length]; lia).
    rewrite Hn. cbn [firstn fold_left].
    assert (Hin : In h (KB.items s)).
    { apply (sortBy_In (fun kv : string * KB.KnowledgeItem => KB.createdAt (snd kv))).
      rewrite S. now left. }
    exists h. split; [exact Hin|]. split.
    + intros other Ho.
      exact (sortBy_head_min (fun kv : string * KB.KnowledgeItem => KB.createdAt (snd kv))
               _ _ _ S other Ho).
    + split; [reflexivity|].
      destruct h as [k it]. cbn [fst].
      pose proof (length_delete (KB.items s) k Hwf) as Hd.
      unfold JsMap.has in Hd. rewrite (In_get_wf _ _ _ Hwf Hin) in Hd.
      specialize (Hd eq_refl). unfold JsMap.size. lia.
Qed.

Lemma prunedItems_wf s : JsMap.wf (KB.items s) -> JsMap.wf (prunedItems s).
Proof.
  intros Hwf. unfold prunedItems.
  destruct (JsMap.size (KB.items s) >=? KB.maxItems (KB.config s)); auto.
  generalize (victims 1 s). intros l. revert Hwf. generalize (KB.items s).
  induction l as [|kv l IH]; intros m Hm; cbn [fold_left]; auto.
  apply IH. now apply wf_delete.
Qed.

Lemma prunedItems_absent s k :
  JsMap.get k (KB.items s) = None -> JsMap.get k (prunedItems s) = None.
Proof.
  unfold prunedItems.
  destruct (JsMap.size (KB.items s) >=? KB.maxItems (KB.config s)); auto.
  generalize (victims 1 s). intros l. generalize (KB.items s).
  induction l as [|kv l IH]; intros m Hm; cbn [fold_left]; auto.
  apply IH. destruct (string_dec (fst kv) k) as [->|Hne].
  - apply get_delete_eq.
  - now rewrite get_delete_ne.
Qed.

Lemma knowledgeAfter_items env saved kb :
  KB.initialized kb = true ->
  KB.items (knowledgeAfter env saved kb)
  = match KB.extractedItems (KB.extract (MS.extractEnv env) saved) with
    | [] => KB.items kb
    | it :: _ => JsMap.set (KB.id it) it (prunedItems kb)
    end.
Proof.
  intros Hinit. unfold knowledgeAfter.
  destruct (extract_shape (MS.extractEnv env) saved) as [_ [E | (it & E & _)]]; rewrite E.
  - now rewrite addKnowledgeItems_nil.
  - destruct (addKnowledgeItems_single it kb Hinit) as (kb' & E' & _ & _ & T).
    rewrite E'. exact T.
Qed.

Lemma knowledgeAfter_wf env saved kb :
  KB.initialized kb = true ->
  JsMap.wf (KB.items kb) -> JsMap.wf (KB.items (knowledgeAfter env saved kb)).
Proof.
  intros Hinit Hwf. rewrite knowledgeAfter_items by auto.
  destruct (KB.extractedItems _); auto.
  apply wf_set. now apply prunedItems_wf.
Qed.

(** *** Equal ids of extracted items come from equal readings *)

Lemma uint_hyphenFree d : hyphenFree (DecimalString.NilEmpty.string_of_uint d) = true.
Proof. induction d; cbn [DecimalString.NilEmpty.string_of_uint hyphenFree]; auto. Qed.

Lemma uint_digits d :
  hyphenFree (DecimalString.NilZero.string_of_uint d) = true /\ DecimalString.NilZero.string_of_uint d <> EmptyString.
Proof.
  destruct d; (split; [|discriminate]);
    try reflexivity; exact (uint_hyphenFree _).
Qed.

Lemma hyphen_split a :
  forall b r1 r2,
    hyphenFree a = true -> hyphenFree b = true ->
    (a ++ "-" ++ r1 = b ++ "-" ++ r2)%string -> a = b /\ r1 = r2.
Proof.
  induction a as [|c a IH]; intros [|c' b] r1 r2 Ha Hb H; cbn [append hyphenFree] in *.
  - injection H as ->. auto.
  - injection H as <- _. discriminate Hb.
  - injection H as -> _. discriminate Ha.
  - injection H as -> H. apply andb_true_iff in Ha, Hb.
    destruct (IH b r1 r2 (proj2 Ha) (proj2 Hb) H) as [-> ->]. auto.
Qed.

Lemma string_of_int_inj d d' :
  d <> Decimal.Pos Decimal.Nil -> d <> Decimal.Neg Decimal.Nil ->
  d' <> Decimal.Pos Decimal.Nil -> d' <> Decimal.Neg Decimal.Nil ->
  DecimalString.NilZero.string_of_int d = DecimalString.NilZero.string_of_int d' -> d = d'.
Proof.
  intros H1 H2 H1' H2' E.
  pose proof (DecimalString.NilZero.isi d H1 H2) as I. rewrite E, (DecimalString.NilZero.isi d' H1' H2') in I.
  congruence.
Qed.

Lemma to_int_nonnil n :
  Z.to_int n <> Decimal.Pos Decimal.Nil /\ Z.to_int n <> Decimal.Neg Decimal.Nil.
Proof.
  destruct n as [|p|p]; cbn [Z.to_int]; (split; [|try discriminate]); try discriminate;
    intros E; injection E as E; exact (DecimalPos.Unsigned.to_uint_nonnil p E).
Qed.

Lemma decimal_inj n n' : Js.decimal n = Js.decimal n' -> n = n'.
Proof.
  unfold Js.decimal. intros E. apply DecimalZ.to_int_inj.
  destruct (to_int_nonnil n), (to_int_nonnil n'). now apply string_of_int_inj.
Qed.

Lemma decimal_split n n' r r' :
  (Js.decimal n ++ "-" ++ r = Js.decimal n' ++ "-" ++ r')%string ->
  Js.decimal n = Js.decimal n' /\ r = r'.
Proof.
  unfold Js.decimal.
  destruct (Z.to_int n) as [d|d], (Z.to_int n') as [d'|d'];
    cbn [DecimalString.NilZero.string_of_int append]; intros E;
    destruct (uint_digits d) as [Hd Hne], (uint_digits d') as [Hd' Hne'].
  - now apply hyphen_split.
  - destruct (DecimalString.NilZero.string_of_uint d) as [|c rest]; [congruence|].
    cbn [append hyphenFree] in *. injection E as -> _. discriminate Hd.
  - destruct (DecimalString.NilZero.string_of_uint d') as [|c rest]; [congruence|].
    cbn [append hyphenFree] in *. injection E as <- _. discriminate Hd'.
  - injection E as E. destruct (hyphen_split _ _ _ _ Hd Hd' E) as [-> ->]. auto.
Qed.

Lemma generateKnowledgeId_inj now rnd now' rnd' :
  KB.generateKnowledgeId now rnd = KB.generateKnowledgeId now' rnd' ->
  now = now' /\ rnd = rnd'.
Proof.
  unfold KB.generateKnowledgeId. cbn [append]. intros E.
  repeat (injection E as E).
  destruct (decimal_split _ _ _ _ E) as [D R].
  split; [now apply decimal_inj | exact R].
Qed.

(** C10, as stated, fails: the id of an extracted item is made of the
    clock reading and of the digits drawn from [Math.random], and
    nothing keeps two calls from reading the same values.  Here
    [addPattern] runs twice with the same candidate, the same clock
    reading and the same digits; both calls return, each extraction
    yields an item, and the graph holds one item after the first call
    and still one after the second, under the one id. *)
Lemma C10_counterexample :
  let env := exampleEnv 1000 "aaaaaaaaa" in
  let r1 := MS.addPattern env categoricalCandidate systemWithTwoLabels in
  let r2 := MS.addPattern env categoricalCandidate (state_of r1) in
  value_of r1 = Some tt
  /\ value_of r2 = Some tt
  /\ List.length (KB.extractedItems
                   (KB.extract (MS.extractEnv env)
                      (savedPattern 1000 categoricalCandidate
                         (MS.patternStorage (state_of r1))))) = 1%nat
  /\ JsMap.keys (KB.items (MS.knowledgeBase (state_of r1)))
     = ["knowledge-1000-aaaaaaaaa"%string]
  /\ JsMap.keys (KB.items (MS.knowledgeBase (state_of r2)))
     = ["knowledge-1000-aaaaaaaaa"%string]
  /\ JsMap.size (KB.items (MS.knowledgeBase (state_of r1))) = 1
  /\ JsMap.size (KB.items (MS.knowledgeBase (state_of r2))) = 1.
Proof. cbv zeta. split_all; vm_compute; reflexivity. Qed.

(** C10, amended.  The id of an extracted item is built from the clock
    reading and the random digits of that call and from nothing of the
    pattern, and two ids are equal only if both readings are.  With the
    pattern store and the knowledge base initialized, adding the same
    candidate twice leaves a single pattern record.  When the extraction
    of the second call yields an item, its readings differ from those of
    the first call, and the graph held no item under that id before the
    two calls, the second call adds the item: below [maxItems] the item
    count grows by one, at capacity the item created first is evicted and
    the count stays.  When both extractions yield an item and the
    readings of the two calls are the same, the second item takes the
    place of the first, and below [maxItems] the count does not grow. *)
Theorem C10_extraction_not_idempotent :
  forall env1 env2 c s,
    PS.initialized (MS.patternStorage s) = true ->
    KB.initialized (MS.knowledgeBase s) = true ->
    JsMap.wf (KB.items (MS.knowledgeBase s)) ->
    let s1 := state_of (MS.addPattern env1 c s) in
    let s2 := state_of (MS.addPattern env2 c s1) in
    let saved1 := savedPattern (MS.saveNow env1) c (MS.patternStorage s) in
    let saved2 := savedPattern (MS.saveNow env2) c (MS.patternStorage s1) in
    let now1 := KB.idNow (KB.itemEnv (MS.extractEnv env1)) in
    let rnd1 := KB.idRnd (KB.itemEnv (MS.extractEnv env1)) in
    let now2 := KB.idNow (KB.itemEnv (MS.extractEnv env2)) in
    let rnd2 := KB.idRnd (KB.itemEnv (MS.extractEnv env2)) in
    let id2 := KB.generateKnowledgeId now2 rnd2 in
    let items0 := KB.items (MS.knowledgeBase s) in
    let items1 := KB.items (MS.knowledgeBase s1) in
    let items2 := KB.items (MS.knowledgeBase s2) in
    (forall env p p' it it',
        In it (KB.extractedItems (KB.extract env p)) ->
        In it' (KB.extractedItems (KB.extract env p')) ->
        KB.id it = KB.id it')
    /\ (KB.generateKnowledgeId now1 rnd1 = id2 <-> now1 = now2 /\ rnd1 = rnd2)
    /\ JsMap.size (PS.patterns (MS.patternStorage s2))
       = JsMap.size (PS.patterns (MS.patternStorage s1))
    /\ JsMap.has (PS.generatePatternId c) (PS.patterns (MS.patternStorage s2)) = true
    /\ (KB.extractedItems (KB.extract (MS.extractEnv env2) saved2) <> [] ->
        (now1, rnd1) <> (now2, rnd2) ->
        JsMap.get id2 items0 = None ->
        (exists it, JsMap.get id2 items2 = Some it /\ KB.patternId it = PS.generatePatternId c)
        /\ (JsMap.size items1 < KB.maxItems (KB.config (MS.knowledgeBase s1)) ->
            JsMap.size items2 = JsMap.size items1 + 1)
        /\ (JsMap.size items1 >= KB.maxItems (KB.config (MS.knowledgeBase s1)) ->
            0 < JsMap.size items1 ->
            JsMap.size items2 = JsMap.size items1
            /\ exists victim,
                 In victim items1
                 /\ (forall other, In other items1 ->
                                   KB.createdAt (snd victim) <= KB.createdAt (snd other))
                 /\ JsMap.get (fst victim) items2 = None))
    /\ (KB.extractedItems (KB.extract (MS.extractEnv env1) saved1) <> [] ->
        KB.extractedItems (KB.extract (MS.extractEnv env2) saved2) <> [] ->
        (now1, rnd1) = (now2, rnd2) ->
        JsMap.size items1 < KB.maxItems (KB.config (MS.knowledgeBase s1)) ->
        JsMap.size items2 = JsMap.size items1
        /\ JsMap.keys items2 = JsMap.keys items1
        /\ JsMap.get id2 items2
           = hd_error (KB.extractedItems (KB.extract (MS.extractEnv env2) saved2))).
Proof.
  intros env1 env2 c s Hps Hkb Hwf s1 s2 saved1 saved2 now1 rnd1 now2 rnd2 id2
         items0 items1 items2.
  destruct (addPattern_stores env1 c s Hps Hkb) as [P1 K1]. cbv zeta in K1.
  fold s1 saved1 in P1, K1.
  assert (Hps1 : PS.initialized (MS.patternStorage s1) = true)
    by (rewrite P1; now apply initialized_savePattern).
  assert (Hkb1 : KB.initialized (MS.knowledgeBase s1) = true)
    by (rewrite K1; apply knowledgeAfter_ok; exact Hkb).
  assert (Hwf1 : JsMap.wf items1)
    by (unfold items1; rewrite K1; now apply knowledgeAfter_wf).
  destruct (addPattern_stores env2 c s1 Hps1 Hkb1) as [P2 K2]. cbv zeta in K2.
  fold s2 saved2 in P2, K2.
  assert (Hhas1 : JsMap.has (PS.generatePatternId c) (PS.patterns (MS.patternStorage s1)) = true).
  { rewrite P1, savePattern_ok by auto. cbn [state_of PS.patterns PS.set_patterns].
    unfold JsMap.has. now rewrite get_set_eq. }
  assert (Hitems1 : items1
                    = match KB.extractedItems (KB.extract (MS.extractEnv env1) saved1) with
                      | [] => items0
                      | it :: _ => JsMap.set (KB.id it) it (prunedItems (MS.knowledgeBase s))
                      end)
    by (unfold items1; rewrite K1; now apply knowledgeAfter_items).
  assert (Hitems2 : items2
                    = match KB.extractedItems (KB.extract (MS.extractEnv env2) saved2) with
                      | [] => items1
                      | it :: _ => JsMap.set (KB.id it) it (prunedItems (MS.knowledgeBase s1))
                      end)
    by (unfold items2; rewrite K2; now apply knowledgeAfter_items).
  split; [|split; [|split; [|split; [|split]]]].
  - intros env p p' it it' Hit Hit'.
    destruct (extract_shape env p) as [_ [E | (x & E & Hx & _)]];
      rewrite E in Hit; [destruct Hit|].
    destruct (extract_shape env p') as [_ [E' | (x' & E' & Hx' & _)]];
      rewrite E' in Hit'; [destruct Hit'|].
    destruct Hit as [<-|[]]. destruct Hit' as [<-|[]]. congruence.
  - split; [apply generateKnowledgeId_inj | intros [-> ->]; reflexivity].
  - rewrite P2, savePattern_ok by auto. cbn [state_of PS.patterns PS.set_patterns].
    unfold JsMap.has in Hhas1.
    destruct (JsMap.get (PS.generatePatternId c) (PS.patterns (MS.patternStorage s1)))
      as [old|] eqn:G; [|discriminate].
    rewrite patterns_createVersion. unfold JsMap.size. rewrite length_set.
    unfold JsMap.has. now rewrite G.
  - rewrite P2, savePattern_ok by auto. cbn [state_of PS.patterns PS.set_patterns].
    unfold JsMap.has. now rewrite get_set_eq.
  - intros Hyield Hdraws Hfresh0.
    assert (Hfresh : JsMap.get id2 items1 = None).
    { rewrite Hitems1.
      destruct (extract_shape (MS.extractEnv env1) saved1) as [_ [E | (it & E & Hid & _)]];
        rewrite E; [exact Hfresh0|].
      fold now1 rnd1 in Hid. rewrite Hid.
      rewrite get_set_ne.
      - apply prunedItems_absent. exact Hfresh0.
      - intros Heq. apply generateKnowledgeId_inj in Heq. destruct Heq as [-> ->].
        now apply Hdraws. }
    assert (Hset : exists it,
               items2 = JsMap.set id2 it (prunedItems (MS.knowledgeBase s1))
               /\ KB.patternId it = PS.generatePatternId c).
    { rewrite Hitems2.
      destruct (extract_shape (MS.extractEnv env2) saved2) as [_ [E | (it & E & Hid & Hpid)]];
        [contradiction|].
      rewrite E. exists it. fold now2 rnd2 id2 in Hid. rewrite Hid. split; auto. }
    destruct Hset as (it & E2 & Hpid).
    pose proof (prunedItems_absent (MS.knowledgeBase s1) id2 Hfresh) as Habs.
    assert (Hsize : JsMap.size items2 = JsMap.size (prunedItems (MS.knowledgeBase s1)) + 1).
    { rewrite E2. unfold JsMap.size. rewrite length_set. unfold JsMap.has.
      rewrite Habs. lia. }
    split; [|split].
    + exists it. rewrite E2, get_set_eq. auto.
    + intros Hbelow. rewrite Hsize, prunedItems_below; auto.
    + intros Hfull Hpos.
      destruct (prunedItems_full (MS.knowledgeBase s1) Hwf1 Hfull Hpos)
        as (victim & Hin & Hmin & Hdel & Hsz).
      split; [rewrite Hsize, Hsz; fold items1; lia|].
      exists victim. split; [exact Hin|]. split; [exact Hmin|].
      rewrite E2, Hdel.
      assert (Hne : id2 <> fst victim).
      { intros Heq. destruct victim as [k v]. cbn [fst] in Heq. subst k.
        apply (In_get_wf _ _ _ Hwf1) in Hin. fold items1 in Hfresh. congruence. }
      rewrite get_set_ne by auto. apply get_delete_eq.
  - intros Hyield1 Hyield2 Hsame Hbelow.
    injection Hsame as Hnow Hrnd.
    destruct (extract_shape (MS.extractEnv env1) saved1) as [_ [E1 | (it1 & E1 & Hid1 & _)]];
      [contradiction|].
    destruct (extract_shape (MS.extractEnv env2) saved2) as [_ [E2 | (it2 & E2 & Hid2 & _)]];
      [contradiction|].
    fold now1 rnd1 in Hid1. fold now2 rnd2 id2 in Hid2. rewrite Hnow, Hrnd in Hid1.
    fold id2 in Hid1.
    rewrite E1 in Hitems1. rewrite E2 in Hitems2. rewrite Hid1 in Hitems1.
    rewrite Hid2 in Hitems2. rewrite E2. cbn [hd_error].
    rewrite prunedItems_below in Hitems2 by exact Hbelow. fold items1 in Hitems2.
    assert (Hhas : JsMap.has id2 items1 = true)
      by (unfold JsMap.has; rewrite Hitems1, get_set_eq; reflexivity).
    split; [|split].
    + rewrite Hitems2. unfold JsMap.size. rewrite length_set, Hhas. reflexivity.
    + rewrite Hitems2, keys_set, Hhas. reflexivity.
    + rewrite Hitems2. apply get_set_eq.
Qed.

Lemma C10_extraction_not_idempotent_witness :
  let env1 := exampleEnv 1000 "aaaaaaaaa" in
  let env2 := exampleEnv 2000 "bbbbbbbbb" in
  let r1 := MS.addPattern env1 categoricalCandidate systemWithTwoLabels in
  let r2 := MS.addPattern env2 categoricalCandidate (state_of r1) in
  value_of r1 = Some tt
  /\ value_of r2 = Some tt
  /\ JsMap.size (PS.patterns (MS.patternStorage (state_of r2)))
     = JsMap.size (PS.patterns (MS.patternStorage (state_of r1)))
  /\ JsMap.size (KB.items (MS.knowledgeBase (state_of r2)))
     = JsMap.size (KB.items (MS.knowledgeBase (state_of r1))) + 1.
Proof.
  cbv zeta.
  destruct (C10_extraction_not_idempotent
              (exampleEnv 1000 "aaaaaaaaa") (exampleEnv 2000 "bbbbbbbbb")
              categoricalCandidate systemWithTwoLabels eq_refl eq_refl (NoDup_nil string))
    as (_ & _ & Hpatterns & _ & Hitems & _).
  split; [vm_compute; reflexivity|]. split; [vm_compute; reflexivity|].
  split; [exact Hpatterns|].
  assert (Hyield :
            KB.extractedItems
              (KB.extract (MS.extractEnv (exampleEnv 2000 "bbbbbbbbb"))
                 (savedPattern (MS.saveNow (exampleEnv 2000 "bbbbbbbbb")) categoricalCandidate
                    (MS.patternStorage
                       (state_of (MS.addPattern (exampleEnv 1000 "aaaaaaaaa")
                                                categoricalCandidate systemWithTwoLabels)))))
            <> []).
  { intros E. vm_compute in E. discriminate E. }
  destruct (Hitems Hyield) as (_ & Hbelow & _).
  - intros E. discriminate E.
  - reflexivity.
  - apply Hbelow. vm_compute. reflexivity.
Defined.

(** ** findRelatedItems: what holds of the result in general *)

Lemma set_has_add x y v : KB.set_has x v = true -> KB.set_has x (KB.set_add y v) = true.
Proof.
  intros H. unfold KB.set_add. destruct (KB.set_has y v); auto.
  unfold KB.set_has in *. rewrite existsb_app, H. reflexivity.
Qed.

Lemma set_has_add_same x v : KB.set_has x (KB.set_add x v) = true.
Proof.
  unfold KB.set_add. destruct (KB.set_has x v) eqn:E; auto.
  unfold KB.set_has. rewrite existsb_app. cbn. rewrite String.eqb_refl.
  now rewrite orb_true_r.
Qed.

Section TraverseFacts.

Variable its : JsMap.t KB.KnowledgeItem.
Variable rels : list KB.KnowledgeRelationship.
Variable x : string.
Hypothesis keys_are_ids :
  forall k it, JsMap.get k its = Some it -> KB.id it = k.

(** The loop over the relationships in [traverse], for recursive calls
    with [n] levels remaining. *)
Lemma visit_neighbors_keeps_start_out n id_ :
  (forall id' st, startExcluded x st -> startExcluded x (KB.traverse its rels n id' st)) ->
  forall l st0,
    startExcluded x st0 ->
    startExcluded x
      (fold_left
         (fun st' rel =>
            match KB.neighborOf id_ rel with
            | Some neighborId =>
                if Js.truthyStr neighborId && negb (KB.set_has neighborId (fst st')) then
                  match JsMap.get neighborId its with
                  | Some neighbor =>
                      KB.traverse its rels n neighborId (fst st', snd st' ++ [neighbor])
                  | None => st'
                  end
                else st'
            | None => st'
            end) l st0).
Proof.
  intros IH. induction l as [|rel l IHl]; intros st0 H0; cbn [fold_left]; auto.
  apply IHl.
  destruct (KB.neighborOf id_ rel) as [nb|]; auto.
  destruct (Js.truthyStr nb && negb (KB.set_has nb (fst st0))) eqn:E; auto.
  destruct (JsMap.get nb its) as [neighbor|] eqn:G; auto.
  apply IH. destruct H0 as [Hv Hr]. split; cbn [fst snd]; auto.
  apply Forall_app. split; auto. constructor; [|constructor].
  rewrite (keys_are_ids _ _ G). intros ->.
  apply andb_true_iff in E. destruct E as [_ E]. rewrite Hv in E. discriminate.
Qed.

Lemma traverse_keeps_start_out n :
  forall id_ st, startExcluded x st -> startExcluded x (KB.traverse its rels n id_ st).
Proof.
  induction n as [|n IH]; intros id_ st Hst; cbn [KB.traverse]; auto.
  destruct (KB.set_has id_ (fst st)); auto.
  apply (visit_neighbors_keeps_start_out n id_ IH).
  destruct Hst as [Hv Hr]. split; cbn [fst snd]; auto using set_has_add.
Qed.

Lemma traverse_from_start n :
  Forall (fun it => KB.id it <> x) (snd (KB.traverse its rels n x ([], []))).
Proof.
  destruct n as [|n]; cbn [KB.traverse]; [constructor|].
  cbn [fst snd KB.set_has existsb].
  apply (visit_neighbors_keeps_start_out n x (traverse_keeps_start_out n)).
  split; cbn [fst snd]; [apply set_has_add_same | constructor].
Qed.

End TraverseFacts.

(** On an initialized knowledge base whose items are stored under their
    own ids (as [addKnowledge] and the loader store them),
    [findRelatedItems(x, maxDepth)] returns, and no returned item has the
    id [x]. *)
Lemma findRelatedItems_excludes_start s x maxDepth :
  KB.initialized s = true ->
  (forall k it, JsMap.get k (KB.items s) = Some it -> KB.id it = k) ->
  exists result,
    KB.findRelatedItems x maxDepth s = Ok result s
    /\ Forall (fun it => KB.id it <> x) result.
Proof.
  intros Hinit Hids. eexists. split.
  - unfold KB.findRelatedItems, KB.ensureInitialized. run_monad. rewrite Hinit. reflexivity.
  - now apply traverse_from_start.
Qed.


(* ===================================================================== *)
(** * Further properties of the modelled code                             *)
(* ===================================================================== *)

(** ** PatternStorage: loading, saving, reading, deleting *)

Lemma initialized_loadAllPatterns files s :
  PS.initialized (PS.loadAllPatterns files s) = PS.initialized s.
Proof.
  revert s. induction files as [|[p vs] files IH]; intros s; simpl; auto.
  destruct (Js.truthyStr (PS.id p)); auto.
  rewrite IH. destruct vs; reflexivity.
Qed.

Lemma filter_none {A} (f : A -> bool) (l : list A) :
  (forall x, In x l -> f x = false) -> filter f l = [].
Proof.
  induction l as [|x l IH]; intros H; cbn [filter]; auto.
  rewrite (H x (or_introl eq_refl)). apply IH. intros y Hy. apply H. now right.
Qed.

Lemma deletePattern_uninitialized k s :
  PS.initialized s = false ->
  PS.deletePattern k s = Throw (NotInitialized CPatternStorage) s.
Proof.
  intros H. unfold PS.deletePattern. apply bind_throw.
  unfold PS.ensureInitialized. now rewrite H.
Qed.

Lemma initialize_cases :
  forall files now s,
    PS.initialized s = false ->
    let loaded := PS.loadAllPatterns files s in
    ((exists kv, In kv (PS.patterns loaded) /\ PS.isExpired now (snd kv) = true) ->
     PS.initialize files now s = Throw (NotInitialized CPatternStorage) loaded
     /\ PS.initialized loaded = false)
    /\ ((forall kv, In kv (PS.patterns loaded) -> PS.isExpired now (snd kv) = false) ->
        PS.initialize files now s = Ok tt (PS.set_initialized true loaded)).
Proof.
  intros files now s Hinit loaded.
  assert (Hl : PS.initialized loaded = false)
    by (unfold loaded; now rewrite initialized_loadAllPatterns).
  assert (Hstart :
            PS.initialize files now s
            = bind (for_each
                      (map fst (filter (fun kv => PS.isExpired now (snd kv))
                                       (PS.patterns loaded)))
                      (fun id_ => bind (PS.deletePattern id_) (fun _ => ret tt)))
                   (fun _ => modify (PS.set_initialized true)) loaded).
  { unfold PS.initialize, PS.cleanExpiredPatterns.
    unfold bind at 1, get_state at 1. rewrite Hinit.
    unfold bind at 1, modify at 1. reflexivity. }
  rewrite Hstart. split.
  - intros (kv & Hin & Hexp). split; [|exact Hl].
    destruct (filter (fun kv0 => PS.isExpired now (snd kv0)) (PS.patterns loaded))
      as [|x rest] eqn:F.
    + assert (Hf : In kv (filter (fun kv0 => PS.isExpired now (snd kv0))
                                 (PS.patterns loaded)))
        by (apply filter_In; auto).
      rewrite F in Hf. destruct Hf.
    + cbn [map for_each]. apply bind_throw. apply bind_throw. apply bind_throw.
      now apply deletePattern_uninitialized.
  - intros Hnone.
    assert (F : filter (fun kv0 => PS.isExpired now (snd kv0)) (PS.patterns loaded) = []).
    { apply filter_none. exact Hnone. }
    rewrite F. reflexivity.
Qed.

(** [initialize] calls [cleanExpiredPatterns] before it sets
    [initialized], and [cleanExpiredPatterns] deletes through
    [deletePattern], which starts with the initialization check.  So on a
    store that is not yet initialized: if a loaded pattern is expired at
    the clock reading, [initialize] throws the not-initialized error and
    leaves the store uninitialized, with everything loaded still in
    memory; if none is expired, it returns with the loaded patterns and
    the flag set. *)
Theorem initialize_throws_on_expired_pattern :
  forall files now s,
    PS.initialized s = false ->
    let loaded := PS.loadAllPatterns files s in
    ((exists kv, In kv (PS.patterns loaded) /\ PS.isExpired now (snd kv) = true) ->
     PS.initialize files now s = Throw (NotInitialized CPatternStorage) loaded
     /\ PS.initialized loaded = false)
    /\ ((forall kv, In kv (PS.patterns loaded) -> PS.isExpired now (snd kv) = false) ->
        PS.initialize files now s = Ok tt (PS.set_initialized true loaded)).
Proof. exact initialize_cases. Qed.

Lemma initialize_throws_on_expired_pattern_witness :
  let stale := {| PS.id := "test-1"; PS.type := "test"; PS.data := [];
                  PS.metadata := exampleMetadata 1;
                  PS.createdAt := 100; PS.updatedAt := 100;
                  PS.expiresAt := Some 500 |} in
  PS.initialize [(stale, None)] 1000 (PS.new PS.noConfig)
  = Throw (NotInitialized CPatternStorage)
          (PS.loadAllPatterns [(stale, None)] (PS.new PS.noConfig))
  /\ PS.initialized (PS.loadAllPatterns [(stale, None)] (PS.new PS.noConfig)) = false.
Proof.
  cbv zeta.
  refine (proj1 (initialize_throws_on_expired_pattern _ 1000 (PS.new PS.noConfig) eq_refl) _).
  eexists. split; [left; reflexivity | reflexivity].
Defined.

(** After [savePattern], [getPattern] of the returned id gives back the
    stored record and changes nothing, at every clock reading at which the
    record is not expired. *)
Theorem getPattern_after_savePattern :
  forall s now ts c now',
    PS.initialized s = true ->
    PS.isExpired now' (savedPattern now c s) = false ->
    exists p s1,
      PS.savePattern now ts c s = Ok p s1
      /\ PS.getPattern now' (PS.id p) s1 = Ok (Some p) s1.
Proof.
  intros s now ts c now' Hinit Hlive.
  rewrite (savePattern_ok now ts c s Hinit).
  eexists _, _. split; [reflexivity|].
  set (s1 := PS.set_patterns _ _).
  assert (Hi1 : PS.initialized s1 = true).
  { unfold s1. cbn [PS.initialized PS.set_patterns].
    destruct (JsMap.get (PS.generatePatternId c) (PS.patterns s)); exact Hinit. }
  assert (Hg : JsMap.get (PS.generatePatternId c) (PS.patterns s1)
               = Some (savedPattern now c s)) by apply get_set_eq.
  unfold PS.getPattern.
  erewrite bind_ok; [|unfold PS.ensureInitialized; rewrite Hi1; reflexivity].
  erewrite bind_ok; [|reflexivity].
  cbn [savedPattern PS.id]. rewrite Hg. fold (savedPattern now c s). rewrite Hlive.
  reflexivity.
Qed.

Lemma getPattern_after_savePattern_witness :
  exists p s1,
    PS.savePattern 1000 1000 (exampleCandidate 1 None) freshStore = Ok p s1
    /\ PS.getPattern 2000 (PS.id p) s1 = Ok (Some p) s1.
Proof.
  exact (getPattern_after_savePattern freshStore 1000 1000 (exampleCandidate 1 None) 2000
           eq_refl eq_refl).
Defined.

(** [deletePattern] on an initialized store: for a stored id it returns
    true, the pattern and its version history are gone and every other id
    reads as before; for an id that is not stored it returns false and
    changes nothing, not even a version list kept under that id. *)
Theorem deletePattern_effect :
  forall s k,
    PS.initialized s = true ->
    (JsMap.get k (PS.patterns s) = None -> PS.deletePattern k s = Ok false s)
    /\ (JsMap.get k (PS.patterns s) <> None ->
        exists s',
          PS.deletePattern k s = Ok true s'
          /\ JsMap.get k (PS.patterns s') = None
          /\ JsMap.get k (PS.versions s') = None
          /\ forall k', k' <> k ->
               JsMap.get k' (PS.patterns s') = JsMap.get k' (PS.patterns s)
               /\ JsMap.get k' (PS.versions s') = JsMap.get k' (PS.versions s)).
Proof.
  intros s k Hinit. unfold PS.deletePattern, PS.ensureInitialized, JsMap.has. split.
  - intros Hnone. run_monad. now rewrite Hinit, Hnone.
  - intros Hsome. destruct (JsMap.get k (PS.patterns s)) as [p|] eqn:G; [|congruence].
    eexists. split; [run_monad; rewrite Hinit, G; reflexivity|].
    cbn [PS.patterns PS.versions PS.set_patterns PS.set_versions].
    split; [apply get_delete_eq|]. split; [apply get_delete_eq|].
    intros k' Hne. split; apply get_delete_ne; congruence.
Qed.

Lemma deletePattern_effect_witness :
  let s := state_of (PS.savePattern 1000 1000 (exampleCandidate 1 None) freshStore) in
  let k := PS.generatePatternId (exampleCandidate 1 None) in
  exists s',
    PS.deletePattern k s = Ok true s'
    /\ JsMap.get k (PS.patterns s') = None
    /\ JsMap.get k (PS.versions s') = None
    /\ forall k', k' <> k ->
         JsMap.get k' (PS.patterns s') = JsMap.get k' (PS.patterns s)
         /\ JsMap.get k' (PS.versions s') = JsMap.get k' (PS.versions s).
Proof.
  cbv zeta.
  refine (proj2 (deletePattern_effect
                   (state_of (PS.savePattern 1000 1000 (exampleCandidate 1 None) freshStore))
                   (PS.generatePatternId (exampleCandidate 1 None)) _) _).
  - vm_compute. reflexivity.
  - intros H. vm_compute in H. discriminate H.
Defined.

(** ** PatternStorage: updating and restoring *)

Lemma pushTrim_last limit vs v :
  1 <= limit -> exists front, pushTrim limit vs v = front ++ [v].
Proof.
  intros H. unfold pushTrim, PS.shift.
  destruct (Z.of_nat (List.length (vs ++ [v])) >? limit) eqn:E.
  - destruct vs as [|x vs]; cbn [app tl].
    + cbn in E. apply Z.gtb_lt in E. lia.
    + now exists vs.
  - now exists vs.
Qed.

(** [updatePattern] on an initialized store.  For an id that is not
    stored it returns null and changes nothing.  For a stored pattern it
    returns the new record, which keeps the id, the type and the creation
    time and carries the clock reading as its update time; that record is
    what the id now reads as, every other id reads as before, and, when the
    version limit is at least one, the last entry of the pattern's history
    is the snapshot of the data and metadata it had before the update. *)
Theorem updatePattern_effect :
  forall s ts now k u,
    PS.initialized s = true ->
    (JsMap.get k (PS.patterns s) = None -> PS.updatePattern ts now k u s = Ok None s)
    /\ (forall p,
          JsMap.get k (PS.patterns s) = Some p ->
          1 <= PS.maxVersions (PS.config s) ->
          exists q s',
            PS.updatePattern ts now k u s = Ok (Some q) s'
            /\ PS.id q = PS.id p /\ PS.type q = PS.type p
            /\ PS.createdAt q = PS.createdAt p /\ PS.updatedAt q = now
            /\ JsMap.get k (PS.patterns s') = Some q
            /\ (exists front,
                  versionsOf (PS.id p) s'
                  = front ++ [versionOf ts p (versionsOf (PS.id p) s)])
            /\ forall k', k' <> k ->
                 JsMap.get k' (PS.patterns s') = JsMap.get k' (PS.patterns s)).
Proof.
  intros s ts now k u Hinit. split.
  - intros Hnone. unfold PS.updatePattern, PS.ensureInitialized. run_monad.
    now rewrite Hinit, Hnone.
  - intros p Hget Hlim.
    rewrite (updatePattern_ok ts now k u s p Hinit Hget).
    eexists _, _. split; [reflexivity|].
    rewrite createVersion_eq.
    cbn [state_of PS.patterns PS.versions PS.set_patterns PS.set_versions
         updatedPattern PS.id PS.type PS.createdAt PS.updatedAt].
    split_all; try reflexivity.
    + apply get_set_eq.
    + unfold versionsOf at 1. cbn [PS.versions PS.set_patterns PS.set_versions].
      rewrite get_set_eq. cbn [PS.nullish].
      now apply pushTrim_last.
    + intros k' Hne. apply get_set_ne. congruence.
Qed.

Lemma updatePattern_effect_witness :
  let s := state_of (PS.savePattern 1000 1000 (exampleCandidate 1 None) freshStore) in
  let k := PS.generatePatternId (exampleCandidate 1 None) in
  exists q s',
    PS.updatePattern 2000 2000 k exampleUpdate s = Ok (Some q) s'
    /\ PS.createdAt q = 1000 /\ PS.updatedAt q = 2000.
Proof.
  cbv zeta.
  destruct (proj2 (updatePattern_effect
                     (state_of (PS.savePattern 1000 1000 (exampleCandidate 1 None) freshStore))
                     2000 2000 (PS.generatePatternId (exampleCandidate 1 None))
                     exampleUpdate eq_refl)
                  (savedPattern 1000 (exampleCandidate 1 None) freshStore)
                  eq_refl ltac:(vm_compute; discriminate))
    as (q & s' & E & _ & _ & C & U & _).
  exists q, s'. split; [exact E|]. split; [exact C | exact U].
Defined.

(** Restoring undoes an update.  Take a stored pattern that has no
    history yet and a version limit of at least one; update it, then
    restore version 1.  The restore returns a record with the data and the
    metadata the pattern had before the update, stored under the same id.
    The expiry is not restored: it stays what the update made it.  The state
    that the restore replaced is itself kept, as the last entry of the
    history, numbered 2. *)
Theorem restorePattern_undoes_update :
  forall s ts now k u p ts' tc now',
    PS.initialized s = true ->
    JsMap.get k (PS.patterns s) = Some p ->
    PS.id p = k ->
    versionsOf k s = [] ->
    1 <= PS.maxVersions (PS.config s) ->
    exists q s2,
      PS.restorePattern ts' tc now' k 1 (state_of (PS.updatePattern ts now k u s))
      = Ok (Some q) s2
      /\ PS.id q = k
      /\ PS.data q = PS.data p
      /\ PS.metadata q = PS.metadata p
      /\ PS.expiresAt q = PS.nullishOpt (PS.upd_expiresAt u) (PS.expiresAt p)
      /\ PS.updatedAt q = now'
      /\ JsMap.get k (PS.patterns s2) = Some q
      /\ exists front v,
           versionsOf k s2 = front ++ [v]
           /\ PS.ver_version v = 2
           /\ PS.ver_data v = PS.nullish (PS.upd_data u) (PS.data p)
           /\ PS.ver_metadata v = PS.mergeMetadata (PS.metadata p) (PS.upd_metadata u).
Proof.
  intros s ts now k u p ts' tc now' Hinit Hget Hid Hvs Hlim. subst k.
  rewrite (updatePattern_ok ts now _ u s p Hinit Hget).
  rewrite createVersion_eq. cbn [state_of].
  unfold versionsOf in Hvs. rewrite Hvs.
  assert (Hpt : pushTrim (PS.maxVersions (PS.config s)) [] (versionOf ts p []) = [versionOf ts p []]).
  { apply (proj1 (pushTrim_fifo _ [] _ Hlim)). cbn. lia. }
  rewrite Hpt.
  set (s1 := PS.set_patterns _ _).
  assert (Hi1 : PS.initialized s1 = true) by exact Hinit.
  assert (Hv1 : JsMap.get (PS.id p) (PS.versions s1) = Some [versionOf ts p []])
    by apply get_set_eq.
  assert (Hp1 : JsMap.get (PS.id p) (PS.patterns s1) = Some (updatedPattern now p u))
    by apply get_set_eq.
  assert (Hc : PS.maxVersions (PS.config s1) = PS.maxVersions (PS.config s)) by reflexivity.
  unfold PS.restorePattern.
  erewrite bind_ok; [|unfold PS.ensureInitialized; rewrite Hi1; reflexivity].
  erewrite bind_ok; [|reflexivity].
  rewrite Hv1. cbn [find versionOf PS.ver_version List.length Z.of_nat Z.add Z.eqb Pos.eqb].
  rewrite Hp1.
  erewrite bind_ok; [|apply createVersion_eq].
  erewrite bind_ok; [|reflexivity].
  eexists _, _. split; [reflexivity|].
  cbn [PS.id PS.data PS.metadata PS.expiresAt PS.updatedAt PS.ver_data PS.ver_metadata
       updatedPattern PS.patterns PS.versions PS.set_patterns PS.set_versions].
  split_all; try reflexivity.
  - apply get_set_eq.
  - unfold versionsOf. cbn [PS.versions PS.set_versions PS.set_patterns].
    rewrite get_set_eq. cbn [PS.nullish].
    rewrite Hv1, Hc. cbn [PS.nullish].
    destruct (pushTrim_last (PS.maxVersions (PS.config s)) [versionOf ts p []]
                (versionOf ts' (updatedPattern now p u) [versionOf ts p []]) Hlim)
      as (front & Hf).
    exists front, (versionOf ts' (updatedPattern now p u) [versionOf ts p []]).
    split; [exact Hf|]. split_all; reflexivity.
Qed.

Lemma restorePattern_undoes_update_witness :
  let s := state_of (PS.savePattern 1000 1000 (exampleCandidate 1 None) freshStore) in
  let k := PS.generatePatternId (exampleCandidate 1 None) in
  exists q s2,
    PS.restorePattern 3000 3000 3000 k 1 (state_of (PS.updatePattern 2000 2000 k exampleUpdate s))
    = Ok (Some q) s2
    /\ PS.data q = PS.cand_data (exampleCandidate 1 None).
Proof.
  cbv zeta.
  destruct (restorePattern_undoes_update
              (state_of (PS.savePattern 1000 1000 (exampleCandidate 1 None) freshStore))
              2000 2000 (PS.generatePatternId (exampleCandidate 1 None)) exampleUpdate
              (savedPattern 1000 (exampleCandidate 1 None) freshStore)
              3000 3000 3000
              eq_refl eq_refl eq_refl eq_refl ltac:(vm_compute; discriminate))
    as (q & s2 & E & _ & D & _).
  exists q, s2. split; [exact E | exact D].
Defined.

(** ** PatternStorage: queries and statistics *)

Lemma includes_In x l : PS.includes x l = true <-> In x l.
Proof.
  unfold PS.includes. rewrite existsb_exists. split.
  - intros (y & Hy & E). apply String.eqb_eq in E. now subst.
  - intros H. exists x. split; auto. apply String.eqb_refl.
Qed.

Lemma truthyZ_true n : Js.truthyZ n = true <-> n <> 0.
Proof. unfold Js.truthyZ. rewrite negb_true_iff, Z.eqb_neq. tauto. Qed.

Lemma truthyStr_true x : Js.truthyStr x = true <-> x <> EmptyString.
Proof. unfold Js.truthyStr. rewrite negb_true_iff, String.eqb_neq. tauto. Qed.

Lemma negb_and_true a b : negb (a && b) = true <-> (a = true -> b = false).
Proof. destruct a, b; cbn; intuition congruence. Qed.

Lemma matchesQuery_spec now q p :
  PS.matchesQuery now q p = true <-> satisfies now q p.
Proof.
  unfold PS.matchesQuery, satisfies. rewrite !andb_true_iff.
  assert (H1 : negb (PS.nullish (PS.q_notExpired q) false && PS.isExpired now p) = true
               <-> (PS.q_notExpired q = Some true ->
                    forall e, PS.expiresAt p = Some e -> e <> 0 -> now <= e)).
  { rewrite negb_and_true. unfold PS.isExpired.
    destruct (PS.q_notExpired q) as [[|]|]; cbn [PS.nullish].
    - split.
      + intros H _ e He Hnz. rewrite He in H. specialize (H eq_refl).
        apply andb_false_iff in H. destruct H as [H|H].
        * apply truthyZ_true in Hnz. congruence.
        * destruct (Z.gtb_spec now e); [discriminate | lia].
      + intros H _. destruct (PS.expiresAt p) as [e|]; auto.
        destruct (Js.truthyZ e) eqn:T; auto. apply truthyZ_true in T.
        specialize (H eq_refl e eq_refl T). cbn.
        destruct (Z.gtb_spec now e); [lia | reflexivity].
    - split; intros; discriminate.
    - split; intros; discriminate. }
  assert (H2 : negb (match PS.q_type q with
                     | Some t => Js.truthyStr t && negb (String.eqb (PS.type p) t)
                     | None => false
                     end) = true
               <-> (forall t, PS.q_type q = Some t -> t <> EmptyString -> PS.type p = t)).
  { destruct (PS.q_type q) as [t|]; [|split; [intros _ t H; discriminate | reflexivity]].
    rewrite negb_and_true, truthyStr_true, negb_false_iff, String.eqb_eq.
    split; [intros H t' E; injection E as <-; exact H | intros H; exact (H t eq_refl)]. }
  assert (H3 : negb (match PS.q_tags q with
                     | Some ts =>
                         (0 <? Z.of_nat (List.length ts))
                         && negb (forallb (fun tag => PS.includes tag (PS.tags (PS.metadata p))) ts)
                     | None => false
                     end) = true
               <-> (forall ts tag, PS.q_tags q = Some ts -> In tag ts ->
                                   In tag (PS.tags (PS.metadata p)))).
  { destruct (PS.q_tags q) as [ts|]; [|split; [intros _ ts tag H; discriminate | reflexivity]].
    rewrite negb_and_true, negb_false_iff, forallb_forall. split.
    - intros H ts' tag E Hin. injection E as <-. apply includes_In. apply H; auto.
      destruct ts; [destruct Hin | reflexivity].
    - intros H _ tag Hin. apply includes_In. exact (H ts tag eq_refl Hin). }
  assert (H4 : negb (match PS.q_minConfidence q with
                     | Some c => PS.confidence (PS.metadata p) <? c
                     | None => false
                     end) = true
               <-> (forall c, PS.q_minConfidence q = Some c -> c <= PS.confidence (PS.metadata p))).
  { destruct (PS.q_minConfidence q) as [c|]; [|split; [intros _ c H; discriminate | reflexivity]].
    rewrite negb_true_iff, Z.ltb_ge.
    split; [intros H c' E; injection E as <-; exact H | intros H; exact (H c eq_refl)]. }
  assert (H5 : negb (match PS.q_minFrequency q with
                     | Some f => PS.frequency (PS.metadata p) <? f
                     | None => false
                     end) = true
               <-> (forall f, PS.q_minFrequency q = Some f -> f <= PS.frequency (PS.metadata p))).
  { destruct (PS.q_minFrequency q) as [c|]; [|split; [intros _ c H; discriminate | reflexivity]].
    rewrite negb_true_iff, Z.ltb_ge.
    split; [intros H c' E; injection E as <-; exact H | intros H; exact (H c eq_refl)]. }
  assert (H6 : negb (match PS.q_createdAfter q with
                     | Some t => Js.truthyZ t && (PS.createdAt p <? t)
                     | None => false
                     end) = true
               <-> (forall t, PS.q_createdAfter q = Some t -> t <> 0 -> t <= PS.createdAt p)).
  { destruct (PS.q_createdAfter q) as [t|]; [|split; [intros _ t H; discriminate | reflexivity]].
    rewrite negb_and_true, truthyZ_true, Z.ltb_ge.
    split; [intros H t' E; injection E as <-; exact H | intros H; exact (H t eq_refl)]. }
  assert (H7 : negb (match PS.q_createdBefore q with
                     | Some t => Js.truthyZ t && (PS.createdAt p >? t)
                     | None => false
                     end) = true
               <-> (forall t, PS.q_createdBefore q = Some t -> t <> 0 -> PS.createdAt p <= t)).
  { destruct (PS.q_createdBefore q) as [t|]; [|split; [intros _ t H; discriminate | reflexivity]].
    rewrite negb_and_true, truthyZ_true, Z.gtb_ltb, Z.ltb_ge.
    split; [intros H t' E; injection E as <-; exact H | intros H; exact (H t eq_refl)]. }
  rewrite H1, H2, H3, H4, H5, H6, H7. tauto.
Qed.

(** [queryPatterns] on an initialized store returns without changing the
    store, and the patterns it returns are exactly the stored patterns
    that meet every condition of the query.  The conditions are those of
    [satisfies]: in particular an empty type string, an empty tag list and
    a zero creation bound filter nothing, while a zero minimum confidence
    or frequency is applied as given. *)
Theorem queryPatterns_sound_complete :
  forall s now q,
    PS.initialized s = true ->
    exists result,
      PS.queryPatterns now q s = Ok result s
      /\ forall p, In p result <-> In p (JsMap.values (PS.patterns s)) /\ satisfies now q p.
Proof.
  intros s now q Hinit. eexists. split.
  - unfold PS.queryPatterns, PS.ensureInitialized. run_monad. rewrite Hinit. reflexivity.
  - intros p. rewrite filter_In, matchesQuery_spec. reflexivity.
Qed.

Lemma queryPatterns_sound_complete_witness :
  let s := PS.after (PS.CallSave 1000 1000 (exampleCandidate 1 None)) freshStore in
  let q := {| PS.q_type := Some "test"%string; PS.q_tags := Some ["test"%string];
              PS.q_minConfidence := Some 1; PS.q_minFrequency := None;
              PS.q_createdAfter := Some 0; PS.q_createdBefore := None;
              PS.q_notExpired := Some true |} in
  exists result,
    PS.queryPatterns 2000 q s = Ok result s
    /\ forall p, In p result <-> In p (JsMap.values (PS.patterns s)) /\ satisfies 2000 q p.
Proof.
  cbv zeta.
  exact (queryPatterns_sound_complete
           (PS.after (PS.CallSave 1000 1000 (exampleCandidate 1 None)) freshStore) 2000
           {| PS.q_type := Some "test"%string; PS.q_tags := Some ["test"%string];
              PS.q_minConfidence := Some 1; PS.q_minFrequency := None;
              PS.q_createdAfter := Some 0; PS.q_createdBefore := None;
              PS.q_notExpired := Some true |}
           eq_refl).
Defined.

Lemma NoDup_map_filter {A B} (f : A -> B) (g : A -> bool) (l : list A) :
  NoDup (map f l) -> NoDup (map f (filter g l)).
Proof.
  induction l as [|x l IH]; cbn [map filter]; intros H; [constructor|].
  inversion H as [|? ? Hn Hd]; subst.
  destruct (g x); cbn [map]; auto.
  constructor; auto. intros Hin. apply Hn.
  apply in_map_iff in Hin. destruct Hin as (y & E & Hy).
  apply filter_In in Hy. apply in_map_iff. exists y. tauto.
Qed.

Lemma ids_are_keys (m : JsMap.t PS.Pattern) :
  JsMap.wf m ->
  (forall k p, JsMap.get k m = Some p -> PS.id p = k) ->
  map PS.id (JsMap.values m) = JsMap.keys m.
Proof.
  intros Hwf Hids. unfold JsMap.values, JsMap.keys. rewrite map_map.
  apply map_ext_in. intros [k p] Hin. cbn [fst snd].
  apply Hids. now apply In_get_wf.
Qed.

Section ReachableInvariant.

Variable cfg : PS.PartialConfig.

Lemma inv_savePattern now ts c s :
  inv cfg s -> inv cfg (state_of (PS.savePattern now ts c s)).
Proof.
  intros Hg. unfold PS.savePattern, PS.ensureInitialized. run_monad.
  destruct (PS.initialized s); simpl; auto.
  destruct (JsMap.get (PS.generatePatternId c) (PS.patterns s)) as [old|]; simpl.
  - apply (inv_set_pattern _ _ _ (state_of (PS.createVersion ts old s))); auto.
    now apply inv_createVersion.
  - now apply inv_set_pattern.
Qed.

Lemma inv_getPattern now k s :
  inv cfg s -> inv cfg (state_of (PS.getPattern now k s)).
Proof.
  intros Hg. unfold PS.getPattern.
  pose proof (inv_deletePattern cfg k s Hg) as Hd.
  unfold PS.ensureInitialized. run_monad.
  destruct (PS.initialized s) eqn:Hinit; simpl; auto.
  destruct (JsMap.get k (PS.patterns s)) as [p|]; simpl; auto.
  destruct (PS.isExpired now p); simpl; auto.
  destruct (PS.deletePattern k s); simpl in *; auto.
Qed.

Lemma inv_updatePattern ts now k u s :
  inv cfg s -> inv cfg (state_of (PS.updatePattern ts now k u s)).
Proof.
  intros Hg. unfold PS.updatePattern, PS.ensureInitialized. run_monad.
  destruct (PS.initialized s); simpl; auto.
  destruct (JsMap.get k (PS.patterns s)) as [p|] eqn:G; simpl; auto.
  apply (inv_set_pattern _ _ _ (state_of (PS.createVersion ts p s))).
  - simpl. exact (inv_ids _ _ Hg _ _ G).
  - now apply inv_createVersion.
Qed.

Lemma inv_restorePattern ts tc now k v s :
  inv cfg s -> inv cfg (state_of (PS.restorePattern ts tc now k v s)).
Proof.
  intros Hg. unfold PS.restorePattern, PS.ensureInitialized. run_monad.
  destruct (PS.initialized s); simpl; auto.
  destruct (JsMap.get k (PS.versions s)) as [[|v0 vs]|]; simpl; auto.
  destruct (if PS.ver_version v0 =? v then Some v0
            else find (fun v1 => PS.ver_version v1 =? v) vs) as [vd|]; simpl; auto.
  destruct (JsMap.get k (PS.patterns s)) as [p|]; simpl.
  - apply (inv_set_pattern _ _ _ (state_of (PS.createVersion ts p s))); auto.
    now apply inv_createVersion.
  - now apply inv_set_pattern.
Qed.

Lemma inv_after c s : inv cfg s -> inv cfg (PS.after c s).
Proof.
  intros Hg. destruct c; simpl.
  - now apply inv_savePattern.
  - now apply inv_getPattern.
  - now apply inv_updatePattern.
  - now apply inv_deletePattern.
  - unfold PS.queryPatterns, PS.ensureInitialized. run_monad.
    destruct (PS.initialized s); simpl; auto.
  - unfold PS.getPatternVersions, PS.ensureInitialized. run_monad.
    destruct (PS.initialized s); simpl; auto.
  - now apply inv_restorePattern.
  - exact Hg.
Qed.

Lemma inv_loadAllPatterns files s :
  inv cfg s -> inv cfg (PS.loadAllPatterns files s).
Proof.
  revert s. induction files as [|[p vs] files IH]; intros s Hg; simpl; auto.
  destruct (Js.truthyStr (PS.id p)); auto.
  apply IH.
  assert (Hs1 : inv cfg (PS.set_patterns (JsMap.set (PS.id p) p) s))
    by now apply inv_set_pattern.
  destruct Hs1 as [Hc Hwp Hwv Hids].
  destruct vs as [l|]; simpl in *; constructor; simpl; auto using wf_set.
Qed.

Lemma inv_cleanup ids s :
  inv cfg s ->
  inv cfg (state_of (for_each ids (fun id_ => bind (PS.deletePattern id_) (fun _ => ret tt)) s)).
Proof.
  revert s. induction ids as [|k ids IH]; intros s Hg; simpl; auto.
  pose proof (inv_deletePattern cfg k s Hg) as Hd.
  unfold bind at 1. unfold bind at 1.
  destruct (PS.deletePattern k s) as [b s'|e s']; simpl in *; auto.
Qed.

Lemma inv_initialize files now s :
  inv cfg s -> inv cfg (state_of (PS.initialize files now s)).
Proof.
  intros Hg. unfold PS.initialize. run_monad.
  destruct (PS.initialized s); simpl; auto.
  pose proof (inv_loadAllPatterns files s Hg) as Hl.
  unfold PS.cleanExpiredPatterns. run_monad.
  match goal with
  | |- context [for_each ?l ?f ?st] =>
      assert (Hc : inv cfg (state_of (for_each l f st)))
        by exact (inv_cleanup l st Hl);
      destruct (for_each l f st) as [u s'|e s']
  end; simpl in *; auto.
  destruct Hc as [Hc1 Hc2 Hc3 Hc4]. constructor; auto.
Qed.

Lemma reachable_inv files s : PS.reachable cfg files s -> inv cfg s.
Proof.
  intros Hr. induction Hr.
  - constructor; simpl; auto; try constructor; discriminate.
  - now apply inv_initialize.
  - now apply inv_after.
Qed.

End ReachableInvariant.

(** In every state a store can reach from its construction, through
    [initialize] and the public methods, over any data directory, a query
    never returns two patterns with the same id. *)
Theorem queryPatterns_distinct_ids :
  forall cfg files s now q,
    PS.reachable cfg files s ->
    PS.initialized s = true ->
    exists result,
      PS.queryPatterns now q s = Ok result s
      /\ NoDup (map PS.id result).
Proof.
  intros cfg files s now q Hreach Hinit.
  destruct (reachable_inv cfg files s Hreach) as [_ Hwf _ Hids].
  eexists. split.
  - unfold PS.queryPatterns, PS.ensureInitialized. run_monad. rewrite Hinit. reflexivity.
  - apply NoDup_map_filter. rewrite ids_are_keys by assumption. exact Hwf.
Qed.

Lemma queryPatterns_distinct_ids_witness :
  let s := PS.after (PS.CallSave 1000 1000 (exampleCandidate 1 None)) freshStore in
  exists result,
    PS.queryPatterns 2000 PS.emptyQuery s = Ok result s
    /\ NoDup (map PS.id result).
Proof.
  cbv zeta.
  refine (queryPatterns_distinct_ids PS.noConfig []
            (PS.after (PS.CallSave 1000 1000 (exampleCandidate 1 None)) freshStore)
            2000 PS.emptyQuery _ eq_refl).
  apply PS.reach_call.
  apply (PS.reach_initialize PS.noConfig [] 0 (PS.new PS.noConfig)). apply PS.reach_new.
Defined.

(** [getStats] never throws, initialized or not, and leaves the store as
    it is.  [totalPatterns] is the number of stored patterns and
    [totalVersions] the total length of all version histories.  [byType]
    is a plain object: for a type that names no property every object
    inherits it has an entry exactly when the type occurs, the number of
    stored patterns of that type; for the type [__proto__] it never has
    an entry; and for a type that names an inherited function (such as
    constructor) the entry is not a number but the source text of that
    function followed by one 1 per stored pattern of the type. *)
Theorem getStats_counts :
  forall s,
    exists st,
      PS.getStats s = Ok st s
      /\ PS.totalPatterns st = Z.of_nat (List.length (PS.patterns s))
      /\ PS.totalVersions st = sumLengths (JsMap.values (PS.versions s))
      /\ (forall t, JsMap.get t (PS.byType st)
                    = tally t (countType t (JsMap.values (PS.patterns s))))
      /\ (forall t,
            t <> "__proto__"%string -> Js.inheritedFunction t = None ->
            JsMap.get t (PS.byType st)
            = if countType t (JsMap.values (PS.patterns s)) =? 0 then None
              else Some (Js.JNum (countType t (JsMap.values (PS.patterns s)))))
      /\ JsMap.get "__proto__" (PS.byType st) = None
      /\ (0 < countType "constructor" (JsMap.values (PS.patterns s)) ->
          exists text, JsMap.get "constructor" (PS.byType st) = Some (Js.JStr text)).
Proof.
  intros s. eexists. split; [apply getStats_eq|].
  cbn [PS.totalPatterns PS.totalVersions PS.byType]. split_all.
  - reflexivity.
  - rewrite totalVersions_fold. lia.
  - intros t. apply byType_fold.
  - intros t Hp Hi. rewrite byType_fold. unfold tally. rewrite Hi.
    apply String.eqb_neq in Hp. rewrite Hp.
    assert (H0 : 0 <= countType t (JsMap.values (PS.patterns s)))
      by (unfold countType; lia).
    destruct (Z.leb_spec (countType t (JsMap.values (PS.patterns s))) 0);
      destruct (Z.eqb_spec (countType t (JsMap.values (PS.patterns s))) 0);
      try reflexivity; lia.
  - rewrite byType_fold. unfold tally.
    destruct (_ <=? 0); reflexivity.
  - intros Hpos. rewrite byType_fold. unfold tally.
    destruct (Z.leb_spec (countType "constructor" (JsMap.values (PS.patterns s))) 0); [lia|].
    eexists. reflexivity.
Qed.

Lemma getStats_counts_witness :
  let s := PS.after (PS.CallSave 1000 1000
                       (PS.mkCandidate "constructor" [] (exampleMetadata 1) None))
                    freshStore in
  exists st text,
    PS.getStats s = Ok st s
    /\ PS.totalPatterns st = 1
    /\ JsMap.get "constructor" (PS.byType st) = Some (Js.JStr text).
Proof.
  cbv zeta.
  destruct (getStats_counts
              (PS.after (PS.CallSave 1000 1000
                           (PS.mkCandidate "constructor" [] (exampleMetadata 1) None))
                        freshStore))
    as (st & E & Hn & _ & _ & _ & _ & Hc).
  destruct (Hc ltac:(vm_compute; reflexivity)) as (text & Ht).
  exists st, text. split; [exact E|]. split; [|exact Ht].
  rewrite Hn. vm_compute. reflexivity.
Defined.

(** ** The rolling hash: pattern ids and string features *)

Lemma toInt32_range z : - 2 ^ 31 <= Js.toInt32 z < 2 ^ 31.
Proof.
  unfold Js.toInt32.
  pose proof (Z.mod_pos_bound (z + 2 ^ 31) (2 ^ 32) ltac:(lia)). lia.
Qed.

Lemma rollingHashFrom_range str :
  forall h, - 2 ^ 31 <= h < 2 ^ 31 -> - 2 ^ 31 <= Js.rollingHashFrom h str < 2 ^ 31.
Proof.
  induction str as [|c rest IH]; intros h Hh; cbn [Js.rollingHashFrom]; auto.
  apply IH. unfold Js.and32. apply toInt32_range.
Qed.

Lemma rollingHash_range str : - 2 ^ 31 <= Js.rollingHash str < 2 ^ 31.
Proof. apply rollingHashFrom_range. lia. Qed.

(** The id [generatePatternId] builds is the candidate's type, a hyphen
    and the hexadecimal form of a number between 0 and 2^31: the rolling
    hash stays in the signed 32-bit range for every string, and
    [Math.abs] of it is at most 2^31. *)
Theorem generatePatternId_form :
  forall c,
    exists n,
      0 <= n <= 2 ^ 31
      /\ PS.generatePatternId c = (PS.cand_type c ++ "-" ++ Js.hex n)%string.
Proof.
  intros c. exists (Z.abs (Js.rollingHash (Js.stringify (Js.JObj c)))).
  split; [|reflexivity].
  pose proof (rollingHash_range (Js.stringify (Js.JObj c))). lia.
Qed.

(** ** LearningModel: feature vectors *)

Lemma Forall_firstn {A} (P : A -> Prop) n (l : list A) :
  Forall P l -> Forall P (firstn n l).
Proof.
  intros H. revert n. induction H; intros [|n]; cbn [firstn]; constructor; auto.
Qed.

Lemma Forall_repeat {A} (P : A -> Prop) x n : P x -> Forall P (repeat x n).
Proof. intros H. induction n; cbn [repeat]; constructor; auto. Qed.

Lemma stringFeature_range str :
  (0 <= inject_Z (Z.rem (Z.abs (Js.rollingHash str)) 1000) / 1000
   /\ inject_Z (Z.rem (Z.abs (Js.rollingHash str)) 1000) / 1000 <= 1)%Q.
Proof.
  pose proof (Z.rem_bound_pos (Z.abs (Js.rollingHash str)) 1000 ltac:(lia) ltac:(lia)) as H.
  set (r := Z.rem (Z.abs (Js.rollingHash str)) 1000) in *.
  unfold Qle, Qdiv, Qmult, Qinv, inject_Z. cbn. lia.
Qed.

(** [createFeaturesFromPattern(pattern, size)] with a non-negative size
    returns a vector of exactly [size] entries, whatever the pattern
    holds: longer data is cut, shorter data is padded with zeros.  If no
    value of the pattern is a number, every entry lies between 0 and 1:
    strings become a hash fraction, booleans 0 or 1, and values of other
    types are left out. *)
Theorem createFeaturesFromPattern_shape :
  forall pattern size,
    0 <= size ->
    List.length (LM.createFeaturesFromPattern pattern size) = Z.to_nat size
    /\ ((forall k n, ~ In (k, Js.JNum n) pattern) ->
        Forall (fun x => 0 <= x /\ x <= 1)%Q (LM.createFeaturesFromPattern pattern size)).
Proof.
  intros pattern size Hsize. split; [now apply createFeatures_length|].
  unfold LM.createFeaturesFromPattern.
  set (flat := flat_map _ pattern).
  - intros Hnonum.
    assert (Hflat : Forall (fun x => 0 <= x /\ x <= 1)%Q flat).
    { unfold flat. clear flat. induction pattern as [|[k v] rest IH]; cbn [flat_map]; [constructor|].
      apply Forall_app. split.
      - destruct v as [| |b|n|str|xs|fields]; cbn [snd]; try (constructor; fail).
        + constructor; [|constructor]. destruct b; split; discriminate.
        + exfalso. apply (Hnonum k n). now left.
        + constructor; [|constructor]. apply stringFeature_range.
      - apply IH. intros k' n Hin. apply (Hnonum k' n). now right. }
    destruct (Z.of_nat (List.length flat) >=? size).
    + unfold LM.slice0. destruct (size <? 0); now apply Forall_firstn.
    + apply Forall_app. split; auto. apply Forall_repeat. split; discriminate.
Qed.

Lemma createFeaturesFromPattern_shape_witness :
  List.length (LM.createFeaturesFromPattern [("key"%string, Js.JStr "value")] 100)
  = Z.to_nat 100.
Proof.
  exact (proj1 (createFeaturesFromPattern_shape
                  [("key"%string, Js.JStr "value")] 100 ltac:(discriminate))).
Defined.

Lemma Qle_bool_false x y : Qle_bool x y = false -> (y <= x)%Q.
Proof.
  intros H. destruct (Qlt_le_dec y x) as [Hlt|Hle]; [now apply Qlt_le_weak|].
  apply Qle_bool_iff in Hle. congruence.
Qed.

Lemma maxQ_ge_start xs : forall x, (x <= LM.maxQ x xs)%Q.
Proof.
  unfold LM.maxQ. induction xs as [|y xs IH]; intros x; cbn [fold_left]; [apply Qle_refl|].
  destruct (Qle_bool x y) eqn:E.
  - destruct (Qeq_bool x y); [apply IH|].
    apply Qle_bool_iff in E. eapply Qle_trans; [exact E | apply IH].
  - apply IH.
Qed.

Lemma maxQ_upper xs :
  forall x y, In y (x :: xs) -> (y <= LM.maxQ x xs)%Q.
Proof.
  induction xs as [|z xs IH]; intros x y Hin.
  - destruct Hin as [<-|[]]. apply Qle_refl.
  - destruct Hin as [<-|Hin]; [apply maxQ_ge_start|].
    unfold LM.maxQ. cbn [fold_left]. fold (LM.maxQ (if Qle_bool x z then if Qeq_bool x z then x else z else x) xs).
    destruct (Qle_bool x z) eqn:E.
    + destruct (Qeq_bool x z) eqn:Q.
      * destruct Hin as [<-|Hin]; [|apply IH; now right].
        apply Qeq_bool_iff in Q. rewrite <- Q. apply maxQ_ge_start.
      * apply IH. exact Hin.
    + destruct Hin as [<-|Hin]; [|apply IH; now right].
      apply Qle_bool_false in E. eapply Qle_trans; [exact E | apply maxQ_ge_start].
Qed.


Lemma minQ_lower xs :
  forall x y, In y (x :: xs) ->
    (fold_left (fun m y0 => if Qle_bool y0 m then (if Qeq_bool m y0 then m else y0) else m) xs x
     <= y)%Q.
Proof.
  assert (Hstart : forall xs x,
             (fold_left (fun m y0 => if Qle_bool y0 m then (if Qeq_bool m y0 then m else y0) else m)
                        xs x <= x)%Q).
  { clear. induction xs as [|z xs IH]; intros x; cbn [fold_left]; [apply Qle_refl|].
    destruct (Qle_bool z x) eqn:E.
    - destruct (Qeq_bool x z); [apply IH|].
      apply Qle_bool_iff in E. eapply Qle_trans; [apply IH | exact E].
    - apply IH. }
  induction xs as [|z xs IH]; intros x y Hin.
  - destruct Hin as [<-|[]]. apply Qle_refl.
  - destruct Hin as [<-|Hin]; [apply Hstart|].
    cbn [fold_left].
    destruct (Qle_bool z x) eqn:E.
    + destruct (Qeq_bool x z) eqn:Q.
      * destruct Hin as [<-|Hin]; [|apply IH; now right].
        apply Qeq_bool_iff in Q. rewrite <- Q. apply Hstart.
      * apply IH. exact Hin.
    + destruct Hin as [<-|Hin]; [|apply IH; now right].
      apply Qle_bool_false in E. eapply Qle_trans; [apply Hstart | exact E].
Qed.

(** On a vector whose entries are at most 2^1022 in absolute value, so
    that no difference of two of them overflows a double,
    [normalizeFeatures] keeps the length of the vector and returns only
    values between 0 and 1. *)
Theorem normalizeFeatures_range :
  forall fs,
    Forall withinDouble fs ->
    List.length (LM.normalizeFeatures fs) = List.length fs
    /\ Forall (fun x => 0 <= x /\ x <= 1)%Q (LM.normalizeFeatures fs).
Proof.
  intros [|f0 rest] _; [split; [reflexivity | constructor]|].
  unfold LM.normalizeFeatures.
  set (mx := LM.maxQ f0 rest).
  set (mn := fold_left _ rest f0).
  destruct (Qeq_bool mx mn) eqn:E.
  - split; [apply length_map|].
    apply Forall_forall. intros x Hx. apply in_map_iff in Hx.
    destruct Hx as (y & <- & _). split; discriminate.
  - split; [apply length_map|].
    apply Forall_forall. intros x Hx. apply in_map_iff in Hx.
    destruct Hx as (y & <- & Hy).
    assert (Hup : (y <= mx)%Q) by (apply maxQ_upper; exact Hy).
    assert (Hlo : (mn <= y)%Q) by (apply minQ_lower; exact Hy).
    assert (Hne : ~ (mx == mn)%Q).
    { intros H. apply Qeq_bool_iff in H. congruence. }
    assert (Hpos : (0 < mx - mn)%Q).
    { apply (proj1 (Qlt_minus_iff mn mx)). apply Qle_lteq in Hup.
      assert (Hle : (mn <= mx)%Q) by (eapply Qle_trans; [exact Hlo|]; destruct Hup as [H|H];
                                       [now apply Qlt_le_weak | rewrite H; apply Qle_refl]).
      apply Qle_lteq in Hle. destruct Hle as [H|H]; [exact H|].
      exfalso. apply Hne. symmetry. exact H. }
    split.
    + apply Qle_shift_div_l; [exact Hpos|]. rewrite Qmult_0_l.
      apply (proj1 (Qle_minus_iff mn y)). exact Hlo.
    + apply Qle_shift_div_r; [exact Hpos|]. rewrite Qmult_1_l.
      unfold Qminus. rewrite <- Qplus_le_l with (z := mn).
      rewrite <- !Qplus_assoc. rewrite (Qplus_comm (- mn) mn), Qplus_opp_r, !Qplus_0_r.
      exact Hup.
Qed.

Lemma normalizeFeatures_range_witness :
  LM.normalizeFeatures [3; 1; 2]%Q = [(3 - 1) / (3 - 1); (1 - 1) / (3 - 1); (2 - 1) / (3 - 1)]%Q
  /\ Forall (fun x => 0 <= x /\ x <= 1)%Q (LM.normalizeFeatures [3; 1; 2]%Q).
Proof.
  split; [reflexivity|].
  refine (proj2 (normalizeFeatures_range [3; 1; 2]%Q _)).
  repeat (constructor; [split; vm_compute; discriminate|]). constructor.
Defined.

(** ** Sorting with a comparator *)

Section SortByFacts.

Context {A : Type} (le : A -> A -> bool) (R : A -> A -> Prop).

Lemma insertBy_Permutation x l : Permutation (KB.insertBy le x l) (x :: l).
Proof.
  induction l as [|y l IH]; cbn [KB.insertBy]; [reflexivity|].
  destruct (le x y); [reflexivity|].
  rewrite IH. apply perm_swap.
Qed.

Lemma sortBy_Permutation l : Permutation (KB.sortBy le l) l.
Proof.
  unfold KB.sortBy. induction l as [|x l IH]; cbn [fold_right]; [reflexivity|].
  rewrite insertBy_Permutation. now constructor.
Qed.

Hypothesis le_true : forall a b, le a b = true -> R a b.
Hypothesis le_false : forall a b, le a b = false -> R b a.

Lemma insertBy_Sorted x l : Sorted R l -> Sorted R (KB.insertBy le x l).
Proof.
  induction l as [|y l IH]; intros Hs; cbn [KB.insertBy].
  - repeat constructor.
  - destruct (le x y) eqn:E.
    + constructor; [exact Hs | constructor; auto].
    + inversion Hs as [|? ? Hs' Hd]; subst.
      constructor; [now apply IH|].
      destruct l as [|z l]; cbn [KB.insertBy].
      * constructor. auto.
      * destruct (le x z); constructor; auto.
        inversion Hd; subst; auto.
Qed.

Lemma sortBy_Sorted l : Sorted R (KB.sortBy le l).
Proof.
  unfold KB.sortBy. induction l as [|x l IH]; cbn [fold_right]; [constructor|].
  now apply insertBy_Sorted.
Qed.

End SortByFacts.

(** ** LearningModel: weights, classification, labels *)

Lemma descending_weight_trans :
  Relations_1.Transitive (fun a b : LM.WeightedPattern => (LM.weight b <= LM.weight a)%Q).
Proof. intros a b c Hab Hbc. eapply Qle_trans; eassumption. Qed.

(** [applyWeights] has no initialization check: on every model it
    returns, without changing the model, one entry per given pattern, each
    with the pattern's id and its weight, and the entries are in order of
    descending weight: no entry has a smaller weight than one after it. *)
Theorem applyWeights_sorted_permutation :
  forall patterns s,
    exists ws,
      LM.applyWeights patterns s = Ok ws s
      /\ Permutation ws (map weighted patterns)
      /\ Permutation (map LM.originalFeatures ws) patterns
      /\ StronglySorted (fun a b => (LM.weight b <= LM.weight a)%Q) ws.
Proof.
  intros patterns s. eexists. split; [reflexivity|].
  fold weighted.
  assert (Hp : Permutation
                 (KB.sortBy (fun a b => Qle_bool (LM.weight b) (LM.weight a))
                            (map weighted patterns))
                 (map weighted patterns)) by apply sortBy_Permutation.
  split_all.
  - exact Hp.
  - rewrite (Permutation_map LM.originalFeatures Hp), map_map. cbn [weighted LM.originalFeatures].
    now rewrite map_id.
  - apply Sorted_StronglySorted; [exact descending_weight_trans|].
    apply sortBy_Sorted.
    + intros a b H. now apply Qle_bool_iff.
    + intros a b H. now apply Qle_bool_false.
Qed.




(** [initialize(features)] of the classifier.  On a model that is
    already initialized it does nothing: the given features and their
    labels are ignored.  Otherwise, when the configuration names at least
    one hidden layer, each with a positive number of units, and at least
    one feature vector is given, it returns with the model initialized
    and a fresh, compiled network whose output layer has one unit per
    label; the label map holds every label of the given features exactly
    once, the inverse map sends each label to its position in the label
    map, the input size becomes the length of the first feature vector,
    and the training history is kept.  When the configuration names no
    hidden layer or one without units, or when no features are given (the
    output layer would have no unit), the construction of a layer throws:
    the model stays uninitialized, with the label map already replaced
    and a network that was not compiled. *)
Theorem initialize_builds_label_maps :
  forall feats s,
    (LM.isInitialized s = true -> LM.initialize feats s = Ok tt s)
    /\ (LM.isInitialized s = false ->
        buildable (LM.config s) = true ->
        feats <> [] ->
        exists s',
          LM.initialize feats s = Ok tt s'
          /\ LM.isInitialized s' = true
          /\ (exists m,
                LM.model s' = Some m /\ LM.fits m = []
                /\ LM.optimizer m = Some (LM.learningRate (LM.config s))
                /\ last (LM.layers m) (LM.Dropout 0)
                   = LM.Dense None (Some (Z.of_nat (List.length (LM.labelMap s')))) "softmax")
          /\ NoDup (LM.labelMap s')
          /\ (forall l, In l (LM.labelMap s') <-> exists f, In f feats /\ LM.label f = l)
          /\ (forall l i, nth_error (LM.labelMap s') i = Some l ->
                          JsMap.get l (LM.inverseLabelMap s') = Some (Z.of_nat i))
          /\ (forall l, ~ In l (LM.labelMap s') -> JsMap.get l (LM.inverseLabelMap s') = None)
          /\ (forall f0 rest, feats = f0 :: rest ->
                              LM.inputSize (LM.config s')
                              = Z.of_nat (List.length (LM.features f0)))
          /\ LM.trainingHistory s' = LM.trainingHistory s)
    /\ (LM.isInitialized s = false ->
        buildable (LM.config s) = false \/ feats = [] ->
        exists s',
          LM.initialize feats s = Throw LayerFailure s'
          /\ LM.isInitialized s' = false
          /\ LM.labelMap s' = LM.unique (map LM.label feats)
          /\ exists m, LM.model s' = Some m /\ LM.optimizer m = None /\ LM.fits m = []).
Proof.
  intros feats s. split; [|split].
  - intros Hinit. unfold LM.initialize. run_monad. now rewrite Hinit.
  - intros Hinit Hb Hne. eexists. split; [exact (initialize_ok feats s Hinit Hb Hne)|].
    cbn [LM.isInitialized LM.model LM.labelMap LM.inverseLabelMap LM.config
         LM.trainingHistory LM.set_isInitialized LM.set_model labelled LM.set_labels].
    split_all.
    + reflexivity.
    + eexists. split; [reflexivity|]. split; [reflexivity|].
      split; [destruct feats; reflexivity|].
      cbn [builtModel LM.layers]. rewrite last_plannedLayers. reflexivity.
    + apply unique_NoDup.
    + intros l. rewrite unique_In, in_map_iff. split; intros (f & H1 & H2); eauto.
    + intros l i. apply indexMap_get, unique_NoDup.
    + intros l. apply indexMap_get_None.
    + intros f0 rest ->. reflexivity.
    + destruct feats; reflexivity.
  - intros Hinit Hrej.
    destruct (initialize_rejected feats s Hinit (labelled_rejected feats s Hrej)) as (done & E).
    eexists. split; [exact E|].
    cbn [LM.isInitialized LM.model LM.labelMap LM.set_model labelled LM.set_labels].
    split; [destruct feats; exact Hinit|]. split; [reflexivity|].
    eexists. split; [reflexivity|]. split; reflexivity.
Qed.

Lemma initialize_builds_label_maps_witness :
  exists s',
    LM.initialize [MS.featuresOf (savedPattern 1000 behavioralCandidate freshStore)]
                  (LM.new LM.noConfig) = Ok tt s'
    /\ LM.isInitialized s' = true.
Proof.
  destruct (proj1 (proj2 (initialize_builds_label_maps
                     [MS.featuresOf (savedPattern 1000 behavioralCandidate freshStore)]
                     (LM.new LM.noConfig))) eq_refl eq_refl ltac:(discriminate))
    as (s' & E & I & _).
  exists s'. split; [exact E | exact I].
Defined.

(** The label rows of the training data, on a model whose inverse label
    map is the index map of a duplicate-free label map (what
    [initialize] and [loadModel] of a saved model establish).  The row of
    a pattern whose label is the [i]-th of the label map has one entry
    per label, 1 at position [i] and 0 elsewhere.  A pattern whose label
    is not in the label map gets the row of the first label. *)
Theorem prepareTrainingData_one_hot :
  forall s p,
    NoDup (LM.labelMap s) ->
    LM.inverseLabelMap s = LM.indexMap (LM.labelMap s) ->
    exists row,
      snd (LM.prepareTrainingData [p] s) = [row]
      /\ (forall i, nth_error (LM.labelMap s) i = Some (LM.label p) ->
                    isOneHot (List.length (LM.labelMap s)) i row)
      /\ (~ In (LM.label p) (LM.labelMap s) -> LM.labelMap s <> [] ->
          isOneHot (List.length (LM.labelMap s)) 0 row).
Proof.
  intros s p Hnd Hinv. eexists. split; [reflexivity|]. rewrite Hinv. split.
  - intros i Hi. rewrite (indexMap_get _ _ _ Hnd Hi). cbn [LM.nullish].
    apply oneHot_isOneHot. apply nth_error_Some. congruence.
  - intros Hnot Hne. rewrite (indexMap_get_None _ _ Hnot). cbn [LM.nullish].
    apply (oneHot_isOneHot _ 0). destruct (LM.labelMap s); [congruence | cbn; lia].
Qed.

Lemma prepareTrainingData_one_hot_witness :
  exists row,
    snd (LM.prepareTrainingData
           [MS.featuresOf (savedPattern 1000 behavioralCandidate freshStore)]
           (MS.learningModel systemWithOneLabel)) = [row]
    /\ isOneHot 1 0 row.
Proof.
  destruct (prepareTrainingData_one_hot
              (MS.learningModel systemWithOneLabel)
              (MS.featuresOf (savedPattern 1000 behavioralCandidate freshStore))
              ltac:(vm_compute; repeat constructor; intros [])
              ltac:(vm_compute; reflexivity))
    as (row & E & H & _).
  exists row. split; [exact E|]. exact (H 0%nat ltac:(vm_compute; reflexivity)).
Defined.

(** ** KnowledgeBase: extraction *)

(** [extractKnowledge] has no initialization check and changes nothing.
    For every pattern it yields at most one item and never a
    relationship: no extractor produces more than one item, and
    [analyzeRelationships] is only consulted for more than one.  An
    extracted item refers to the pattern by its id, carries the pattern's
    confidence and frequency, names the pattern's source as its only
    source, and its tags end with the pattern's tags. *)
Theorem extractKnowledge_at_most_one_item :
  forall env p s,
    exists r,
      KB.extractKnowledge env p s = Ok r s
      /\ (List.length (KB.extractedItems r) <= 1)%nat
      /\ KB.relationships_found r = []
      /\ forall it, In it (KB.extractedItems r) ->
           KB.patternId it = PS.id p
           /\ KB.confidence (KB.metadata it) = PS.confidence (PS.metadata p)
           /\ KB.frequency (KB.metadata it) = PS.frequency (PS.metadata p)
           /\ KB.sources (KB.metadata it) = [PS.source (PS.metadata p)]
           /\ exists own, KB.tags (KB.metadata it) = own ++ PS.tags (PS.metadata p).
Proof.
  intros env p s. exists (KB.extract env p). split; [reflexivity|].
  destruct (extract_shape env p) as (Hrel & Hitems).
  split_all.
  - destruct Hitems as [-> | (it & -> & _)]; cbn [List.length]; lia.
  - exact Hrel.
  - unfold KB.extract. cbn [KB.extractedItems].
    unfold KB.extractBehavioralKnowledge, KB.extractTemporalKnowledge,
      KB.extractSequentialKnowledge, KB.extractCategoricalKnowledge,
      KB.extractGenericKnowledge.
    intros it Hin.
    repeat match type of Hin with
           | context [if ?b then _ else _] => destruct b
           | context [match Js.prop ?k ?d with _ => _ end] => destruct (Js.prop k d)
           end;
      try (destruct Hin; fail);
      (destruct Hin as [<-|[]]; cbn [KB.mkItem KB.patternId KB.metadata KB.confidence
                                      KB.frequency KB.sources KB.tags];
       split_all; try reflexivity; eexists; reflexivity).
Qed.

(** Which extractor runs is decided by the pattern's type alone, and a
    pattern of one of the four known types whose data lacks what that
    extractor needs yields nothing: the generic extractor is not a
    fallback for it.  A pattern of any other type always yields exactly
    one item, a fact whose content is the JSON text of the data. *)
Theorem extract_by_type :
  forall env p,
    let d := PS.data p in
    let its := KB.extractedItems (KB.extract env p) in
    (PS.type p = "behavioral"%string ->
     Js.truthy (Js.prop "trigger" d) = false \/ Js.truthy (Js.prop "action" d) = false ->
     its = [])
    /\ (PS.type p = "temporal"%string -> Js.isArray (Js.prop "sequence" d) = false -> its = [])
    /\ (PS.type p = "sequential"%string -> Js.isArray (Js.prop "steps" d) = false -> its = [])
    /\ (PS.type p = "categorical"%string ->
        Js.truthy (Js.prop "category" d) = false \/ Js.truthy (Js.prop "items" d) = false ->
        its = [])
    /\ (PS.type p <> "behavioral"%string -> PS.type p <> "temporal"%string ->
        PS.type p <> "sequential"%string -> PS.type p <> "categorical"%string ->
        exists it,
          its = [it] /\ KB.type it = KB.fact
          /\ KB.content it = Js.stringify (Js.JObj d)
          /\ KB.structuredData it = d).
Proof.
  intros env p d its. unfold its, KB.extract. cbn [KB.extractedItems]. split_all.
  - intros -> H. cbn [String.eqb Ascii.eqb Bool.eqb]. unfold KB.extractBehavioralKnowledge.
    fold d. destruct H as [-> | ->]; [reflexivity | now rewrite andb_false_r].
  - intros -> H. cbn [String.eqb Ascii.eqb Bool.eqb]. unfold KB.extractTemporalKnowledge.
    fold d. destruct (Js.prop "sequence" d); try reflexivity. discriminate H.
  - intros -> H. cbn [String.eqb Ascii.eqb Bool.eqb]. unfold KB.extractSequentialKnowledge.
    fold d. destruct (Js.prop "steps" d); try reflexivity. discriminate H.
  - intros -> H. cbn [String.eqb Ascii.eqb Bool.eqb]. unfold KB.extractCategoricalKnowledge.
    fold d. destruct H as [-> | ->]; [reflexivity | now rewrite andb_false_r].
  - intros H1 H2 H3 H4.
    apply String.eqb_neq in H1, H2, H3, H4. rewrite H1, H2, H3, H4.
    eexists. split; [reflexivity|]. split_all; reflexivity.
Qed.

Lemma extract_by_type_witness :
  KB.extractedItems
    (KB.extract (MS.extractEnv (exampleEnv 1000 "aaaaaaaaa"))
                (savedPattern 1000
                   (PS.mkCandidate "behavioral" [("trigger"%string, Js.JStr "A")]
                                   (exampleMetadata 1) None)
                   freshStore))
  = [].
Proof.
  refine (proj1 (extract_by_type
                   (MS.extractEnv (exampleEnv 1000 "aaaaaaaaa"))
                   (savedPattern 1000
                      (PS.mkCandidate "behavioral" [("trigger"%string, Js.JStr "A")]
                                      (exampleMetadata 1) None)
                      freshStore)) eq_refl _).
  right. reflexivity.
Defined.

Lemma orderedPairs_In {A} (l : list A) a b :
  In (a, b) (KB.orderedPairs l) -> In a l /\ In b l.
Proof.
  induction l as [|x l IH]; cbn [KB.orderedPairs]; [intros []|].
  intros H. apply in_app_or in H. destruct H as [H|H].
  - apply in_map_iff in H. destruct H as (y & E & Hy). injection E as <- <-.
    split; [now left | now right].
  - destruct (IH H). split; now right.
Qed.

Lemma strength_range c m :
  0 < c -> c <= m -> (0 < inject_Z c / inject_Z m /\ inject_Z c / inject_Z m <= 1)%Q.
Proof.
  intros Hc Hm.
  assert (Hpos : (0 < inject_Z m)%Q) by (unfold Qlt, inject_Z; cbn; lia).
  split.
  - apply Qlt_shift_div_l; [exact Hpos|]. rewrite Qmult_0_l.
    unfold Qlt, inject_Z; cbn; lia.
  - apply Qle_shift_div_r; [exact Hpos|]. rewrite Qmult_1_l.
    unfold Qle, inject_Z; cbn; lia.
Qed.

(** Every relationship [analyzeRelationships] reports is associative,
    links two of the given items that share a tag, and has a strength
    above 0 and at most 1. *)
Theorem analyzeRelationships_sound :
  forall relEnv its rel,
    In rel (KB.analyzeRelationships relEnv its) ->
    KB.rel_type rel = KB.associative
    /\ (0 < KB.strength rel /\ KB.strength rel <= 1)%Q
    /\ exists a b,
         In a its /\ In b its
         /\ KB.fromId rel = KB.id a /\ KB.toId rel = KB.id b
         /\ exists tag, In tag (KB.tags (KB.metadata a)) /\ In tag (KB.tags (KB.metadata b)).
Proof.
  intros relEnv its rel. unfold KB.analyzeRelationships.
  set (P := fun rel =>
              KB.rel_type rel = KB.associative
              /\ (0 < KB.strength rel /\ KB.strength rel <= 1)%Q
              /\ exists a b,
                   In a its /\ In b its
                   /\ KB.fromId rel = KB.id a /\ KB.toId rel = KB.id b
                   /\ exists tag, In tag (KB.tags (KB.metadata a))
                                  /\ In tag (KB.tags (KB.metadata b))).
  assert (Hgen : forall pairs acc,
             (forall a b, In (a, b) pairs -> In a its /\ In b its) ->
             Forall P acc ->
             Forall P
               (fold_left
                  (fun acc pr =>
                     let item1 := fst pr in
                     let item2 := snd pr in
                     let commonTags :=
                       filter (fun tag => existsb (String.eqb tag) (KB.tags (KB.metadata item2)))
                              (KB.tags (KB.metadata item1)) in
                     if (0 <? Z.of_nat (List.length commonTags)) then
                       let e := relEnv (List.length acc) in
                       acc ++ [{| KB.rel_id := KB.generateRelationshipId (fst e) (snd e);
                                  KB.fromId := KB.id item1;
                                  KB.toId := KB.id item2;
                                  KB.rel_type := KB.associative;
                                  KB.strength :=
                                    (inject_Z (Z.of_nat (List.length commonTags))
                                     / inject_Z (Z.max (Z.of_nat (List.length (KB.tags (KB.metadata item1))))
                                                       (Z.of_nat (List.length (KB.tags (KB.metadata item2))))))%Q;
                                  KB.rel_metadata :=
                                    Some [("commonTags"%string, Js.JArr (map Js.JStr commonTags))] |}]
                     else acc)
                  pairs acc)).
  { induction pairs as [|[a b] pairs IH]; intros acc Hp Hacc; cbn [fold_left]; auto.
    apply IH; [intros a' b' H; apply Hp; now right|].
    cbv zeta. cbn [fst snd].
    set (common := filter _ (KB.tags (KB.metadata a))).
    destruct (Z.ltb_spec 0 (Z.of_nat (List.length common))) as [Hpos|]; auto.
    apply Forall_app. split; auto. constructor; [|constructor].
    unfold P. cbn [KB.rel_type KB.strength KB.fromId KB.toId]. split_all.
    - reflexivity.
    - apply strength_range; auto.
      pose proof (filter_length_le
                    (fun tag => existsb (String.eqb tag) (KB.tags (KB.metadata b)))
                    (KB.tags (KB.metadata a))) as Hle.
      fold common in Hle. lia.
    - apply strength_range; auto.
      pose proof (filter_length_le
                    (fun tag => existsb (String.eqb tag) (KB.tags (KB.metadata b)))
                    (KB.tags (KB.metadata a))) as Hle.
      fold common in Hle. lia.
    - destruct (Hp a b (or_introl eq_refl)) as [Ha Hb].
      exists a, b. split_all; auto.
      destruct common as [|tag rest] eqn:C; [cbn in Hpos; lia|].
      assert (Hin : In tag common) by (rewrite C; now left).
      unfold common in Hin. apply filter_In in Hin. destruct Hin as [H1 H2].
      exists tag. split; auto.
      apply existsb_exists in H2. destruct H2 as (y & Hy & E).
      apply String.eqb_eq in E. now subst. }
  intros Hin.
  pose proof (Hgen (KB.orderedPairs its) [] (orderedPairs_In its) (Forall_nil _)) as HF.
  rewrite Forall_forall in HF. exact (HF rel Hin).
Qed.

Lemma analyzeRelationships_sound_witness :
  let its := [exampleItem "a" 1; exampleItem "b" 2] in
  let rel := {| KB.rel_id := KB.generateRelationshipId 5 "r";
                KB.fromId := "a"%string; KB.toId := "b"%string;
                KB.rel_type := KB.associative;
                KB.strength := (inject_Z 1 / inject_Z 1)%Q;
                KB.rel_metadata := Some [("commonTags"%string, Js.JArr [Js.JStr "common"])] |} in
  (0 < KB.strength rel /\ KB.strength rel <= 1)%Q.
Proof.
  cbv zeta.
  refine (proj1 (proj2 (analyzeRelationships_sound (fun _ => (5, "r"%string))
                          [exampleItem "a" 1; exampleItem "b" 2] _ _))).
  left. reflexivity.
Defined.

(** ** KnowledgeBase: storing, updating, querying *)

(** [addKnowledge] on an initialized knowledge base returns, and the
    item can be read back under its id at once.  Unique keys stay unique.
    With a capacity of at least one, a base that is within its capacity
    stays within it; and when the base was full, the entry that made room
    is one with the smallest creation time, which is gone afterwards
    unless the new item took its id. *)
Theorem addKnowledge_round_trip_and_capacity :
  forall it s,
    KB.initialized s = true ->
    JsMap.wf (KB.items s) ->
    exists s',
      KB.addKnowledge it s = Ok tt s'
      /\ KB.getKnowledge (KB.id it) s' = Ok (Some it) s'
      /\ JsMap.wf (KB.items s')
      /\ (1 <= KB.maxItems (KB.config s) ->
          JsMap.size (KB.items s) <= KB.maxItems (KB.config s) ->
          JsMap.size (KB.items s') <= KB.maxItems (KB.config s'))
      /\ (0 < JsMap.size (KB.items s) ->
          JsMap.size (KB.items s) >= KB.maxItems (KB.config s) ->
          exists victim,
            In victim (KB.items s)
            /\ (forall other, In other (KB.items s) ->
                              KB.createdAt (snd victim) <= KB.createdAt (snd other))
            /\ (fst victim <> KB.id it -> JsMap.get (fst victim) (KB.items s') = None)).
Proof.
  intros it s Hinit Hwf.
  destruct (addKnowledge_ok it s Hinit) as (s' & E & Hi & Hc & Hitems).
  exists s'. split; [exact E|]. split_all.
  - unfold KB.getKnowledge, KB.ensureInitialized. run_monad.
    rewrite Hi, Hitems, get_set_eq. reflexivity.
  - rewrite Hitems. apply wf_set. now apply prunedItems_wf.
  - intros Hcap Hsize. rewrite Hc, Hitems. unfold JsMap.size in *.
    rewrite length_set.
    destruct (Z.lt_ge_cases (Z.of_nat (List.length (KB.items s))) (KB.maxItems (KB.config s)))
      as [Hlt|Hge].
    + rewrite (prunedItems_below s Hlt). destruct (JsMap.has (KB.id it) (KB.items s)); lia.
    + destruct (prunedItems_full s Hwf) as (v & _ & _ & _ & Hsz);
        [unfold JsMap.size; lia | unfold JsMap.size; lia|].
      unfold JsMap.size in Hsz.
      destruct (JsMap.has (KB.id it) (prunedItems s)); lia.
  - intros Hpos Hfull.
    destruct (prunedItems_full s Hwf Hfull Hpos) as (v & Hin & Hmin & Hdel & _).
    exists v. split; [exact Hin|]. split; [exact Hmin|].
    intros Hne. rewrite Hitems, get_set_ne by auto. rewrite Hdel. apply get_delete_eq.
Qed.

Lemma addKnowledge_round_trip_and_capacity_witness :
  exists s',
    KB.addKnowledge (exampleItem "k1" 5) freshKnowledgeBase = Ok tt s'
    /\ KB.getKnowledge "k1" s' = Ok (Some (exampleItem "k1" 5)) s'.
Proof.
  destruct (addKnowledge_round_trip_and_capacity (exampleItem "k1" 5) freshKnowledgeBase
              eq_refl ltac:(constructor))
    as (s' & E & G & _).
  exists s'. split; [exact E | exact G].
Defined.

(** [updateKnowledge] on an initialized knowledge base.  For an unknown
    id it returns null and changes nothing.  For a stored item it returns
    the new record, which keeps the id, the pattern id, the type and the
    creation time, takes each of content, structured data and metadata
    from the update when given and from the old record otherwise, and
    carries the clock reading as its update time; the id then reads as
    that record, and relationships and both indexes are left as they
    were, also when the update changed the tags. *)
Theorem updateKnowledge_effect :
  forall s now k u,
    KB.initialized s = true ->
    (JsMap.get k (KB.items s) = None -> KB.updateKnowledge now k u s = Ok None s)
    /\ (forall it,
          JsMap.get k (KB.items s) = Some it ->
          exists it' s',
            KB.updateKnowledge now k u s = Ok (Some it') s'
            /\ KB.id it' = KB.id it /\ KB.patternId it' = KB.patternId it
            /\ KB.type it' = KB.type it /\ KB.createdAt it' = KB.createdAt it
            /\ KB.updatedAt it' = now
            /\ KB.content it' = KB.nullish (KB.upd_content u) (KB.content it)
            /\ KB.structuredData it'
               = KB.nullish (KB.upd_structuredData u) (KB.structuredData it)
            /\ KB.metadata it' = KB.nullish (KB.upd_metadata u) (KB.metadata it)
            /\ KB.getKnowledge k s' = Ok (Some it') s'
            /\ KB.relationships s' = KB.relationships s
            /\ KB.patternIndex s' = KB.patternIndex s
            /\ KB.tagIndex s' = KB.tagIndex s
            /\ forall k', k' <> k ->
                 JsMap.get k' (KB.items s') = JsMap.get k' (KB.items s)).
Proof.
  intros s now k u Hinit. unfold KB.updateKnowledge, KB.ensureInitialized. split.
  - intros Hnone. run_monad. now rewrite Hinit, Hnone.
  - intros it Hget. eexists _, _. split; [run_monad; rewrite Hinit, Hget; reflexivity|].
    cbn [KB.id KB.patternId KB.type KB.createdAt KB.updatedAt KB.content KB.structuredData
         KB.metadata KB.relationships KB.patternIndex KB.tagIndex KB.items KB.set_items].
    split_all; try reflexivity.
    + unfold KB.getKnowledge.
      erewrite bind_ok; [|unfold KB.ensureInitialized; cbn [KB.initialized KB.set_items];
                          rewrite Hinit; reflexivity].
      erewrite bind_ok; [|reflexivity].
      cbn [KB.items KB.set_items]. rewrite get_set_eq. reflexivity.
    + intros k' Hne. apply get_set_ne. congruence.
Qed.

Lemma updateKnowledge_effect_witness :
  exists it' s',
    KB.updateKnowledge 9000 "x" {| KB.upd_content := Some "new"%string;
                                   KB.upd_structuredData := None;
                                   KB.upd_metadata := None |} diamond
    = Ok (Some it') s'
    /\ KB.createdAt it' = 1 /\ KB.updatedAt it' = 9000.
Proof.
  destruct (proj2 (updateKnowledge_effect diamond 9000 "x"%string
                     {| KB.upd_content := Some "new"%string;
                        KB.upd_structuredData := None;
                        KB.upd_metadata := None |} eq_refl)
                  (exampleItem "x" 1) eq_refl)
    as (it' & s' & E & _ & _ & _ & C & U & _).
  exists it', s'. split; [exact E|]. split; [exact C | exact U].
Defined.

Lemma descending_score_trans :
  Relations_1.Transitive
    (fun a b : KB.KnowledgeSearchResult => (KB.relevanceScore b <= KB.relevanceScore a)%Q).
Proof. intros a b c Hab Hbc. eapply Qle_trans; eassumption. Qed.

Lemma type_eqb_eq a b : KB.type_eqb a b = true <-> a = b.
Proof. destruct a, b; cbn; split; intros H; congruence. Qed.

Lemma scoreItem_passesFilters q s it sc :
  KB.scoreItem q s it = Some sc -> passesFilters q it.
Proof.
  unfold KB.scoreItem, passesFilters. intros H.
  destruct (match KB.q_type q with
            | Some t => negb (KB.type_eqb (KB.type it) t)
            | None => false
            end) eqn:Ht; [discriminate|].
  destruct (match KB.q_tags q with
            | Some ts =>
                if 0 <? Z.of_nat (List.length ts)
                then if negb (existsb (fun tag => existsb (String.eqb tag)
                                                    (KB.tags (KB.metadata it))) ts)
                     then None
                     else Some (inject_Z (Z.of_nat (List.length
                                  (filter (fun tag => existsb (String.eqb tag)
                                                        (KB.tags (KB.metadata it))) ts)))
                                / inject_Z (Z.of_nat (List.length ts)))%Q
                else Some 1%Q
            | None => Some 1%Q
            end) as [score1|] eqn:Htags; [|discriminate].
  destruct (match KB.q_patternId q with
            | Some p => Js.truthyStr p && negb (String.eqb (KB.patternId it) p)
            | None => false
            end) eqn:Hp; [discriminate|].
  destruct (match KB.q_minConfidence q with
            | Some c => Js.truthyZ c && (KB.confidence (KB.metadata it) <? c)
            | None => false
            end) eqn:Hc; [discriminate|].
  clear H. split_all.
  - intros t E. rewrite E in Ht. apply negb_false_iff in Ht. now apply type_eqb_eq.
  - intros p E Hne. rewrite E in Hp. apply truthyStr_true in Hne. rewrite Hne in Hp.
    cbn [andb] in Hp. apply negb_false_iff in Hp. now apply String.eqb_eq.
  - intros c E Hne. rewrite E in Hc. apply truthyZ_true in Hne. rewrite Hne in Hc.
    cbn [andb] in Hc. now apply Z.ltb_ge.
  - intros ts E Hne. rewrite E in Htags.
    destruct ts as [|t0 ts']; [congruence|].
    cbn [List.length] in Htags.
    destruct (Z.ltb_spec 0 (Z.of_nat (S (List.length ts')))); [|lia].
    destruct (existsb _ (t0 :: ts')) eqn:Ex; cbn [negb] in Htags; [|discriminate].
    apply existsb_exists in Ex. destruct Ex as (tag & Hin & Hhas).
    exists tag. split; auto.
    apply existsb_exists in Hhas. destruct Hhas as (y & Hy & Ey).
    apply String.eqb_eq in Ey. now subst.
Qed.

(** [queryKnowledge] on an initialized knowledge base returns without
    changing it.  The results are in order of descending relevance score.
    Each result is a stored item that passes the filters of the query,
    with the score the scoring gives it, and every stored item that the
    scoring does not reject is among the results. *)
Theorem queryKnowledge_sorted_sound :
  forall s q,
    KB.initialized s = true ->
    exists rs,
      KB.queryKnowledge q s = Ok rs s
      /\ StronglySorted (fun a b => (KB.relevanceScore b <= KB.relevanceScore a)%Q) rs
      /\ (forall r, In r rs ->
            In (KB.item r) (JsMap.values (KB.items s))
            /\ KB.scoreItem q s (KB.item r) = Some (KB.relevanceScore r)
            /\ passesFilters q (KB.item r))
      /\ (forall it sc, In it (JsMap.values (KB.items s)) ->
            KB.scoreItem q s it = Some sc ->
            In {| KB.item := it; KB.relevanceScore := sc |} rs).
Proof.
  intros s q Hinit. eexists. split.
  - unfold KB.queryKnowledge, KB.ensureInitialized. run_monad. rewrite Hinit. reflexivity.
  - set (results := flat_map _ (JsMap.values (KB.items s))).
    assert (Hres : forall r, In r results <->
                     In (KB.item r) (JsMap.values (KB.items s))
                     /\ KB.scoreItem q s (KB.item r) = Some (KB.relevanceScore r)).
    { intros r. unfold results. rewrite in_flat_map. split.
      - intros (it & Hin & Hr). destruct (KB.scoreItem q s it) as [sc|] eqn:E; [|destruct Hr].
        destruct Hr as [<-|[]]. cbn [KB.item KB.relevanceScore]. auto.
      - intros [Hin Hsc]. exists (KB.item r). split; auto. rewrite Hsc.
        left. destruct r; reflexivity. }
    assert (Hperm : Permutation
                      (KB.sortBy (fun a b => Qle_bool (KB.relevanceScore b) (KB.relevanceScore a))
                                 results) results) by apply sortBy_Permutation.
    split_all.
    + apply Sorted_StronglySorted; [exact descending_score_trans|].
      apply sortBy_Sorted.
      * intros a b H. now apply Qle_bool_iff.
      * intros a b H. now apply Qle_bool_false.
    + intros r Hr. apply (Permutation_in _ Hperm) in Hr. apply Hres in Hr.
      destruct Hr as [H1 H2]. split_all; auto.
      eapply scoreItem_passesFilters. exact H2.
    + intros it sc Hin Hsc. apply (Permutation_in _ (Permutation_sym Hperm)).
      apply Hres. cbn [KB.item KB.relevanceScore]. auto.
Qed.

Lemma queryKnowledge_sorted_sound_witness :
  exists rs,
    KB.queryKnowledge {| KB.q_type := Some KB.fact; KB.q_tags := None;
                         KB.q_patternId := None; KB.q_minConfidence := None;
                         KB.q_text := None; KB.q_relatedTo := None |} diamond
    = Ok rs diamond
    /\ StronglySorted (fun a b => (KB.relevanceScore b <= KB.relevanceScore a)%Q) rs.
Proof.
  destruct (queryKnowledge_sorted_sound diamond
              {| KB.q_type := Some KB.fact; KB.q_tags := None;
                 KB.q_patternId := None; KB.q_minConfidence := None;
                 KB.q_text := None; KB.q_relatedTo := None |} eq_refl)
    as (rs & E & S & _).
  exists rs. split; [exact E | exact S].
Defined.

Lemma findRelatedItems_excludes_start_witness :
  exists result,
    KB.findRelatedItems "x" 2 diamond = Ok result diamond
    /\ Forall (fun it => KB.id it <> "x"%string) result.
Proof.
  refine (findRelatedItems_excludes_start diamond "x"%string 2 eq_refl _).
  intros k it H.
  assert (Hin : In (k, it) (KB.items diamond)) by (apply get_In; exact H).
  vm_compute in Hin.
  repeat (destruct Hin as [Hin|Hin]; [injection Hin as <- <-; reflexivity|]).
  destruct Hin.
Defined.

Lemma totalConfidence_fold l :
  forall acc,
    fold_left (fun acc it => acc + KB.confidence (KB.metadata it)) l acc
    = acc + sumConfidence l.
Proof.
  induction l as [|it l IH]; intros acc; cbn [fold_left sumConfidence fold_right]; [lia|].
  rewrite IH. unfold sumConfidence. lia.
Qed.

Lemma typeName_eqb a b : String.eqb (KB.typeName a) (KB.typeName b) = KB.type_eqb a b.
Proof. destruct a, b; reflexivity. Qed.

(** [getStats] of the knowledge base never throws, initialized or not,
    and changes nothing.  [totalItems] and [totalRelationships] are the
    numbers of stored items and relationships, [byType] has an entry for
    exactly the item types that occur, each with the number of items of
    that type, and [averageConfidence] is the sum of the confidences
    divided by the number of items, or 0 for an empty base. *)
Theorem knowledge_getStats_counts :
  forall s,
    exists st,
      KB.getStats s = Ok st s
      /\ KB.totalItems st = Z.of_nat (List.length (KB.items s))
      /\ KB.totalRelationships st = Z.of_nat (List.length (KB.relationships s))
      /\ (forall t,
            JsMap.get (KB.typeName t) (KB.byType st)
            = if countKnowledgeType t (JsMap.values (KB.items s)) =? 0 then None
              else Some (Js.JNum (countKnowledgeType t (JsMap.values (KB.items s)))))
      /\ (KB.items s = [] -> KB.averageConfidence st = 0%Q)
      /\ (KB.items s <> [] ->
          (KB.averageConfidence st * inject_Z (Z.of_nat (List.length (KB.items s)))
           == inject_Z (sumConfidence (JsMap.values (KB.items s))))%Q).
Proof.
  intros s. eexists. split; [reflexivity|].
  cbn [KB.totalItems KB.totalRelationships KB.byType KB.averageConfidence]. split_all.
  - reflexivity.
  - reflexivity.
  - intros t.
    rewrite (countUp_fold (fun it => KB.typeName (KB.type it)) (KB.typeName t)
               (JsMap.values (KB.items s)) JsMap.empty 0 ltac:(lia) eq_refl).
    unfold countKnowledgeType. rewrite Z.add_0_l.
    assert (Hf : filter (fun p => String.eqb (KB.typeName (KB.type p)) (KB.typeName t))
                        (JsMap.values (KB.items s))
                 = filter (fun it => KB.type_eqb (KB.type it) t) (JsMap.values (KB.items s))).
    { apply filter_ext. intros it. apply typeName_eqb. }
    rewrite Hf.
    set (n := Z.of_nat (List.length (filter (fun it => KB.type_eqb (KB.type it) t)
                                            (JsMap.values (KB.items s))))).
    assert (H0 : 0 <= n) by (unfold n; lia).
    unfold tally.
    destruct (Z.leb_spec n 0); destruct (Z.eqb_spec n 0); try lia;
      destruct t; reflexivity.
  - intros ->. reflexivity.
  - intros Hne. unfold JsMap.size.
    destruct (Z.gtb_spec (Z.of_nat (List.length (KB.items s))) 0) as [Hpos|Hz].
    + rewrite totalConfidence_fold, Z.add_0_l.
      rewrite Qmult_comm. apply Qmult_div_r.
      unfold Qeq, inject_Z. cbn. lia.
    + destruct (KB.items s); [congruence | cbn [List.length] in Hz; lia].
Qed.

(** ** MemoryStorageSystem: initialization and failure of addPattern *)

Lemma for_each_returns {S A} (body : A -> M S unit) (l : list A) :
  (forall x s, exists s', body x s = Ok tt s') ->
  forall s, exists s', for_each l body s = Ok tt s'.
Proof.
  intros Hbody. induction l as [|x l IH]; intros s; cbn [for_each].
  - now exists s.
  - destruct (Hbody x s) as (s1 & E1). destruct (IH s1) as (s2 & E2).
    exists s2. erewrite bind_ok; [exact E2 | exact E1].
Qed.

Lemma knowledge_initialize_returns disk kb :
  exists kb', KB.initialize disk kb = Ok tt kb' /\ KB.initialized kb' = true.
Proof.
  unfold KB.initialize. unfold bind at 1, get_state at 1.
  destruct (KB.initialized kb) eqn:Hinit; [now exists kb|].
  assert (Hload : exists kb1,
             (if KB.enablePersistence (KB.config kb) then KB.loadAllKnowledge disk else ret tt) kb
             = Ok tt kb1).
  { destruct (KB.enablePersistence (KB.config kb)); [|now exists kb].
    unfold KB.loadAllKnowledge.
    destruct (for_each_returns
                (fun item =>
                   if Js.truthyStr (KB.id item)
                   then bind (modify (KB.set_items (JsMap.set (KB.id item) item)))
                             (fun _ => bind (KB.updatePatternIndex item)
                                            (fun _ => KB.updateTagIndex item))
                   else ret tt)
                (KB.knowledgeFiles disk)) with (s := kb) as (kb1 & E1).
    { intros item s0. destruct (Js.truthyStr (KB.id item)); [|now exists s0].
      eexists. erewrite bind_ok; [|reflexivity].
      unfold KB.updatePatternIndex. erewrite bind_ok; [|reflexivity].
      unfold KB.updateTagIndex. apply for_each_modify. }
    destruct (KB.relationshipsFile disk) as [rels|].
    - destruct (for_each_returns
                  (fun rel =>
                     if Js.truthyStr (KB.rel_id rel)
                     then modify (KB.set_relationships (JsMap.set (KB.rel_id rel) rel))
                     else ret tt) rels) with (s := kb1) as (kb2 & E2).
      { intros rel s0. destruct (Js.truthyStr (KB.rel_id rel)); eexists; reflexivity. }
      exists kb2. erewrite bind_ok; [exact E2 | exact E1].
    - exists kb1. erewrite bind_ok; [reflexivity | exact E1]. }
  destruct Hload as (kb1 & E1).
  eexists. split; [erewrite bind_ok; [reflexivity | exact E1]|]. reflexivity.
Qed.

(** [initialize] of the whole system starts with the pattern store, so
    a single expired pattern file makes it throw the pattern store's
    not-initialized error: the pattern store holds what it loaded but is
    not initialized, and the knowledge base and the classifier have not
    been touched. *)
Theorem system_initialize_fails_on_expired_pattern :
  forall env s,
    PS.initialized (MS.patternStorage s) = false ->
    let loaded := PS.loadAllPatterns (MS.patternFiles env) (MS.patternStorage s) in
    (exists kv, In kv (PS.patterns loaded) /\ PS.isExpired (MS.cleanNow env) (snd kv) = true) ->
    MS.initialize env s
    = Throw (NotInitialized CPatternStorage)
            {| MS.patternStorage := loaded;
               MS.learningModel := MS.learningModel s;
               MS.knowledgeBase := MS.knowledgeBase s |}
    /\ PS.initialized loaded = false.
Proof.
  intros env s Hinit loaded Hexp.
  destruct (proj1 (initialize_cases (MS.patternFiles env) (MS.cleanNow env)
                     (MS.patternStorage s) Hinit) Hexp) as [E Hl].
  split; [|exact Hl].
  unfold MS.initialize. apply bind_throw.
  unfold MS.onPatternStorage. rewrite E. reflexivity.
Qed.

Lemma system_initialize_fails_on_expired_pattern_witness :
  let stale := {| PS.id := "test-1"; PS.type := "test"; PS.data := [];
                  PS.metadata := exampleMetadata 1;
                  PS.createdAt := 100; PS.updatedAt := 100;
                  PS.expiresAt := Some 500 |} in
  let env := {| MS.patternFiles := [(stale, None)]; MS.cleanNow := 1000;
                MS.knowledgeDisk := {| KB.knowledgeFiles := [];
                                       KB.relationshipsFile := None |};
                MS.initQueryNow := 1000 |} in
  exists s',
    MS.initialize env (MS.new MS.noConfig) = Throw (NotInitialized CPatternStorage) s'
    /\ KB.initialized (MS.knowledgeBase s') = false.
Proof.
  cbv zeta. eexists. split.
  - refine (proj1 (system_initialize_fails_on_expired_pattern
                     {| MS.patternFiles :=
                          [({| PS.id := "test-1"; PS.type := "test"; PS.data := [];
                               PS.metadata := exampleMetadata 1;
                               PS.createdAt := 100; PS.updatedAt := 100;
                               PS.expiresAt := Some 500 |}, None)];
                        MS.cleanNow := 1000;
                        MS.knowledgeDisk := {| KB.knowledgeFiles := [];
                                               KB.relationshipsFile := None |};
                        MS.initQueryNow := 1000 |}
                     (MS.new MS.noConfig) eq_refl _)).
    eexists. split; [left; reflexivity | reflexivity].
  - reflexivity.
Defined.

(** [initialize] of the whole system on a pattern store and a
    classifier that are not yet initialized, when no loaded pattern is
    expired.  It returns with the pattern store and the knowledge base
    initialized and the loaded patterns in the store.  If nothing was
    loaded the classifier is left as it was, that is uninitialized;
    otherwise, the hidden layers of the configuration being such that
    the network can be built, the classifier is initialized, its labels
    are the distinct types of the loaded patterns in order of first
    occurrence, and its input size is 100. *)
Theorem system_initialize_builds_classifier :
  forall env s,
    PS.initialized (MS.patternStorage s) = false ->
    LM.isInitialized (MS.learningModel s) = false ->
    let loaded := PS.loadAllPatterns (MS.patternFiles env) (MS.patternStorage s) in
    (forall kv, In kv (PS.patterns loaded) -> PS.isExpired (MS.cleanNow env) (snd kv) = false) ->
    (PS.patterns loaded <> [] -> buildable (LM.config (MS.learningModel s)) = true) ->
    exists s',
      MS.initialize env s = Ok tt s'
      /\ PS.initialized (MS.patternStorage s') = true
      /\ PS.patterns (MS.patternStorage s') = PS.patterns loaded
      /\ KB.initialized (MS.knowledgeBase s') = true
      /\ (PS.patterns loaded = [] -> MS.learningModel s' = MS.learningModel s)
      /\ (PS.patterns loaded <> [] ->
          LM.isInitialized (MS.learningModel s') = true
          /\ LM.labelMap (MS.learningModel s')
             = LM.unique (map PS.type (JsMap.values (PS.patterns loaded)))
          /\ LM.inputSize (LM.config (MS.learningModel s')) = 100).
Proof.
  intros env s Hps Hlm loaded Hlive Hbuild.
  pose proof (proj2 (initialize_cases (MS.patternFiles env) (MS.cleanNow env)
                       (MS.patternStorage s) Hps) Hlive) as Eps.
  fold loaded in Eps.
  destruct (knowledge_initialize_returns (MS.knowledgeDisk env) (MS.knowledgeBase s))
    as (kb' & Ekb & Hkb).
  set (ps' := PS.set_initialized true loaded) in *.
  assert (Hq : PS.queryPatterns (MS.initQueryNow env) PS.emptyQuery ps'
               = Ok (JsMap.values (PS.patterns ps')) ps')
    by (apply queryPatterns_all; reflexivity).
  assert (Hfront :
            MS.initialize env s
            = (if 0 <? Z.of_nat (List.length (JsMap.values (PS.patterns ps')))
               then MS.onLearningModel
                      (LM.initialize (map MS.featuresOf (JsMap.values (PS.patterns ps'))))
               else ret tt)
                {| MS.patternStorage := ps'; MS.learningModel := MS.learningModel s;
                   MS.knowledgeBase := kb' |}).
  { unfold MS.initialize.
    erewrite bind_ok; [|apply onPatternStorage_ok; exact Eps].
    erewrite bind_ok; [|apply onKnowledgeBase_ok; exact Ekb].
    erewrite bind_ok; [|apply onPatternStorage_ok; exact Hq].
    reflexivity. }
  rewrite Hfront. cbn [PS.patterns PS.set_initialized ps'].
  unfold JsMap.values. rewrite length_map.
  destruct (PS.patterns loaded) as [|kv rest] eqn:P.
  - eexists. split; [reflexivity|].
    cbn [MS.patternStorage MS.learningModel MS.knowledgeBase].
    split; [reflexivity|]. split; [exact P|]. split; [exact Hkb|].
    split; [intros _; reflexivity | intros Hne; congruence].
  - cbn [List.length]. destruct (Z.ltb_spec 0 (Z.of_nat (S (List.length rest)))); [|lia].
    pose proof (initialize_ok (map MS.featuresOf (map snd (kv :: rest)))
                              (MS.learningModel s) Hlm (Hbuild ltac:(discriminate))
                              ltac:(discriminate)) as E.
    eexists. split; [apply onLearningModel_ok; exact E|].
    cbn [MS.patternStorage MS.learningModel MS.knowledgeBase].
    split; [reflexivity|]. split; [exact P|]. split; [exact Hkb|].
    split; [intros Hnil; discriminate Hnil|].
    intros _.
    cbn [LM.isInitialized LM.labelMap LM.config map LM.inputSize LM.set_inputSize
         LM.set_isInitialized LM.set_model labelled LM.set_labels LM.set_config].
    split; [reflexivity|]. split.
    + unfold JsMap.values. cbn [map]. rewrite !map_map. reflexivity.
    + rewrite featuresOf_length. reflexivity.
Qed.

Lemma system_initialize_builds_classifier_witness :
  let kept := {| PS.id := "test-1"; PS.type := "test"; PS.data := [];
                 PS.metadata := exampleMetadata 1;
                 PS.createdAt := 100; PS.updatedAt := 100;
                 PS.expiresAt := Some 5000 |} in
  let env := {| MS.patternFiles := [(kept, None)]; MS.cleanNow := 1000;
                MS.knowledgeDisk := {| KB.knowledgeFiles := [];
                                       KB.relationshipsFile := None |};
                MS.initQueryNow := 1000 |} in
  exists s',
    MS.initialize env (MS.new MS.noConfig) = Ok tt s'
    /\ LM.labelMap (MS.learningModel s') = ["test"%string].
Proof.
  cbv zeta.
  destruct (system_initialize_builds_classifier
              {| MS.patternFiles :=
                   [({| PS.id := "test-1"; PS.type := "test"; PS.data := [];
                        PS.metadata := exampleMetadata 1;
                        PS.createdAt := 100; PS.updatedAt := 100;
                        PS.expiresAt := Some 5000 |}, None)];
                 MS.cleanNow := 1000;
                 MS.knowledgeDisk := {| KB.knowledgeFiles := [];
                                        KB.relationshipsFile := None |};
                 MS.initQueryNow := 1000 |}
              (MS.new MS.noConfig) eq_refl eq_refl
              ltac:(intros kv [<-|[]]; reflexivity) ltac:(reflexivity))
    as (s' & E & _ & _ & _ & _ & H).
  exists s'. split; [exact E|].
  exact (proj1 (proj2 (H ltac:(discriminate)))).
Defined.



(** ** LearningModel: the training history *)

Lemma progressLog_epochs_from (logs : list LM.EpochLog) :
  forall k,
    map LM.epoch (map (fun kl => LM.progressOf (fst kl) (snd kl))
                      (combine (seq k (List.length logs)) logs))
    = map (fun i => Z.of_nat i + 1) (seq k (List.length logs)).
Proof.
  induction logs as [|l logs IH]; intros k; cbn [List.length seq combine map]; auto.
  rewrite IH. reflexivity.
Qed.

(** [train] on an initialized model with a network first makes the
    tensors of the given patterns; if they cannot be made, which is the
    case when no pattern is given, it throws with the model as it was,
    the training history included.  Otherwise it discards the training
    history it finds.  If [fit] then refuses its arguments, [train]
    throws with an empty history.  If the fit runs, the history holds
    afterwards one entry per epoch that ended during this call, numbered
    from 1 in order, whether the fit returns or throws.  When the fit
    returns and the configured number of epochs is positive, the network
    has gone through exactly one more fit, over the configured number of
    epochs, and the reported accuracy is 0 if the fit history has no
    accuracy.  When the fit throws, [train] throws and the network has
    recorded no fit. *)
Theorem train_resets_history :
  forall s m now patterns outcome,
    LM.isInitialized s = true ->
    LM.model s = Some m ->
    let logs := match outcome with
                | LM.FitReturns logs _ _ => logs
                | LM.FitThrows logs => logs
                end in
    let s' := state_of (LM.train outcome now patterns s) in
    tensorsPass [] s = false
    /\ (tensorsPass patterns s = false ->
        LM.train outcome now patterns s = Throw TensorFailure s)
    /\ (tensorsPass patterns s = true -> fitPasses patterns s = false ->
        LM.train outcome now patterns s = Throw FitFailure s'
        /\ LM.trainingHistory s' = []
        /\ LM.model s' = Some m)
    /\ (tensorsPass patterns s = true -> fitPasses patterns s = true ->
        List.length (LM.trainingHistory s') = List.length logs
        /\ map LM.epoch (LM.trainingHistory s')
           = map (fun i => Z.of_nat i + 1) (seq 0 (List.length logs))
        /\ (forall logs0 lastLoss lastAcc,
              outcome = LM.FitReturns logs0 lastLoss lastAcc ->
              0 < LM.epochs (LM.config s) ->
              exists metrics m',
                LM.train outcome now patterns s = Ok metrics s'
                /\ LM.metrics_loss metrics = lastLoss
                /\ LM.metrics_accuracy metrics = LM.nullish lastAcc 0%Q
                /\ LM.model s' = Some m'
                /\ exists fit, LM.fits m' = LM.fits m ++ [fit]
                               /\ LM.fit_epochs fit = LM.epochs (LM.config s)
                               /\ LM.fit_batchSize fit = LM.batchSize (LM.config s))
        /\ (forall logs0,
              outcome = LM.FitThrows logs0 ->
              LM.train outcome now patterns s = Throw FitFailure s'
              /\ LM.model s' = Some m)).
Proof.
  intros s m now patterns outcome Hi Hm logs s'.
  assert (Hlen : forall l, List.length (LM.progressLog l) = List.length l).
  { intros l. unfold LM.progressLog. rewrite length_map, length_combine, length_seq. lia. }
  pose proof (train_eq outcome now patterns s m Hi Hm) as E.
  split; [reflexivity|]. split; [|split].
  - intros T. rewrite T in E. exact E.
  - intros T F. rewrite T, F in E. unfold s'. rewrite E.
    cbn [state_of LM.trainingHistory LM.set_trainingHistory LM.model]. auto.
  - intros T F. rewrite T, F in E. unfold s'. rewrite E. clear E.
    destruct outcome as [logs0 lastLoss lastAcc | logs0]; cbv zeta.
    + assert (Hst : state_of
                      (if LM.epochs (LM.config s) <=? 0
                       then Throw HistoryFailure
                              (LM.recordFit patterns (LM.epochs (LM.config s))
                                 (LM.set_trainingHistory (LM.progressLog logs0) s))
                       else Ok {| LM.metrics_accuracy := LM.nullish lastAcc 0%Q;
                                  LM.metrics_loss := lastLoss;
                                  LM.metrics_timestamp := now |}
                               (LM.recordFit patterns (LM.epochs (LM.config s))
                                  (LM.set_trainingHistory (LM.progressLog logs0) s)))
                    = LM.recordFit patterns (LM.epochs (LM.config s))
                        (LM.set_trainingHistory (LM.progressLog logs0) s))
        by (destruct (LM.epochs (LM.config s) <=? 0); reflexivity).
      rewrite Hst. unfold LM.recordFit.
      cbn [LM.model LM.set_trainingHistory]. rewrite Hm.
      cbn [LM.trainingHistory LM.set_model LM.model].
      split; [apply Hlen|]. split; [apply progressLog_epochs_from|]. split.
      * intros l0 ll la Heq Hep. injection Heq as <- <- <-.
        destruct (Z.leb_spec (LM.epochs (LM.config s)) 0); [lia|].
        eexists _, _. split; [reflexivity|]. split; [reflexivity|]. split; [reflexivity|].
        split; [reflexivity|].
        eexists. split; [reflexivity|]. split; reflexivity.
      * intros l0 Heq. discriminate Heq.
    + cbn [state_of LM.trainingHistory LM.set_trainingHistory LM.model].
      split; [apply Hlen|]. split; [apply progressLog_epochs_from|]. split.
      * intros l0 ll la Heq. discriminate Heq.
      * intros l0 _. split; [reflexivity | exact Hm].
Qed.

(** A classifier initialized for two labels and trained once, so that
    its history holds one entry; then [train] without patterns throws
    and keeps that entry, and a second training whose fit throws after
    two epochs leaves the two entries of those epochs. *)
Lemma train_resets_history_witness :
  let fa := {| LM.id := "1"; LM.features := [1; 0]%Q; LM.label := "a";
               LM.metadata := {| LM.confidence := 1; LM.frequency := 1;
                                 LM.timestamp := 0 |} |} in
  let fb := {| LM.id := "2"; LM.features := [0; 1]%Q; LM.label := "b";
               LM.metadata := {| LM.confidence := 1; LM.frequency := 1;
                                 LM.timestamp := 0 |} |} in
  let log := {| LM.log_loss := Some (1 # 2); LM.log_accuracy := None; LM.log_now := 10 |} in
  let s := state_of ((LM.initialize [fa; fb] ;;;
                      LM.train (LM.FitReturns [log] (1 # 2) None) 10 [fa; fb])%monad
                       (LM.new LM.noConfig)) in
  map LM.epoch (LM.trainingHistory s) = [1]
  /\ LM.train (LM.FitThrows [log; log]) 20 [] s = Throw TensorFailure s
  /\ map LM.epoch (LM.trainingHistory
                     (state_of (LM.train (LM.FitThrows [log; log]) 20 [fa; fb] s)))
     = [1; 2].
Proof.
  cbv zeta.
  set (fa := {| LM.id := "1"; LM.features := [1; 0]%Q; LM.label := "a";
                LM.metadata := {| LM.confidence := 1; LM.frequency := 1;
                                  LM.timestamp := 0 |} |}).
  set (fb := {| LM.id := "2"; LM.features := [0; 1]%Q; LM.label := "b";
                LM.metadata := {| LM.confidence := 1; LM.frequency := 1;
                                  LM.timestamp := 0 |} |}).
  set (log := {| LM.log_loss := Some (1 # 2); LM.log_accuracy := None; LM.log_now := 10 |}).
  set (s := state_of ((LM.initialize [fa; fb] ;;;
                       LM.train (LM.FitReturns [log] (1 # 2) None) 10 [fa; fb])%monad
                        (LM.new LM.noConfig))).
  set (m := match LM.model s with Some m => m | None => LM.sequential end).
  assert (Hi : LM.isInitialized s = true) by (vm_compute; reflexivity).
  assert (Hm : LM.model s = Some m) by (vm_compute; reflexivity).
  split; [vm_compute; reflexivity|]. split.
  - exact (proj1 (proj2 (train_resets_history s m 20 [] (LM.FitThrows [log; log]) Hi Hm))
             eq_refl).
  - exact (proj1 (proj2 (proj2 (proj2 (proj2
             (train_resets_history s m 20 [fa; fb] (LM.FitThrows [log; log]) Hi Hm)))
             ltac:(vm_compute; reflexivity) ltac:(vm_compute; reflexivity)))).
Defined.
